(** * PDF outline extractor: heading and title inference

    A shallow embedding of the two copies of the extraction engine,
    [process_pdfs.py] (the batch driver, module [ProcessPdfs]) and
    [extractor/views.py] (the web view, module [Views]), and the
    properties of the outline they produce.

    Modelling conventions.
    - A Python [str] is a [string]; a character is its code point, and the
      model covers the code points below 256.  The character classes are
      those of CPython for that range ([str.isspace], [str.isdigit],
      [str.isupper], [str.lower], and the [\s], [\d] classes of [re] on
      [str] patterns).
    - A Python function that may raise returns a [result]; [try]/[except
      Exception] is [try_except].  [print] calls are not modelled.
    - The two PDF libraries are the environment: a [PdfFile] says what
      opening the path with each backend gives, and what each page's
      [extract_text()] and [chars] give (a value or an exception); a call
      repeated on the same page gives the same outcome.  An [extract_text()]
      that yields [None] is the empty string (both are falsy).
    - Font sizes are rationals.
    - A value held in a dict is a [json]: one of the values that [json] reads
      and writes, or an object of another class, which [json] cannot write. *)

From Stdlib Require Import String Ascii List Bool Arith ZArith QArith Lia Sorted.
From Stdlib Require Import DecimalString.
Import ListNotations.
Open Scope string_scope.

(** ** Python [str] built-ins *)

Module Py.

Definition code (c : ascii) : N := N_of_ascii c.

Definition between (lo hi : N) (c : ascii) : bool :=
  (lo <=? code c)%N && (code c <=? hi)%N.

(** [str.isspace] on one character; also the [\s] class of [re]. *)
Definition isspace_char (c : ascii) : bool :=
  between 9 13 c || between 28 32 c || (code c =? 133)%N || (code c =? 160)%N.

(** The [\d] class of [re]: Unicode decimal digits. *)
Definition isdecimal_char (c : ascii) : bool := between 48 57 c.

(** [str.isdigit] on one character: decimals and the superscript digits. *)
Definition isdigit_char (c : ascii) : bool :=
  between 48 57 c || (code c =? 178)%N || (code c =? 179)%N || (code c =? 185)%N.

Definition isupper_char (c : ascii) : bool :=
  between 65 90 c || between 192 214 c || between 216 222 c.

Definition islower_char (c : ascii) : bool :=
  between 97 122 c || (code c =? 170)%N || (code c =? 181)%N || (code c =? 186)%N
  || between 223 246 c || between 248 255 c.

(** The class [[A-Z]] of [re]. *)
Definition is_AZ (c : ascii) : bool := between 65 90 c.

Definition lower_char (c : ascii) : ascii :=
  if isupper_char c then ascii_of_N (code c + 32) else c.

Definition len (s : string) : nat := String.length s.

(** Truth value of a [str]: non-empty. *)
Definition truthy (s : string) : bool :=
  match s with EmptyString => false | String _ _ => true end.

Fixpoint lstrip (s : string) : string :=
  match s with
  | EmptyString => EmptyString
  | String c r => if isspace_char c then lstrip r else s
  end.

Fixpoint rstrip (s : string) : string :=
  match s with
  | EmptyString => EmptyString
  | String c r =>
      match rstrip r with
      | EmptyString => if isspace_char c then EmptyString else String c EmptyString
      | String d t => String c (String d t)
      end
  end.

(** [s.strip()] *)
Definition strip (s : string) : string := rstrip (lstrip s).

(** [s.split(sep)] for a one-character separator. *)
Fixpoint split (sep : ascii) (s : string) : list string :=
  match s with
  | EmptyString => [EmptyString]
  | String c r =>
      if Ascii.eqb c sep then EmptyString :: split sep r
      else match split sep r with
           | h :: t => String c h :: t
           | [] => [String c EmptyString]
           end
  end.

Definition newline : ascii := ascii_of_N 10.

Definition splitlines (s : string) : list string := split newline s.

Fixpoint map_chars (f : ascii -> ascii) (s : string) : string :=
  match s with
  | EmptyString => EmptyString
  | String c r => String (f c) (map_chars f r)
  end.

(** [s.lower()] *)
Definition lower (s : string) : string := map_chars lower_char s.

Fixpoint forallb_chars (p : ascii -> bool) (s : string) : bool :=
  match s with
  | EmptyString => true
  | String c r => p c && forallb_chars p r
  end.

(** [s.isdigit()]: non-empty and every character is a digit. *)
Definition isdigit (s : string) : bool := truthy s && forallb_chars isdigit_char s.

(** [s.isupper()]: no lower-case character and at least one upper-case one. *)
Fixpoint isupper_from (cased : bool) (s : string) : bool :=
  match s with
  | EmptyString => cased
  | String c r =>
      if islower_char c then false
      else isupper_from (cased || isupper_char c) r
  end.

Definition isupper (s : string) : bool := isupper_from false s.

(** [s.istitle()]: upper-case characters only after uncased ones, lower-case
    characters only after cased ones, and at least one cased character. *)
Fixpoint istitle_from (cased previous_is_cased : bool) (s : string) : bool :=
  match s with
  | EmptyString => cased
  | String c r =>
      if isupper_char c then
        if previous_is_cased then false else istitle_from true true r
      else if islower_char c then
        if previous_is_cased then istitle_from true true r else false
      else istitle_from cased false r
  end.

Definition istitle (s : string) : bool := istitle_from false false s.

(** [needle in hay] *)
Fixpoint contains (needle hay : string) : bool :=
  String.prefix needle hay
  || match hay with
     | EmptyString => false
     | String _ r => contains needle r
     end.

(** [any(word in s for word in words)] *)
Definition any_in (words : list string) (s : string) : bool :=
  existsb (fun w => contains w s) words.

End Py.

(** ** The regular expressions of the source

    Every pattern of the source is a sequence of character classes, each
    taken once or one-or-more times, matched from the start of the line
    ([re.match]); two patterns end in [$].  [re_match] tries every way of
    cutting the line, as the backtracking matcher does. *)

Module Re.

Inductive item : Type :=
| One (cls : ascii -> bool)
| Many1 (cls : ascii -> bool).

Definition pattern : Type := list item.

(** Some prefix of [s] matches [p]. *)
Fixpoint re_match (p : pattern) (s : string) {struct s} : bool :=
  match p with
  | [] => true
  | One cls :: q =>
      match s with
      | EmptyString => false
      | String c r => cls c && re_match q r
      end
  | Many1 cls :: q =>
      match s with
      | EmptyString => false
      | String c r => cls c && (re_match (Many1 cls :: q) r || re_match q r)
      end
  end.

(** [$]: the end of the string, or just before a final newline. *)
Definition at_end (s : string) : bool :=
  match s with
  | EmptyString => true
  | String c EmptyString => Ascii.eqb c Py.newline
  | _ => false
  end.

(** Some prefix of [s] matches [p] and is followed by [$]. *)
Fixpoint re_match_end (p : pattern) (s : string) {struct s} : bool :=
  match p with
  | [] => at_end s
  | One cls :: q =>
      match s with
      | EmptyString => false
      | String c r => cls c && re_match_end q r
      end
  | Many1 cls :: q =>
      match s with
      | EmptyString => false
      | String c r => cls c && (re_match_end (Many1 cls :: q) r || re_match_end q r)
      end
  end.

Definition chr (a : ascii) : ascii -> bool := fun c => Ascii.eqb c a.

(** A literal character under [re.IGNORECASE]. *)
Definition chr_i (a : ascii) : ascii -> bool :=
  fun c => Ascii.eqb (Py.lower_char c) (Py.lower_char a).

Fixpoint lit_i (w : string) : pattern :=
  match w with
  | EmptyString => []
  | String a r => One (chr_i a) :: lit_i r
  end.

Definition dot : ascii -> bool := chr ".".
Definition d : ascii -> bool := Py.isdecimal_char.
Definition s : ascii -> bool := Py.isspace_char.
Definition AZ : ascii -> bool := Py.is_AZ.
Definition AZ_or_s : ascii -> bool := fun c => Py.is_AZ c || Py.isspace_char c.
Definition IVX : ascii -> bool := fun c => chr "I" c || chr "V" c || chr "X" c.

End Re.

(** ** Results, documents and the two backends *)

(** The outcome of a call that may raise: a value, or an exception with its
    message. *)
Inductive result (A : Type) : Type :=
| Ok (a : A)
| Raise (e : string).

Arguments Ok {A} a.
Arguments Raise {A} e.

Definition bind {A B : Type} (c : result A) (k : A -> result B) : result B :=
  match c with
  | Ok a => k a
  | Raise e => Raise e
  end.

(** [try: body except Exception as e: handler e] *)
Definition try_except {A : Type} (body : result A) (handler : string -> result A)
  : result A :=
  match body with
  | Ok a => Ok a
  | Raise e => handler e
  end.

Declare Scope result_scope.
Delimit Scope result_scope with result.
Notation "x <- c ;; k" := (bind c (fun x => k))
  (at level 61, c at next level, right associativity) : result_scope.
Open Scope result_scope.

Inductive Level : Type := H1 | H2 | H3.

(** One entry of the outline: the dict with keys [level], [text], [page]. *)
Record HeadingEntry : Type := mkHeading {
  level : Level;
  text : string;
  page : Z
}.

(** The values of Python that the code holds in a dict: those that [json]
    reads and writes, and [JObject], an object of another class (its name),
    which is no [str], [int], [float], [list] or [dict] and which [json]
    cannot write. *)
#[warnings="-register-all"]
Inductive json : Type :=
| JNull
| JBool (b : bool)
| JInt (z : Z)
| JFloat (q : Q)
| JStr (s : string)
| JList (l : list json)
| JDict (kvs : list (string * json))
| JObject (class_name : string).

(** The returned dict: [title], [outline], and the key [error] when present.
    The title is a [str] in process_pdfs.py ([Document]); in views.py it is
    whatever object was stored ([Document_of json]). *)
Record Document_of (T : Type) : Type := mkDocument {
  title : T;
  outline : list HeadingEntry;
  error : option string
}.

Arguments mkDocument {T} title outline error.
Arguments title {T} d.
Arguments outline {T} d.
Arguments error {T} d.

Definition Document : Type := Document_of string.

(** A glyph record of pdfplumber ([page.chars]); the key [size] may be absent. *)
Record Glyph : Type := mkGlyph { size : option Q }.

(** A pdfplumber page: what [page.extract_text()] and [page.chars] give. *)
Record RichPage : Type := mkRichPage {
  extract_text : result string;
  chars : result (list Glyph)
}.

(** A PyPDF2 page: what [page.extract_text()] gives. *)
Record PlainPage : Type := mkPlainPage { plain_extract_text : result string }.

(** A value of the PyPDF2 metadata: a text string, or an object of another
    class (a number, a null object, an array, ...), given by the value it is
    in a dict and by what [str()] makes of it. *)
Inductive MetadataValue : Type :=
| TextString (s : string)
| PdfObject (o : json) (str_o : string).

(** [str(v)] *)
Definition metadata_str (v : MetadataValue) : string :=
  match v with
  | TextString s => s
  | PdfObject _ str_o => str_o
  end.

(** [v] itself, as a value held in a dict. *)
Definition metadata_object (v : MetadataValue) : json :=
  match v with
  | TextString s => JStr s
  | PdfObject o _ => o
  end.

(** A PyPDF2 reader: [metadata] ([None], or its key-value pairs) and
    [pages]. *)
Record PdfReader : Type := mkPdfReader {
  metadata : option (list (string * MetadataValue));
  reader_pages : list PlainPage
}.

(** What is behind a path: the outcome of [pdfplumber.open(path)] with its
    pages, and of [open(path, 'rb')] with [PdfReader(file)]. *)
Record PdfFile : Type := mkPdfFile {
  pdfplumber_open : result (list RichPage);
  pypdf2_open : result PdfReader
}.

(** [d.get(key)] on the metadata pairs. *)
Fixpoint lookup {V : Type} (key : string) (kvs : list (string * V)) : option V :=
  match kvs with
  | [] => None
  | (k, v) :: r => if String.eqb k key then Some v else lookup key r
  end.

(** [pdf_reader.metadata and '/Title' in pdf_reader.metadata], with the value. *)
Definition metadata_title (reader : PdfReader) : option MetadataValue :=
  match metadata reader with
  | None => None
  | Some [] => None
  | Some kvs => lookup "/Title" kvs
  end.

(** *** The font-size histogram *)

(** [font_sizes[size] = font_sizes.get(size, 0) + 1] on an insertion-ordered
    dict. *)
Fixpoint count_size (q : Q) (font_sizes : list (Q * nat)) : list (Q * nat) :=
  match font_sizes with
  | [] => [(q, 1%nat)]
  | (k, n) :: r =>
      if Qeq_bool k q then (k, S n) :: r else (k, n) :: count_size q r
  end.

Definition font_sizes_of (cs : list Glyph) : list (Q * nat) :=
  fold_left (fun fs g => match size g with
                         | Some q => count_size q fs
                         | None => fs
                         end) cs [].

Fixpoint insert_desc (q : Q) (l : list Q) : list Q :=
  match l with
  | [] => [q]
  | x :: r => if Qle_bool q x then x :: insert_desc q r else q :: l
  end.

(** [sorted(font_sizes.keys(), reverse=True)] *)
Definition sorted_sizes_of (font_sizes : list (Q * nat)) : list Q :=
  fold_right insert_desc [] (map fst font_sizes).

(** ** process_pdfs.py *)

Module ProcessPdfs.

Import Py Re.

(** [^\d+\.\s+[A-Z]] *)
Definition re_one_level : pattern := [Many1 d; One dot; Many1 s; One AZ].
(** [^\d+\.\d+\s+[A-Z]] *)
Definition re_two_level : pattern := [Many1 d; One dot; Many1 d; Many1 s; One AZ].
(** [^\d+\.\d+\.\d+\s+[A-Z]] *)
Definition re_three_level : pattern :=
  [Many1 d; One dot; Many1 d; One dot; Many1 d; Many1 s; One AZ].
(** [^(Chapter|Section|Part)\s+\d+] with [re.IGNORECASE] *)
Definition re_chapter (line : string) : bool :=
  re_match (lit_i "Chapter" ++ [Many1 s; Many1 d])%list line
  || re_match (lit_i "Section" ++ [Many1 s; Many1 d])%list line
  || re_match (lit_i "Part" ++ [Many1 s; Many1 d])%list line.
(** [^[IVX]+\.\s+[A-Z]] *)
Definition re_roman : pattern := [Many1 IVX; One dot; Many1 s; One AZ].
(** [^[A-Z]\.\s+[A-Z]] *)
Definition re_alpha : pattern := [One AZ; One dot; Many1 s; One AZ].
(** [^[A-Z][A-Z\s]+[A-Z]$] *)
Definition re_all_caps : pattern := [One AZ; Many1 AZ_or_s; One AZ].
(** [^\d+$] *)
Definition re_number : pattern := [Many1 d].

Definition h1_words : list string :=
  ["introduction"; "conclusion"; "overview"; "summary"; "abstract"].
Definition h2_words : list string := ["method"; "result"; "discussion"; "analysis"].

Definition detect_heading_level (line : string) (sorted_sizes : list Q)
  : option Level :=
  if re_match re_one_level line then Some H1
  else if re_match re_two_level line then Some H2
  else if re_match re_three_level line then Some H3
  else if re_chapter line then Some H1
  else if isupper line && (4 <=? len line)%nat && (len line <=? 100)%nat then Some H1
  else if istitle line && (5 <=? len line)%nat && (len line <=? 100)%nat then
    if any_in h1_words (lower line) then Some H1
    else if any_in h2_words (lower line) then Some H2
    else Some H2
  else if re_match re_roman line then Some H1
  else if re_match re_alpha line then Some H2
  else None.

(** The loop of [extract_title_from_page]. *)
Fixpoint title_loop (lines : list string) : string :=
  match lines with
  | [] => ""
  | l :: rest =>
      let line := strip l in
      if truthy line && (3 <? len line)%nat && negb (isdigit line) then
        if negb (re_match_end re_number line) then line else title_loop rest
      else title_loop rest
  end.

Definition extract_title_from_page (page : RichPage) : result string :=
  try_except
    (text <- extract_text page ;;
     if negb (truthy text) then Ok ""
     else Ok (title_loop (splitlines text)))
    (fun _ => Ok "").

(** The loop of [extract_headings_from_page] over the lines of a page. *)
Fixpoint headings_loop (sorted_sizes : list Q) (page_num : Z)
    (lines : list string) (headings : list HeadingEntry) : list HeadingEntry :=
  match lines with
  | [] => headings
  | l :: rest =>
      let line := strip l in
      if negb (truthy line) || (len line <? 3)%nat then
        headings_loop sorted_sizes page_num rest headings
      else
        match detect_heading_level line sorted_sizes with
        | Some heading_level =>
            headings_loop sorted_sizes page_num rest
              (headings ++ [mkHeading heading_level line page_num])%list
        | None => headings_loop sorted_sizes page_num rest headings
        end
  end.

(** The [if]/[elif] chain shared by [extract_headings_fallback] and
    [extract_headings_from_text]. *)
Definition simple_level (line : string) : option Level :=
  if re_match_end re_all_caps line && (4 <=? len line)%nat && (len line <=? 100)%nat
  then Some H1
  else if re_match re_one_level line then Some H1
  else if re_match re_two_level line then Some H2
  else if re_match re_three_level line then Some H3
  else None.

Fixpoint simple_loop (page_num : Z) (lines : list string)
    (headings : list HeadingEntry) : list HeadingEntry :=
  match lines with
  | [] => headings
  | l :: rest =>
      let line := strip l in
      if negb (truthy line) || (len line <? 3)%nat then
        simple_loop page_num rest headings
      else
        match simple_level line with
        | Some lvl =>
            simple_loop page_num rest (headings ++ [mkHeading lvl line page_num])%list
        | None => simple_loop page_num rest headings
        end
  end.

Definition extract_headings_fallback (page : RichPage) (page_num : Z)
  : result (list HeadingEntry) :=
  try_except
    (text <- extract_text page ;;
     if negb (truthy text) then Ok []
     else Ok (simple_loop page_num (splitlines text) []))
    (fun _ => Ok []).

Definition extract_headings_from_page (page : RichPage) (page_num : Z)
  : result (list HeadingEntry) :=
  try_except
    (text <- extract_text page ;;
     if negb (truthy text) then Ok []
     else
       cs <- chars page ;;
       let font_sizes := font_sizes_of cs in
       let sorted_sizes := sorted_sizes_of font_sizes in
       Ok (headings_loop sorted_sizes page_num (splitlines text) []))
    (fun _ =>
       fallback <- extract_headings_fallback page page_num ;;
       Ok ([] ++ fallback)%list).

Definition extract_headings_from_text (text : string) (page_num : Z)
  : list HeadingEntry :=
  simple_loop page_num (splitlines text) [].

(** [for page_num, page in enumerate(pdf.pages, 1)] of [extract_pdf_outline]. *)
Fixpoint pages_loop (page_num : Z) (pages : list RichPage)
    (outline : list HeadingEntry) : result (list HeadingEntry) :=
  match pages with
  | [] => Ok outline
  | p :: rest =>
      headings <- extract_headings_from_page p page_num ;;
      pages_loop (page_num + 1) rest (outline ++ headings)%list
  end.

(** The loop of [extract_with_pypdf2] that scans the first page for a title. *)
Fixpoint plain_title_loop (lines : list string) : string :=
  match lines with
  | [] => ""
  | l :: rest =>
      let line := strip l in
      if truthy line && (3 <? len line)%nat && negb (isdigit line) then line
      else plain_title_loop rest
  end.

Fixpoint plain_pages_loop (page_num : Z) (pages : list PlainPage)
    (outline : list HeadingEntry) : result (list HeadingEntry) :=
  match pages with
  | [] => Ok outline
  | p :: rest =>
      text <- plain_extract_text p ;;
      if truthy text then
        plain_pages_loop (page_num + 1) rest
          (outline ++ extract_headings_from_text text page_num)%list
      else plain_pages_loop (page_num + 1) rest outline
  end.

(** The body of the [try] of [extract_with_pypdf2]. *)
Definition pypdf2_body (pdf : PdfFile) : result Document :=
  pdf_reader <- pypdf2_open pdf ;;
  doc_title <-
    match metadata_title pdf_reader with
    | Some v => Ok (metadata_str v)
    | None =>
        match reader_pages pdf_reader with
        | [] => Ok ""
        | first_page :: _ =>
            first_page_text <- plain_extract_text first_page ;;
            if truthy first_page_text
            then Ok (plain_title_loop (splitlines first_page_text))
            else Ok ""
        end
    end ;;
  hs <- plain_pages_loop 1 (reader_pages pdf_reader) [] ;;
  Ok (mkDocument doc_title hs None).

Definition extract_with_pypdf2 (pdf : PdfFile) : result Document :=
  try_except (pypdf2_body pdf)
    (fun _ => Ok (mkDocument "Error extracting title" [] None)).

(** The body of the [try] of [extract_pdf_outline]. *)
Definition pdfplumber_body (pdf : PdfFile) : result Document :=
  pages <- pdfplumber_open pdf ;;
  doc_title <-
    match pages with
    | [] => Ok ""
    | first_page :: _ => extract_title_from_page first_page
    end ;;
  hs <- pages_loop 1 pages [] ;;
  Ok (mkDocument doc_title hs None).

Definition extract_pdf_outline (pdf : PdfFile) : result Document :=
  try_except (pdfplumber_body pdf) (fun _ => extract_with_pypdf2 pdf).

End ProcessPdfs.

(** ** extractor/views.py *)

Module Views.

Import Py Re.

(** [^\d+\.\s+] *)
Definition re_one_level : pattern := [Many1 d; One dot; Many1 s].
(** [^\d+\.\d+\s+] *)
Definition re_two_level : pattern := [Many1 d; One dot; Many1 d; Many1 s].
(** [^\d+\.\d+\.\d+\s+] *)
Definition re_three_level : pattern :=
  [Many1 d; One dot; Many1 d; One dot; Many1 d; Many1 s].
(** [^[A-Z][A-Z\s]+[A-Z]$] *)
Definition re_all_caps : pattern := [One AZ; Many1 AZ_or_s; One AZ].
(** The patterns of the fallback: [^\d+\.\s+[A-Z]], [^\d+\.\d+\s+[A-Z]],
    [^\d+\.\d+\.\d+\s+[A-Z]]. *)
Definition re_numbered : pattern := [Many1 d; One dot; Many1 s; One AZ].
Definition re_subsection : pattern := [Many1 d; One dot; Many1 d; Many1 s; One AZ].
Definition re_subsubsection : pattern :=
  [Many1 d; One dot; Many1 d; One dot; Many1 d; Many1 s; One AZ].

Definition heading_keywords : list string :=
  ["chapter"; "section"; "introduction"; "conclusion"; "overview"; "summary"].

Definition detect_heading_level (line : string) (cs : list Glyph)
    (sorted_sizes : list Q) : option Level :=
  if re_match re_one_level line then Some H1
  else if re_match re_two_level line then Some H2
  else if re_match re_three_level line then Some H3
  else if isupper line && (3 <? len line)%nat then Some H1
  else if istitle line && (10 <=? len line)%nat && (len line <=? 100)%nat then Some H2
  else if any_in heading_keywords (lower line) then Some H2
  else if negb (Nat.eqb (List.length sorted_sizes) 0)
          && (2 <? List.length sorted_sizes)%nat
  then None
  else None.

Fixpoint title_loop (lines : list string) : string :=
  match lines with
  | [] => ""
  | l :: rest =>
      let line := strip l in
      if truthy line && (3 <? len line)%nat then line else title_loop rest
  end.

Definition extract_title_from_page (page : RichPage) : result string :=
  text <- extract_text page ;;
  if negb (truthy text) then Ok ""
  else Ok (title_loop (splitlines text)).

Fixpoint headings_loop (cs : list Glyph) (sorted_sizes : list Q) (page_num : Z)
    (lines : list string) (headings : list HeadingEntry) : list HeadingEntry :=
  match lines with
  | [] => headings
  | l :: rest =>
      let line := strip l in
      if negb (truthy line) then headings_loop cs sorted_sizes page_num rest headings
      else
        match detect_heading_level line cs sorted_sizes with
        | Some heading_level =>
            headings_loop cs sorted_sizes page_num rest
              (headings ++ [mkHeading heading_level line page_num])%list
        | None => headings_loop cs sorted_sizes page_num rest headings
        end
  end.

(** The [if]/[elif] chain shared by [extract_headings_fallback] and
    [extract_headings_from_text]. *)
Definition simple_level (line : string) : option Level :=
  if re_match_end re_all_caps line && (3 <? len line)%nat then Some H1
  else if re_match re_numbered line then Some H1
  else if re_match re_subsection line then Some H2
  else if re_match re_subsubsection line then Some H3
  else None.

Fixpoint simple_loop (page_num : Z) (lines : list string)
    (headings : list HeadingEntry) : list HeadingEntry :=
  match lines with
  | [] => headings
  | l :: rest =>
      let line := strip l in
      if negb (truthy line) then simple_loop page_num rest headings
      else
        match simple_level line with
        | Some lvl =>
            simple_loop page_num rest (headings ++ [mkHeading lvl line page_num])%list
        | None => simple_loop page_num rest headings
        end
  end.

Definition extract_headings_fallback (page : RichPage) (page_num : Z)
  : result (list HeadingEntry) :=
  text <- extract_text page ;;
  if negb (truthy text) then Ok []
  else Ok (simple_loop page_num (splitlines text) []).

Definition extract_headings_from_page (page : RichPage) (page_num : Z)
  : result (list HeadingEntry) :=
  try_except
    (text <- extract_text page ;;
     if negb (truthy text) then Ok []
     else
       cs <- chars page ;;
       let font_sizes := font_sizes_of cs in
       let sorted_sizes := sorted_sizes_of font_sizes in
       Ok (headings_loop cs sorted_sizes page_num (splitlines text) []))
    (fun _ =>
       fallback <- extract_headings_fallback page page_num ;;
       Ok ([] ++ fallback)%list).

Definition extract_headings_from_text (text : string) (page_num : Z)
  : list HeadingEntry :=
  simple_loop page_num (splitlines text) [].

Fixpoint pages_loop (page_num : Z) (pages : list RichPage)
    (outline : list HeadingEntry) : result (list HeadingEntry) :=
  match pages with
  | [] => Ok outline
  | p :: rest =>
      headings <- extract_headings_from_page p page_num ;;
      pages_loop (page_num + 1) rest (outline ++ headings)%list
  end.

Fixpoint plain_title_loop (lines : list string) : string :=
  match lines with
  | [] => ""
  | l :: rest =>
      let line := strip l in
      if truthy line && (3 <? len line)%nat then line else plain_title_loop rest
  end.

Fixpoint plain_pages_loop (page_num : Z) (pages : list PlainPage)
    (outline : list HeadingEntry) : result (list HeadingEntry) :=
  match pages with
  | [] => Ok outline
  | p :: rest =>
      text <- plain_extract_text p ;;
      if truthy text then
        plain_pages_loop (page_num + 1) rest
          (outline ++ extract_headings_from_text text page_num)%list
      else plain_pages_loop (page_num + 1) rest outline
  end.

Definition pypdf2_body (pdf : PdfFile) : result (Document_of json) :=
  pdf_reader <- pypdf2_open pdf ;;
  doc_title <-
    match metadata_title pdf_reader with
    | Some v => Ok (metadata_object v)
    | None =>
        match reader_pages pdf_reader with
        | [] => Ok (JStr "")
        | first_page :: _ =>
            first_page_text <- plain_extract_text first_page ;;
            if truthy first_page_text
            then Ok (JStr (plain_title_loop (splitlines first_page_text)))
            else Ok (JStr "")
        end
    end ;;
  hs <- plain_pages_loop 1 (reader_pages pdf_reader) [] ;;
  Ok (mkDocument doc_title hs None).

Definition extract_with_pypdf2 (pdf : PdfFile) : result (Document_of json) :=
  try_except (pypdf2_body pdf)
    (fun _ => Ok (mkDocument (JStr "Error extracting title") [] None)).

Definition pdfplumber_body (pdf : PdfFile) : result (Document_of json) :=
  pages <- pdfplumber_open pdf ;;
  doc_title <-
    match pages with
    | [] => Ok ""
    | first_page :: _ => extract_title_from_page first_page
    end ;;
  hs <- pages_loop 1 pages [] ;;
  Ok (mkDocument (JStr doc_title) hs None).

Definition extract_pdf_outline (pdf : PdfFile) : result (Document_of json) :=
  try_except (pdfplumber_body pdf) (fun _ => extract_with_pypdf2 pdf).

End Views.

(** ** Notions used to state the properties *)

(** The whole of [w] matches [p] (the prefix that [re_match] looks for). *)
Fixpoint re_full (p : Re.pattern) (w : string) {struct w} : bool :=
  match p with
  | [] => negb (Py.truthy w)
  | Re.One cls :: q =>
      match w with
      | EmptyString => false
      | String c r => cls c && re_full q r
      end
  | Re.Many1 cls :: q =>
      match w with
      | EmptyString => false
      | String c r => cls c && (re_full (Re.Many1 cls :: q) r || re_full q r)
      end
  end.

(** [l1] is [l2] with some elements left out, the order kept. *)
Inductive subseq {A : Type} : list A -> list A -> Prop :=
| subseq_nil : subseq [] []
| subseq_skip x l1 l2 : subseq l1 l2 -> subseq l1 (x :: l2)
| subseq_take x l1 l2 : subseq l1 l2 -> subseq (x :: l1) (x :: l2).

(** An outline in scan order for pages numbered from [n]: the entries of
    the first page, in the order of its lines, then those of the next. *)
Inductive scan_from : Z -> list (list string) -> list HeadingEntry -> Prop :=
| scan_done n : scan_from n [] []
| scan_page n lines rest hs out :
    Forall (fun h => page h = n) hs ->
    subseq (map text hs) lines ->
    scan_from (n + 1) rest out ->
    scan_from n (lines :: rest) (hs ++ out)%list.

(** The stripped lines of a page, none when its text cannot be read. *)
Definition stripped_lines (t : result string) : list string :=
  match t with
  | Ok txt => map Py.strip (Py.splitlines txt)
  | Raise _ => []
  end.

(** The entries that one pass over the lines of a page appends. *)
Definition entries_of (skip : string -> bool) (classify : string -> option Level)
    (page_num : Z) (lines : list string) : list HeadingEntry :=
  flat_map (fun l =>
              let line := Py.strip l in
              if skip line then []
              else match classify line with
                   | Some lvl => [mkHeading lvl line page_num]
                   | None => []
                   end) lines.

(** The title a scan of the lines gives: the first stripped line that
    qualifies, the empty string when none does. *)
Definition first_line (qualifies : string -> bool) (lines : list string) : string :=
  match find qualifies (map Py.strip lines) with
  | Some line => line
  | None => ""
  end.

(** A string that does not start with white space. *)
Definition head_ok (u : string) : Prop :=
  match u with
  | EmptyString => True
  | String c _ => Py.isspace_char c = false
  end.

(** The lines that the loops of process_pdfs.py pass over: empty, or
    shorter than three characters. *)
Definition short_line (line : string) : bool :=
  negb (Py.truthy line) || (Py.len line <? 3)%nat.

(** The lines that the loops of views.py pass over: empty. *)
Definition empty_line (line : string) : bool := negb (Py.truthy line).

(** A capital heading of more than a hundred characters. *)
Definition long_caps_line : string :=
  "INTERNATIONAL CONFERENCE ON DOCUMENT ANALYSIS AND RECOGNITION PROCEEDINGS OF THE SEVENTEENTH ANNUAL MEETING".

(** An entry whose text is not empty and is its own stripped form. *)
Definition trimmed_entry (h : HeadingEntry) : Prop :=
  text h <> "" /\ Py.strip (text h) = text h.

(** What one page contributes: entries of that page, in the order of its
    stripped lines, each with a stripped, non-empty text. *)
Definition page_chunk (n : Z) (lines : list string) (hs : list HeadingEntry) : Prop :=
  Forall (fun h => page h = n) hs
  /\ subseq (map text hs) lines
  /\ Forall trimmed_entry hs.

(** The document that [extract_with_pypdf2] returns from its handler. *)
Definition failure_document : Document :=
  mkDocument "Error extracting title" [] None.

Definition views_failure_document : Document_of json :=
  mkDocument (JStr "Error extracting title") [] None.

(** The lines of a page text, none when the text cannot be read. *)
Definition text_lines (t : result string) : list string :=
  match t with
  | Ok txt => Py.splitlines txt
  | Raise _ => []
  end.

(** The test of the title loops of process_pdfs.py on a stripped line; the
    rich path also refuses a line that matches [^\d+$]. *)
Definition purely_numeric (line : string) : bool :=
  Py.isdigit line || Re.re_match_end ProcessPdfs.re_number line.

Definition qualifies_rich (line : string) : bool :=
  Py.truthy line && (3 <? Py.len line)%nat && negb (purely_numeric line).

Definition qualifies_plain (line : string) : bool :=
  Py.truthy line && (3 <? Py.len line)%nat && negb (Py.isdigit line).

(** The test of the title loops of views.py on a stripped line. *)
Definition qualifies_views (line : string) : bool :=
  Py.truthy line && (3 <? Py.len line)%nat.

(** The title that [extract_with_pypdf2] sets: the value of the metadata
    key [/Title] when there is one ([str()] of it in process_pdfs.py, the
    object itself in views.py), else the scan of the first page. *)
Definition plain_title (qualifies : string -> bool) (reader : PdfReader) : string :=
  match metadata_title reader with
  | Some v => metadata_str v
  | None =>
      match reader_pages reader with
      | [] => ""
      | first_page :: _ => first_line qualifies (text_lines (plain_extract_text first_page))
      end
  end.

Definition views_plain_title (qualifies : string -> bool) (reader : PdfReader) : json :=
  match metadata_title reader with
  | Some v => metadata_object v
  | None =>
      match reader_pages reader with
      | [] => JStr ""
      | first_page :: _ =>
          JStr (first_line qualifies (text_lines (plain_extract_text first_page)))
      end
  end.

(** A scan that reaches the whole outline, each entry stripped. *)
Definition scanned (pages_lines : list (list string)) (out : list HeadingEntry) : Prop :=
  scan_from 1 pages_lines out /\ Forall trimmed_entry out.

Definition rich_lines (p : RichPage) : list string := stripped_lines (extract_text p).
Definition plain_lines (p : PlainPage) : list string :=
  stripped_lines (plain_extract_text p).

(** The three ways a document comes about: from the pages of pdfplumber,
    from the pages of PyPDF2, or from the handler of [extract_with_pypdf2]. *)
Definition outcome (pdf : PdfFile) (doc : Document) : Prop :=
  (exists pages, pdfplumber_open pdf = Ok pages
                 /\ scanned (map rich_lines pages) (outline doc))
  \/ (exists reader, pypdf2_open pdf = Ok reader
                     /\ scanned (map plain_lines (reader_pages reader)) (outline doc))
  \/ doc = failure_document.

Definition outcome_views (pdf : PdfFile) (doc : Document_of json) : Prop :=
  (exists pages, pdfplumber_open pdf = Ok pages
                 /\ scanned (map rich_lines pages) (outline doc))
  \/ (exists reader, pypdf2_open pdf = Ok reader
                     /\ scanned (map plain_lines (reader_pages reader)) (outline doc))
  \/ doc = views_failure_document.

(** The title that the rich path sets: the scan of the first page. *)
Definition rich_title (qualifies : string -> bool) (pages : list RichPage) : string :=
  match pages with
  | [] => ""
  | first_page :: _ => first_line qualifies (text_lines (extract_text first_page))
  end.

(** *** Concrete files *)

(** A path that neither backend can open. *)
Definition unreadable_pdf : PdfFile :=
  mkPdfFile (Raise "No /Root object! - Is this really a PDF?")
            (Raise "EOF marker not found").

(** A first page that starts with a year. *)
Definition year_page : RichPage :=
  mkRichPage (Ok (String "2" (String "0" (String "2" (String "4"
                (String Py.newline "Annual Report")))))) (Ok []).

Definition year_report_pdf : PdfFile :=
  mkPdfFile (Ok [year_page])
            (Ok (mkPdfReader (Some [("/Title", TextString "Report X")])
                   [mkPlainPage (Ok "Annual Report")])).

(** Two pages, the second of which cannot be read by pdfplumber, in a file
    that PyPDF2 reads. *)
Definition chapter_page : RichPage := mkRichPage (Ok "Chapter 1 Basics") (Ok []).
Definition damaged_page : RichPage :=
  mkRichPage (Raise "unpack requires a buffer of 4 bytes") (Ok []).
Definition damaged_second_page_pdf : PdfFile :=
  mkPdfFile (Ok [chapter_page; damaged_page])
            (Ok (mkPdfReader None
                   [mkPlainPage (Ok "Chapter 1 Basics"); mkPlainPage (Ok "")])).

(** A file that pdfplumber cannot open and PyPDF2 can, whose document
    information has the number 42 under [/Title]: PyPDF2 gives it as a
    [NumberObject], an [int]. *)
Definition number_title_pdf : PdfFile :=
  mkPdfFile (Raise "No /Root object! - Is this really a PDF?")
            (Ok (mkPdfReader (Some [("/Title", PdfObject (JInt 42) "42")])
                   [mkPlainPage (Ok "1. Scope")])).


(** The sizes of the glyphs of a page that have one, in glyph order. *)
Definition glyph_sizes (cs : list Glyph) : list Q :=
  flat_map (fun g => match size g with
                     | Some q => [q]
                     | None => []
                     end) cs.

(** How many of the sizes are equal to [q]. *)
Definition count_in (q : Q) (qs : list Q) : nat :=
  List.length (filter (fun x => Qeq_bool x q) qs).

(** The invariant of the font-size dict while the glyphs are read: its keys
    are different sizes, each key is counted as often as it was read, and
    every size read has its key. *)
Definition histogram_of (seen : list Q) (font_sizes : list (Q * nat)) : Prop :=
  ForallOrdPairs (fun a b => ~ a == b) (map fst font_sizes)
  /\ (forall k n, In (k, n) font_sizes -> n = count_in k seen /\ In k seen)
  /\ (forall x, In x seen -> exists k, In k (map fst font_sizes) /\ k == x).

(** ** test_extractor.py

    A dict is the list of its items, looked up from the front. *)

(** [d.get(key)]; [key in d] is [dict_get key d <> None]. *)
Fixpoint dict_get (key : string) (kvs : list (string * json)) : option json :=
  match kvs with
  | [] => None
  | (k, v) :: r => if String.eqb k key then Some v else dict_get key r
  end.

Definition level_name (l : Level) : string :=
  match l with
  | H1 => "H1"
  | H2 => "H2"
  | H3 => "H3"
  end.

(** The dict that a [HeadingEntry] and a [Document] stand for. *)
Definition entry_json (h : HeadingEntry) : json :=
  JDict [("level", JStr (level_name (level h)));
         ("text", JStr (text h));
         ("page", JInt (page h))].

Definition document_json (doc : Document) : list (string * json) :=
  ([("title", JStr (title doc));
    ("outline", JList (map entry_json (outline doc)))]
   ++ match error doc with
      | Some e => [("error", JStr e)]
      | None => []
      end)%list.

Definition views_document_json (doc : Document_of json) : list (string * json) :=
  ([("title", title doc);
    ("outline", JList (map entry_json (outline doc)))]
   ++ match error doc with
      | Some e => [("error", JStr e)]
      | None => []
      end)%list.

Module TestExtractor.

(** The messages of [validate_json_format]; a value that the source formats
    into the message is kept as it is. *)
Inductive message : Type :=
| Missing_required_key (key : string)
| Title_must_be_a_string
| Outline_must_be_a_list
| Outline_items_must_be_dictionaries
| Missing_required_key_in_outline_item (key : string)
| Invalid_heading_level (v : json)
| Heading_text_must_be_a_string
| Page_number_must_be_a_positive_integer
| JSON_format_is_valid.

(** [for key in keys: if key not in d: return False, ...] *)
Fixpoint first_missing (keys : list string) (d : list (string * json)) : option string :=
  match keys with
  | [] => None
  | key :: rest =>
      match dict_get key d with
      | None => Some key
      | Some _ => first_missing rest d
      end
  end.

(** [d[key]] after [key in d] has been checked. *)
Definition item_at (key : string) (d : list (string * json)) : json :=
  match dict_get key d with
  | Some v => v
  | None => JNull
  end.

(** [v in ['H1', 'H2', 'H3']] *)
Definition is_level (v : json) : bool :=
  match v with
  | JStr s => existsb (String.eqb s) ["H1"; "H2"; "H3"]
  | _ => false
  end.

Definition isinstance_str (v : json) : bool :=
  match v with
  | JStr _ => true
  | _ => false
  end.

(** [isinstance(v, int) and not v < 1]; a [bool] is an [int]. *)
Definition is_positive_int (v : json) : bool :=
  match v with
  | JInt z => negb (z <? 1)%Z
  | JBool b => negb ((if b then 1 else 0) <? 1)%Z
  | _ => false
  end.

(** The body of the loop over the outline: the message of the first check
    that fails. *)
Definition check_item (item : json) : option message :=
  match item with
  | JDict d =>
      match first_missing ["level"; "text"; "page"] d with
      | Some key => Some (Missing_required_key_in_outline_item key)
      | None =>
          if negb (is_level (item_at "level" d))
          then Some (Invalid_heading_level (item_at "level" d))
          else if negb (isinstance_str (item_at "text" d))
          then Some Heading_text_must_be_a_string
          else if negb (is_positive_int (item_at "page" d))
          then Some Page_number_must_be_a_positive_integer
          else None
      end
  | _ => Some Outline_items_must_be_dictionaries
  end.

Fixpoint check_items (items : list json) : bool * message :=
  match items with
  | [] => (true, JSON_format_is_valid)
  | item :: rest =>
      match check_item item with
      | Some m => (false, m)
      | None => check_items rest
      end
  end.

Definition validate_json_format (json_data : list (string * json)) : bool * message :=
  match first_missing ["title"; "outline"] json_data with
  | Some key => (false, Missing_required_key key)
  | None =>
      if negb (isinstance_str (item_at "title" json_data))
      then (false, Title_must_be_a_string)
      else
        match item_at "outline" json_data with
        | JList items => check_items items
        | _ => (false, Outline_must_be_a_list)
        end
  end.

End TestExtractor.

(** An outline item that [validate_json_format] accepts. *)
Definition item_ok (item : json) : Prop :=
  exists d lvl txt,
    item = JDict d
    /\ dict_get "level" d = Some (JStr lvl)
    /\ In lvl ["H1"; "H2"; "H3"]
    /\ dict_get "text" d = Some (JStr txt)
    /\ ((exists n, dict_get "page" d = Some (JInt n) /\ (1 <= n)%Z)
        \/ dict_get "page" d = Some (JBool true)).

(** A dict that [validate_json_format] accepts. *)
Definition well_formed (json_data : list (string * json)) : Prop :=
  exists t items,
    dict_get "title" json_data = Some (JStr t)
    /\ dict_get "outline" json_data = Some (JList items)
    /\ Forall item_ok items.

(** ** The web views of extractor/views.py

    The output directory is the list of its files, each with what
    [json.load] gives for it (a value, or an exception); a name is looked up
    from the front, so a file written again hides the older one.  The media
    storage is the list of the names stored.  A write that starts completes
    unless [json.dump] meets an object it cannot write; then the file is
    left cut short.  A file holds the value that was dumped into it.  Paths
    are POSIX paths. *)

(** What stops [json.dump(v)]: the class of the first object, in the order
    of writing, that [json] cannot write. *)
Fixpoint first_unserializable (v : json) : option string :=
  match v with
  | JObject class_name => Some class_name
  | JList l =>
      (fix in_list (l : list json) : option string :=
         match l with
         | [] => None
         | x :: r =>
             match first_unserializable x with
             | Some c => Some c
             | None => in_list r
             end
         end) l
  | JDict kvs =>
      (fix in_items (kvs : list (string * json)) : option string :=
         match kvs with
         | [] => None
         | (_, x) :: r =>
             match first_unserializable x with
             | Some c => Some c
             | None => in_items r
             end
         end) kvs
  | _ => None
  end.

(** The message of the [TypeError] of [json.dump]. *)
Definition not_serializable (class_name : string) : string :=
  "Object of type " ++ class_name ++ " is not JSON serializable".

(** [s.endswith(suffix)] *)
Fixpoint endswith (s suffix : string) : bool :=
  String.eqb s suffix
  || match s with
     | EmptyString => false
     | String _ r => endswith r suffix
     end.

Module OsPath.

(** [s.rfind(c)] for a character: the last index of [c], or [-1]. *)
Fixpoint rfind_from (c : ascii) (s : string) (i found : Z) : Z :=
  match s with
  | EmptyString => found
  | String x r => rfind_from c r (i + 1) (if Ascii.eqb x c then i else found)
  end.

Definition rfind (c : ascii) (s : string) : Z := rfind_from c s 0 (-1).

(** The loop of [splitext] that passes over leading dots: whether one of the
    [steps] characters from [filenameIndex] on is not a dot. *)
Fixpoint has_non_dot (p : string) (filenameIndex : Z) (steps : nat) : bool :=
  match steps with
  | O => false
  | S k =>
      match String.get (Z.to_nat filenameIndex) p with
      | Some c =>
          if negb (Ascii.eqb c ".") then true
          else has_non_dot p (filenameIndex + 1) k
      | None => true
      end
  end.

(** [os.path.splitext(p)] *)
Definition splitext (p : string) : string * string :=
  let sepIndex := rfind "/" p in
  let dotIndex := rfind "." p in
  if (sepIndex <? dotIndex)%Z
     && has_non_dot p (sepIndex + 1) (Z.to_nat (dotIndex - (sepIndex + 1)))
  then (String.substring 0 (Z.to_nat dotIndex) p,
        String.substring (Z.to_nat dotIndex)
          (String.length p - Z.to_nat dotIndex) p)
  else (p, EmptyString).

End OsPath.

Definition Dir : Type := list (string * result json).

(** The file of that name, if there is one. *)
Fixpoint dir_get (name : string) (dir : Dir) : option (result json) :=
  match dir with
  | [] => None
  | (n, c) :: r => if String.eqb n name then Some c else dir_get name r
  end.

(** [d[key] = v] on a dict. *)
Fixpoint dict_set (key : string) (v : json) (d : list (string * json))
  : list (string * json) :=
  match d with
  | [] => [(key, v)]
  | (k, x) :: r => if String.eqb k key then (k, v) :: r else (k, x) :: dict_set key v r
  end.

(** [d.get(key, default)] *)
Definition dict_get_default (key : string) (default : json) (d : list (string * json))
  : json :=
  match dict_get key d with
  | Some v => v
  | None => default
  end.

(** What the calls of a request into the system give: [os.makedirs], the two
    readings of the clock, already formatted, the opening of the result file
    for writing, the save and delete of the media storage, and what
    [json.load] raises later for a result file that was left cut short. *)
Record Env : Type := mkEnv {
  makedirs : result unit;
  now_strftime : string;
  now_isoformat : string;
  open_for_writing : result unit;
  storage_save : result string;
  storage_delete : result unit;
  load_of_cut_file : string
}.

Record State : Type := mkState {
  output_dir : Dir;
  media : list string
}.

Record Response : Type := mkResponse {
  status : Z;
  body : json
}.

(** An uploaded file: its name, its size and what the two backends find in
    its bytes. *)
Record Upload : Type := mkUpload {
  upload_name : string;
  upload_size : Z;
  upload_pdf : PdfFile
}.

Record Request : Type := mkRequest {
  method : string;
  pdf_file : option Upload
}.

Module ViewsHttp.

Definition error_response (code : Z) (msg : string) : Response :=
  mkResponse code (JDict [("error", JStr msg)]).

(** The name of the result file and the record written into it. *)
Definition json_filename_of (env : Env) (pdf_filename : string) : string :=
  let timestamp := now_strftime env in
  let pdf_name := fst (OsPath.splitext pdf_filename) in
  pdf_name ++ "_" ++ timestamp ++ ".json".

Definition outline_with_metadata (env : Env) (pdf_filename : string)
    (outline : list (string * json)) : list (string * json) :=
  [("source_pdf", JStr pdf_filename);
   ("processed_at", JStr (now_isoformat env));
   ("title", dict_get_default "title" (JStr "") outline);
   ("outline", dict_get_default "outline" (JList []) outline)].

(** [save_outline_to_json]: the output directory afterwards, and the path
    returned or the exception of [os.makedirs], of [open] or of
    [json.dump]. *)
Definition save_outline_to_json (env : Env) (dir : Dir) (pdf_filename : string)
    (outline : list (string * json)) : Dir * result string :=
  match makedirs env with
  | Raise e => (dir, Raise e)
  | Ok _ =>
      let json_filename := json_filename_of env pdf_filename in
      let record := outline_with_metadata env pdf_filename outline in
      match open_for_writing env with
      | Raise e => (dir, Raise e)
      | Ok _ =>
          match first_unserializable (JDict record) with
          | Some class_name =>
              ((json_filename, Raise (load_of_cut_file env)) :: dir,
               Raise (not_serializable class_name))
          | None =>
              ((json_filename, Ok (JDict record)) :: dir,
               Ok ("output/" ++ json_filename))
          end
      end
  end.

(** [download_result] *)
Definition download_result (dir : Dir) (filename : string) : Response :=
  match dir_get filename dir with
  | None => error_response 404 "File not found"
  | Some content =>
      if negb (endswith filename ".json") then error_response 404 "File not found"
      else
        match content with
        | Ok (JDict data) => mkResponse 200 (JDict data)
        | Ok _ =>
            error_response 500
              "Error reading file: In order to allow non-dict objects to be serialized set the safe parameter to False."
        | Raise e => error_response 500 ("Error reading file: " ++ e)
        end
  end.

(** The body of the [try] of [extract_outline]: the state it leaves and what
    it returns or raises. *)
Definition extract_outline_body (env : Env) (st : State) (upload : Upload)
  : State * result Response :=
  match storage_save env with
  | Raise e => (st, Raise e)
  | Ok file_path =>
      let st1 := mkState (output_dir st) (file_path :: media st) in
      match Views.extract_pdf_outline (upload_pdf upload) with
      | Raise e => (st1, Raise e)
      | Ok doc =>
          let outline := views_document_json doc in
          match save_outline_to_json env (output_dir st1) (upload_name upload) outline with
          | (dir2, Raise e) => (mkState dir2 (media st1), Raise e)
          | (dir2, Ok json_file_path) =>
              let st2 := mkState dir2 (media st1) in
              match storage_delete env with
              | Raise e => (st2, Raise e)
              | Ok _ =>
                  let st3 :=
                    mkState dir2
                      (filter (fun n => negb (String.eqb n file_path)) (media st2)) in
                  let response_data := dict_set "saved_to" (JStr json_file_path) outline in
                  match first_unserializable (JDict response_data) with
                  | Some class_name => (st3, Raise (not_serializable class_name))
                  | None => (st3, Ok (mkResponse 200 (JDict response_data)))
                  end
              end
          end
      end
  end.

(** [extract_outline], behind [require_http_methods(["POST"])]. *)
Definition extract_outline (env : Env) (st : State) (request : Request)
  : State * Response :=
  if negb (String.eqb (method request) "POST") then (st, mkResponse 405 JNull)
  else
    match pdf_file request with
    | None => (st, error_response 400 "No PDF file provided")
    | Some upload =>
        if negb (endswith (upload_name upload) ".pdf")
        then (st, error_response 400 "File must be a PDF")
        else if (50 * 1024 * 1024 <? upload_size upload)%Z
        then (st, error_response 400 "File size exceeds 50MB limit")
        else
          match extract_outline_body env st upload with
          | (st', Ok response) => (st', response)
          | (st', Raise e) => (st', error_response 500 ("Error processing PDF: " ++ e))
          end
    end.

End ViewsHttp.

(** ** management/commands/cleanup_results.py

    A date is the number of microseconds from [datetime.min] to it; it lies
    between 0 and [max_datetime].  A file of the output directory for the
    clean-up: its name, what [datetime.fromtimestamp(os.path.getmtime(...))]
    gives for it, and what [os.remove] would do. *)

Record StoredFile : Type := mkStoredFile {
  stored_name : string;
  getmtime : result Z;
  remove : result unit
}.

Module CleanupResults.

(** What the command writes to its output. *)
Inductive line : Type :=
| Output_directory_does_not_exist
| Would_delete (filename : string)
| Deleted (filename : string)
| Error_processing (filename e : string)
| Would_delete_files (deleted_count : nat)
| Deleted_files_older_than (deleted_count : nat) (days : Z).

Definition microseconds_per_day : Z := 86400 * 1000000.

(** [datetime.max]: the last microsecond of the year 9999, day 3652059. *)
Definition max_datetime : Z := 3652059 * microseconds_per_day - 1.

(** [str(n)] for an [int]. *)
Definition decimal (n : Z) : string := NilZero.string_of_int (Z.to_int n).

(** [datetime.now() - timedelta(days=days)]: [timedelta] takes a number of
    days that fits a C [int] and is at most 999999999 in magnitude, and the
    difference must be a date; otherwise an [OverflowError] is raised. *)
Definition cutoff_date_of (now days : Z) : result Z :=
  if (days <? - 2 ^ 31)%Z || (2 ^ 31 - 1 <? days)%Z
  then Raise "Python int too large to convert to C int"
  else if (999999999 <? Z.abs days)%Z
  then Raise ("days=" ++ decimal days ++ "; must have magnitude <= 999999999")
  else
    let cutoff_date := (now - days * microseconds_per_day)%Z in
    if (cutoff_date <? 0)%Z || (max_datetime <? cutoff_date)%Z
    then Raise "date value out of range"
    else Ok cutoff_date.

(** The body of the loop of [handle] for one file: whether the file stays,
    the count afterwards and the lines written. *)
Definition visit (cutoff_date : Z) (dry_run : bool) (f : StoredFile)
    (deleted_count : nat) : bool * nat * list line :=
  let filename := stored_name f in
  if endswith filename ".json" then
    match getmtime f with
    | Raise e => (true, deleted_count, [Error_processing filename e])
    | Ok file_mtime =>
        if (file_mtime <? cutoff_date)%Z then
          if dry_run then (true, S deleted_count, [Would_delete filename])
          else
            match remove f with
            | Raise e => (true, deleted_count, [Error_processing filename e])
            | Ok _ => (false, S deleted_count, [Deleted filename])
            end
        else (true, deleted_count, [])
    end
  else (true, deleted_count, []).

(** The loop of [handle] over the listing: the files that stay, the count
    and the lines written. *)
Fixpoint sweep (cutoff_date : Z) (dry_run : bool) (files : list StoredFile)
    (deleted_count : nat) : list StoredFile * nat * list line :=
  match files with
  | [] => ([], deleted_count, [])
  | f :: rest =>
      let '(stays, count, out) := visit cutoff_date dry_run f deleted_count in
      let '(remaining, n, written) := sweep cutoff_date dry_run rest count in
      (if stays then f :: remaining else remaining, n, (out ++ written)%list)
  end.

(** [handle]: the directory afterwards ([None] when there is none) and the
    lines written, or the [OverflowError] of the cutoff date. *)
Definition handle (output : option (list StoredFile)) (now days : Z) (dry_run : bool)
  : result (option (list StoredFile) * list line) :=
  match output with
  | None => Ok (None, [Output_directory_does_not_exist])
  | Some files =>
      cutoff_date <- cutoff_date_of now days ;;
      let '(remaining, deleted_count, written) := sweep cutoff_date dry_run files 0 in
      Ok (Some remaining,
          (written ++ [if dry_run then Would_delete_files deleted_count
                       else Deleted_files_older_than deleted_count days])%list)
  end.

End CleanupResults.

(** A line that reports a removal. *)
Definition is_deleted_line (l : CleanupResults.line) : bool :=
  match l with
  | CleanupResults.Deleted _ => true
  | _ => false
  end.

(** A file that a real run removes: a result file older than the cutoff
    whose removal succeeds. *)
Definition swept (cutoff_date : Z) (f : StoredFile) : bool :=
  endswith (stored_name f) ".json"
  && match getmtime f, remove f with
     | Ok file_mtime, Ok _ => (file_mtime <? cutoff_date)%Z
     | _, _ => false
     end.

(** A file that a dry run reports: a result file older than the cutoff. *)
Definition expired (cutoff_date : Z) (f : StoredFile) : bool :=
  endswith (stored_name f) ".json"
  && match getmtime f with
     | Ok file_mtime => (file_mtime <? cutoff_date)%Z
     | Raise _ => false
     end.

(** A request that passes the checks of [extract_outline]. *)
Definition accepted (request : Request) (upload : Upload) : Prop :=
  method request = "POST"
  /\ pdf_file request = Some upload
  /\ endswith (upload_name upload) ".pdf" = true
  /\ (upload_size upload <= 50 * 1024 * 1024)%Z.

(** ** The batch driver of process_pdfs.py

    A PDF of the input directory: [pdf_file.stem], what the backends find in
    the file, and what writing the outline, and then writing the error
    output, into the result file would do. *)

Record InputPdf : Type := mkInputPdf {
  stem : string;
  input_pdf : PdfFile;
  write_outline : result unit;
  write_error_output : result unit
}.

Module ProcessPdfsBatch.

Definition error_output (e : string) : list (string * json) :=
  [("title", JStr "Error processing PDF");
   ("outline", JList []);
   ("error", JStr e)].

(** The body of the loop of [process_pdf_files] for one PDF: the output
    directory afterwards, or the exception of the second write. *)
Definition process_one (f : InputPdf) (output : Dir) : result Dir :=
  try_except
    (outline <- ProcessPdfs.extract_pdf_outline (input_pdf f) ;;
     let output_filename := stem f ++ ".json" in
     _ <- write_outline f ;;
     Ok ((output_filename, Ok (JDict (document_json outline))) :: output))
    (fun e =>
       let output_filename := stem f ++ ".json" in
       _ <- write_error_output f ;;
       Ok ((output_filename, Ok (JDict (error_output e))) :: output)).

Fixpoint process_all (pdf_files : list InputPdf) (output : Dir) : result Dir :=
  match pdf_files with
  | [] => Ok output
  | f :: rest =>
      output' <- process_one f output ;;
      process_all rest output'
  end.

(** [process_pdf_files]: [mkdir] is what creating the output directory
    gives, [input] the PDFs of the input directory, [None] when there is no
    such directory. *)
Definition process_pdf_files (mkdir : result unit) (input : option (list InputPdf))
    (output : Dir) : result Dir :=
  _ <- mkdir ;;
  match input with
  | None => Ok output
  | Some [] => Ok output
  | Some pdf_files => process_all pdf_files output
  end.

End ProcessPdfsBatch.

(** The result file that the batch driver writes for a PDF whose outline is
    written without error. *)
Definition outline_file (f : InputPdf) : string * result json :=
  (stem f ++ ".json",
   match ProcessPdfs.extract_pdf_outline (input_pdf f) with
   | Ok outline => Ok (JDict (document_json outline))
   | Raise e => Raise e
   end).

(** ** Sanity checks of the embedding on concrete lines *)

Example strip_ex : Py.strip "  1. Introduction  " = "1. Introduction".
Proof. reflexivity. Qed.

Example split_ex : Py.splitlines (String "a" (String Py.newline "b")) = ["a"; "b"].
Proof. reflexivity. Qed.

Example istitle_ex :
  Py.istitle "Experimental Results" = true /\ Py.istitle "1. introduction" = false
  /\ Py.isupper "SECTION 1: OVERVIEW" = true /\ Py.isupper "1234" = false.
Proof. repeat split; reflexivity. Qed.

Example detect_ex :
  map (fun l => ProcessPdfs.detect_heading_level l [])
    ["1. Introduction"; "1.1 Background"; "1.1.1 Related Work"; "INTRODUCTION";
     "Conclusion And Future Work"; "Experimental Results"; "Hi"; "chapter 3";
     "IV. Results"; "B. details"; "1. introduction"]
  = [Some H1; Some H2; Some H3; Some H1; Some H1; Some H2; None; Some H1;
     Some H1; None; None].
Proof. vm_compute. reflexivity. Qed.

Example detect_views_ex :
  map (fun l => Views.detect_heading_level l [] [])
    ["1. Introduction"; "1.1 Background"; "1.1.1 Related Work"; "INTRODUCTION";
     "Conclusion And Future Work"; "Experimental Results"; "Hi"; "chapter 3";
     "1. introduction"; "Summary"]
  = [Some H1; Some H2; Some H3; Some H1; Some H2; Some H2; None; Some H2;
     Some H1; Some H2].
Proof. vm_compute. reflexivity. Qed.

(** ** Characters and [strip] *)

Ltac all_chars c :=
  destruct c as [[] [] [] [] [] [] [] []]; vm_compute; try reflexivity; try discriminate.

Lemma digit_not_space c : Re.d c = true -> Re.s c = false.
Proof. all_chars c. Qed.

Lemma digit_not_dot c : Re.d c = true -> Re.dot c = false.
Proof. all_chars c. Qed.

Lemma dot_not_space c : Re.dot c = true -> Re.s c = false.
Proof. all_chars c. Qed.

Lemma AZ_not_digit c : Re.AZ c = true -> Re.d c = false.
Proof. all_chars c. Qed.

Lemma lstrip_head_ok u : head_ok (Py.lstrip u).
Proof.
  induction u as [|c r IH]; simpl; [exact I|].
  destruct (Py.isspace_char c) eqn:E; [exact IH | exact E].
Qed.

Lemma lstrip_fixed u : head_ok u -> Py.lstrip u = u.
Proof. destruct u as [|c r]; simpl; intros H; [reflexivity | now rewrite H]. Qed.

Lemma rstrip_head_ok u : head_ok u -> head_ok (Py.rstrip u).
Proof.
  destruct u as [|c r]; simpl; intros H; [exact I|].
  destruct (Py.rstrip r); [rewrite H|]; exact H.
Qed.

Lemma rstrip_idem u : Py.rstrip (Py.rstrip u) = Py.rstrip u.
Proof.
  induction u as [|c r IH]; [reflexivity|].
  simpl. destruct (Py.rstrip r) as [|x t] eqn:E.
  - destruct (Py.isspace_char c) eqn:Ec; simpl; [reflexivity | now rewrite Ec].
  - change (Py.rstrip (String c (String x t))) with
      (match Py.rstrip (String x t) with
       | EmptyString => if Py.isspace_char c then EmptyString else String c EmptyString
       | String a b => String c (String a b)
       end).
    now rewrite IH.
Qed.

Lemma strip_idem u : Py.strip (Py.strip u) = Py.strip u.
Proof.
  unfold Py.strip.
  rewrite (lstrip_fixed (Py.rstrip (Py.lstrip u))).
  - apply rstrip_idem.
  - apply rstrip_head_ok, lstrip_head_ok.
Qed.

Lemma truthy_nonempty u : Py.truthy u = true <-> u <> "".
Proof. destruct u; simpl; split; congruence. Qed.

(** ** The matcher *)

Section Matcher.

Import Re.

(** A pattern that ends in one more class matches a prefix made of a word
    of the shorter pattern followed by a character of that class. *)
Lemma re_match_last (cls : ascii -> bool) (line : string) :
  forall p : pattern,
    re_match (p ++ [One cls])%list line = true ->
    exists pre c rest,
      line = (pre ++ String c rest)%string /\ re_full p pre = true /\ cls c = true.
Proof.
  induction line as [|x r IH]; intros p H.
  - destruct p as [|[k|k] q]; discriminate H.
  - destruct p as [|[k|k] q]; simpl in H.
    + apply andb_prop in H as [Hx _].
      exists EmptyString, x, r. repeat split; assumption.
    + apply andb_prop in H as [Hx H].
      destruct (IH q H) as (pre & c & rest & -> & Hf & Hc).
      exists (String x pre), c, rest. simpl. rewrite Hx, Hf. now repeat split.
    + apply andb_prop in H as [Hx H].
      apply orb_prop in H as [H|H].
      * destruct (IH (Many1 k :: q) H) as (pre & c & rest & -> & Hf & Hc).
        exists (String x pre), c, rest.
        split; [reflexivity|]. split; [|exact Hc].
        change (k x && (re_full (Many1 k :: q) pre || re_full q pre) = true).
        now rewrite Hx, Hf.
      * destruct (IH q H) as (pre & c & rest & -> & Hf & Hc).
        exists (String x pre), c, rest.
        split; [reflexivity|]. split; [|exact Hc].
        change (k x && (re_full (Many1 k :: q) pre || re_full q pre) = true).
        rewrite Hx, Hf. now rewrite orb_true_r.
Qed.

(** Two patterns that both start with [\d+\.] leave the same rest of the line. *)
Lemma digits_dot_sync (q1 q2 : pattern) (line : string) :
  re_match (Many1 d :: One dot :: q1) line = true ->
  re_match (Many1 d :: One dot :: q2) line = true ->
  exists rest, re_match q1 rest = true /\ re_match q2 rest = true.
Proof.
  induction line as [|x r IH]; [discriminate|].
  simpl. intros H1 H2.
  apply andb_prop in H1 as [Hx H1]. apply andb_prop in H2 as [_ H2].
  apply orb_prop in H1 as [H1|H1]; apply orb_prop in H2 as [H2|H2].
  - apply IH; assumption.
  - destruct r as [|y t]; [discriminate|]. simpl in H1, H2.
    apply andb_prop in H1 as [Hy _]. apply andb_prop in H2 as [Hy' _].
    now rewrite (digit_not_dot _ Hy) in Hy'.
  - destruct r as [|y t]; [discriminate|]. simpl in H1, H2.
    apply andb_prop in H1 as [Hy _]. apply andb_prop in H2 as [Hy' _].
    now rewrite (digit_not_dot _ Hy') in Hy.
  - destruct r as [|y t]; [discriminate|]. simpl in H1, H2.
    apply andb_prop in H1 as [_ H1]. apply andb_prop in H2 as [_ H2].
    exists t. now split.
Qed.

(** After [\d+], a dot and white space exclude each other. *)
Lemma digits_then_dot_or_space (q1 q2 : pattern) (line : string) :
  re_match (Many1 d :: One dot :: q1) line = true ->
  re_match (Many1 d :: Many1 s :: q2) line = true -> False.
Proof.
  induction line as [|x r IH]; [discriminate|].
  simpl. intros H1 H2.
  apply andb_prop in H1 as [Hx H1]. apply andb_prop in H2 as [_ H2].
  apply orb_prop in H1 as [H1|H1]; apply orb_prop in H2 as [H2|H2].
  - apply IH; assumption.
  - destruct r as [|y t]; [discriminate|]. simpl in H1, H2.
    apply andb_prop in H1 as [Hy _]. apply andb_prop in H2 as [Hy' _].
    now rewrite (digit_not_space _ Hy) in Hy'.
  - destruct r as [|y t]; [discriminate|]. simpl in H1, H2.
    apply andb_prop in H1 as [Hy _]. apply andb_prop in H2 as [Hy' _].
    now rewrite (digit_not_dot _ Hy') in Hy.
  - destruct r as [|y t]; [discriminate|]. simpl in H1, H2.
    apply andb_prop in H1 as [Hy _]. apply andb_prop in H2 as [Hy' _].
    now rewrite (dot_not_space _ Hy) in Hy'.
Qed.

(** After [\d+\.], a digit and white space exclude each other. *)
Lemma dot_then_digit_or_space (q1 q2 : pattern) (line : string) :
  re_match (Many1 d :: One dot :: Many1 d :: q1) line = true ->
  re_match (Many1 d :: One dot :: Many1 s :: q2) line = true -> False.
Proof.
  intros H1 H2.
  destruct (digits_dot_sync _ _ _ H1 H2) as ([|y t] & K1 & K2); [discriminate|].
  simpl in K1, K2.
  apply andb_prop in K1 as [Hy _]. apply andb_prop in K2 as [Hy' _].
  now rewrite (digit_not_space _ Hy) in Hy'.
Qed.

(** A pattern that starts with a digit does not match a line that starts
    with a capital letter. *)
Lemma all_caps_not_numbered (q1 q2 : pattern) (line : string) :
  re_match_end (One AZ :: q1) line = true ->
  re_match (Many1 d :: q2) line = false.
Proof.
  destruct line as [|x r]; [discriminate|].
  simpl. intros H. apply andb_prop in H as [Hx _].
  now rewrite (AZ_not_digit _ Hx).
Qed.

End Matcher.

(** ** The size list is not consulted *)

Lemma views_detect_no_sizes (line : string) (cs : list Glyph) (sizes : list Q) :
  Views.detect_heading_level line cs sizes = Views.detect_heading_level line [] [].
Proof.
  unfold Views.detect_heading_level.
  now destruct (negb (Nat.eqb (List.length sizes) 0) && (2 <? List.length sizes)%nat).
Qed.

(** ** The numbered-section rules *)

Section NumberedRules.

Import Re.

Lemma three_level_exclusive (line : string) :
  re_match ProcessPdfs.re_three_level line = true ->
  re_match ProcessPdfs.re_one_level line = false
  /\ re_match ProcessPdfs.re_two_level line = false.
Proof.
  intros H3. split.
  - destruct (re_match ProcessPdfs.re_one_level line) eqn:H1; [|reflexivity].
    destruct (dot_then_digit_or_space _ _ _ H3 H1).
  - destruct (re_match ProcessPdfs.re_two_level line) eqn:H2; [|reflexivity].
    destruct (digits_dot_sync _ _ _ H3 H2) as (rest & K1 & K2).
    destruct (digits_then_dot_or_space _ _ _ K1 K2).
Qed.

Lemma views_three_level_exclusive (line : string) :
  re_match Views.re_three_level line = true ->
  re_match Views.re_one_level line = false
  /\ re_match Views.re_two_level line = false.
Proof.
  intros H3. split.
  - destruct (re_match Views.re_one_level line) eqn:H1; [|reflexivity].
    destruct (dot_then_digit_or_space _ _ _ H3 H1).
  - destruct (re_match Views.re_two_level line) eqn:H2; [|reflexivity].
    destruct (digits_dot_sync _ _ _ H3 H2) as (rest & K1 & K2).
    destruct (digits_then_dot_or_space _ _ _ K1 K2).
Qed.

(** C3 (amended).  Both copies check the one-level pattern, then the
    two-level one, then the three-level one, and give H1, H2, H3; a line that
    matches the three-level pattern matches neither of the other two, so it is
    H3; "1. Introduction", "1.1 Background" and "1.1.1 Related Work" are H1,
    H2 and H3 in both copies.  In process_pdfs.py each of the three patterns
    matches only when a capital letter A-Z follows the number and its white
    space; in views.py the patterns end at the white space, and a numbered
    line that goes on in lower case is a heading as well. *)
Theorem numbered_section_rules (line : string) (sizes : list Q) (cs : list Glyph) :
  (re_match ProcessPdfs.re_one_level line = true ->
   ProcessPdfs.detect_heading_level line sizes = Some H1)
  /\ (re_match ProcessPdfs.re_one_level line = false ->
      re_match ProcessPdfs.re_two_level line = true ->
      ProcessPdfs.detect_heading_level line sizes = Some H2)
  /\ (re_match ProcessPdfs.re_three_level line = true ->
      re_match ProcessPdfs.re_one_level line = false
      /\ re_match ProcessPdfs.re_two_level line = false
      /\ ProcessPdfs.detect_heading_level line sizes = Some H3)
  /\ (re_match ProcessPdfs.re_one_level line = true ->
      exists pre c rest,
        line = (pre ++ String c rest)%string
        /\ re_full [Many1 d; One dot; Many1 s] pre = true /\ AZ c = true)
  /\ (re_match ProcessPdfs.re_two_level line = true ->
      exists pre c rest,
        line = (pre ++ String c rest)%string
        /\ re_full [Many1 d; One dot; Many1 d; Many1 s] pre = true /\ AZ c = true)
  /\ (re_match ProcessPdfs.re_three_level line = true ->
      exists pre c rest,
        line = (pre ++ String c rest)%string
        /\ re_full [Many1 d; One dot; Many1 d; One dot; Many1 d; Many1 s] pre = true
        /\ AZ c = true)
  /\ (re_match Views.re_one_level line = true ->
      Views.detect_heading_level line cs sizes = Some H1)
  /\ (re_match Views.re_one_level line = false ->
      re_match Views.re_two_level line = true ->
      Views.detect_heading_level line cs sizes = Some H2)
  /\ (re_match Views.re_three_level line = true ->
      re_match Views.re_one_level line = false
      /\ re_match Views.re_two_level line = false
      /\ Views.detect_heading_level line cs sizes = Some H3)
  /\ map (fun l => ProcessPdfs.detect_heading_level l sizes)
       ["1. Introduction"; "1.1 Background"; "1.1.1 Related Work"]
     = [Some H1; Some H2; Some H3]
  /\ map (fun l => Views.detect_heading_level l cs sizes)
       ["1. Introduction"; "1.1 Background"; "1.1.1 Related Work"; "1. introduction"]
     = [Some H1; Some H2; Some H3; Some H1].
Proof.
  repeat match goal with |- _ /\ _ => split end.
  - intros H. unfold ProcessPdfs.detect_heading_level. now rewrite H.
  - intros H1 H2. unfold ProcessPdfs.detect_heading_level. now rewrite H1, H2.
  - intros H. destruct (three_level_exclusive line H) as [H1 H2].
    repeat split; try assumption.
    unfold ProcessPdfs.detect_heading_level. now rewrite H1, H2, H.
  - intros H. apply (re_match_last AZ line [Many1 d; One dot; Many1 s] H).
  - intros H. apply (re_match_last AZ line [Many1 d; One dot; Many1 d; Many1 s] H).
  - intros H.
    apply (re_match_last AZ line
             [Many1 d; One dot; Many1 d; One dot; Many1 d; Many1 s] H).
  - intros H. unfold Views.detect_heading_level. now rewrite H.
  - intros H1 H2. unfold Views.detect_heading_level. now rewrite H1, H2.
  - intros H. destruct (views_three_level_exclusive line H) as [H1 H2].
    repeat split; try assumption.
    unfold Views.detect_heading_level. now rewrite H1, H2, H.
  - reflexivity.
  - simpl map. now rewrite !(views_detect_no_sizes _ cs sizes).
Qed.

Lemma numbered_section_rules_witness :
  ProcessPdfs.detect_heading_level "1.1.1 Related Work" [] = Some H3
  /\ Views.detect_heading_level "2.4.1 results" [] [] = Some H3.
Proof.
  split.
  - destruct (numbered_section_rules "1.1.1 Related Work" [] [])
      as (_ & _ & H & _).
    apply H. reflexivity.
  - destruct (numbered_section_rules "2.4.1 results" [] [])
      as (_ & _ & _ & _ & _ & _ & _ & _ & H & _).
    apply H. reflexivity.
Defined.

(** C3, as stated, fails on views.py: its one-level rule takes a line in
    which no capital letter occurs at all. *)
Lemma views_numbered_rule_needs_no_capital :
  re_match Views.re_one_level "1. introduction" = true
  /\ Views.detect_heading_level "1. introduction" [] [] = Some H1
  /\ Py.forallb_chars (fun c => negb (AZ c)) "1. introduction" = true.
Proof. repeat split; reflexivity. Qed.

End NumberedRules.

(** ** The loops over the lines of a page *)

Lemma pp_headings_loop_entries sizes n lines : forall acc,
  ProcessPdfs.headings_loop sizes n lines acc
  = (acc ++ entries_of short_line
              (fun l => ProcessPdfs.detect_heading_level l sizes) n lines)%list.
Proof.
  induction lines as [|l rest IH]; intros acc; simpl.
  - now rewrite app_nil_r.
  - fold (short_line (Py.strip l)).
    destruct (short_line (Py.strip l)); [apply IH|].
    destruct (ProcessPdfs.detect_heading_level (Py.strip l) sizes).
    + rewrite IH, <- app_assoc. reflexivity.
    + apply IH.
Qed.

Lemma pp_simple_loop_entries n lines : forall acc,
  ProcessPdfs.simple_loop n lines acc
  = (acc ++ entries_of short_line ProcessPdfs.simple_level n lines)%list.
Proof.
  induction lines as [|l rest IH]; intros acc; simpl.
  - now rewrite app_nil_r.
  - fold (short_line (Py.strip l)).
    destruct (short_line (Py.strip l)); [apply IH|].
    destruct (ProcessPdfs.simple_level (Py.strip l)).
    + rewrite IH, <- app_assoc. reflexivity.
    + apply IH.
Qed.

Lemma views_headings_loop_entries cs sizes n lines : forall acc,
  Views.headings_loop cs sizes n lines acc
  = (acc ++ entries_of empty_line
              (fun l => Views.detect_heading_level l cs sizes) n lines)%list.
Proof.
  induction lines as [|l rest IH]; intros acc; simpl.
  - now rewrite app_nil_r.
  - fold (empty_line (Py.strip l)).
    destruct (empty_line (Py.strip l)); [apply IH|].
    destruct (Views.detect_heading_level (Py.strip l) cs sizes).
    + rewrite IH, <- app_assoc. reflexivity.
    + apply IH.
Qed.

Lemma views_simple_loop_entries n lines : forall acc,
  Views.simple_loop n lines acc
  = (acc ++ entries_of empty_line Views.simple_level n lines)%list.
Proof.
  induction lines as [|l rest IH]; intros acc; simpl.
  - now rewrite app_nil_r.
  - fold (empty_line (Py.strip l)).
    destruct (empty_line (Py.strip l)); [apply IH|].
    destruct (Views.simple_level (Py.strip l)).
    + rewrite IH, <- app_assoc. reflexivity.
    + apply IH.
Qed.

Lemma entries_of_ext skip f g n lines :
  (forall l, f l = g l) ->
  entries_of skip f n lines = entries_of skip g n lines.
Proof.
  intros E. unfold entries_of. apply flat_map_ext. intros l. now rewrite E.
Qed.

Lemma entries_of_page skip f n lines :
  Forall (fun h => page h = n) (entries_of skip f n lines).
Proof.
  induction lines as [|l rest IH]; simpl; [constructor|].
  destruct (skip (Py.strip l)); [exact IH|].
  destruct (f (Py.strip l)); [constructor; [reflexivity | exact IH] | exact IH].
Qed.

Lemma entries_of_subseq skip f n lines :
  subseq (map text (entries_of skip f n lines)) (map Py.strip lines).
Proof.
  induction lines as [|l rest IH]; simpl; [constructor|].
  destruct (skip (Py.strip l)); [now constructor|].
  destruct (f (Py.strip l)); simpl; now constructor.
Qed.

Lemma entries_of_trimmed skip f n lines :
  (forall l, skip l = false -> l <> "") ->
  Forall (fun h => text h <> "" /\ Py.strip (text h) = text h)
    (entries_of skip f n lines).
Proof.
  intros Hskip.
  induction lines as [|l rest IH]; simpl; [constructor|].
  destruct (skip (Py.strip l)) eqn:E; [exact IH|].
  destruct (f (Py.strip l)); [|exact IH].
  constructor; [|exact IH]. simpl. split; [now apply Hskip | apply strip_idem].
Qed.

Lemma short_line_nonempty l : short_line l = false -> l <> "".
Proof. destruct l; [discriminate | congruence]. Qed.

Lemma empty_line_nonempty l : empty_line l = false -> l <> "".
Proof. destruct l; [discriminate | congruence]. Qed.

(** C7.  The level that [detect_heading_level] gives does not depend on the
    list of sizes (nor, in views.py, on the glyph records): two calls on the
    same line agree whatever the two lists are. *)
Theorem sizes_have_no_effect (line : string) (sizes1 sizes2 : list Q)
    (cs1 cs2 : list Glyph) :
  ProcessPdfs.detect_heading_level line sizes1
  = ProcessPdfs.detect_heading_level line sizes2
  /\ Views.detect_heading_level line cs1 sizes1
     = Views.detect_heading_level line cs2 sizes2.
Proof.
  split; [reflexivity|].
  rewrite (views_detect_no_sizes line cs1 sizes1).
  now rewrite (views_detect_no_sizes line cs2 sizes2).
Qed.

(** Hence two pages with the same text and different glyphs give the same
    headings. *)
Lemma glyphs_have_no_effect (p1 p2 : RichPage) (cs1 cs2 : list Glyph) (n : Z) :
  extract_text p1 = extract_text p2 ->
  chars p1 = Ok cs1 -> chars p2 = Ok cs2 ->
  ProcessPdfs.extract_headings_from_page p1 n
  = ProcessPdfs.extract_headings_from_page p2 n
  /\ Views.extract_headings_from_page p1 n = Views.extract_headings_from_page p2 n.
Proof.
  intros Et E1 E2.
  unfold ProcessPdfs.extract_headings_from_page, Views.extract_headings_from_page,
    ProcessPdfs.extract_headings_fallback, Views.extract_headings_fallback.
  rewrite Et, E1, E2.
  destruct (extract_text p2) as [t|e]; simpl; [|split; reflexivity].
  destruct (negb (Py.truthy t)); simpl; [split; reflexivity|].
  rewrite !pp_headings_loop_entries, !views_headings_loop_entries.
  split; [reflexivity|]. do 2 f_equal.
  apply entries_of_ext. intros l.
  rewrite (views_detect_no_sizes l cs1). now rewrite (views_detect_no_sizes l cs2).
Qed.

(** ** The title-case and all-caps rules *)

Section CaseRules.

Import Py Re.

(** C4 (amended).  In process_pdfs.py a title-case line of 5 to 100
    characters that no earlier rule matched is H1 when its lower-case form
    contains one of "introduction", "conclusion", "overview", "summary",
    "abstract", and H2 otherwise; "Conclusion And Future Work" is H1 and
    "Experimental Results" is H2.  In views.py a title-case line that no
    earlier rule matched is H2 when it has 10 to 100 characters, whatever
    words it contains; outside that range it is H2 when its lower-case form
    contains one of "chapter", "section", "introduction", "conclusion",
    "overview", "summary", and no heading otherwise; there both lines are
    H2. *)
Theorem title_case_rule (line : string) (sizes : list Q) (cs : list Glyph) :
  (re_match ProcessPdfs.re_one_level line = false ->
   re_match ProcessPdfs.re_two_level line = false ->
   re_match ProcessPdfs.re_three_level line = false ->
   ProcessPdfs.re_chapter line = false ->
   isupper line && (4 <=? len line)%nat && (len line <=? 100)%nat = false ->
   istitle line = true ->
   (5 <= len line <= 100)%nat ->
   ProcessPdfs.detect_heading_level line sizes
   = if any_in ProcessPdfs.h1_words (lower line) then Some H1 else Some H2)
  /\ (re_match Views.re_one_level line = false ->
      re_match Views.re_two_level line = false ->
      re_match Views.re_three_level line = false ->
      isupper line && (3 <? len line)%nat = false ->
      istitle line = true ->
      Views.detect_heading_level line cs sizes
      = if (10 <=? len line)%nat && (len line <=? 100)%nat then Some H2
        else if any_in Views.heading_keywords (lower line) then Some H2
        else None)
  /\ map (fun l => ProcessPdfs.detect_heading_level l sizes)
       ["Conclusion And Future Work"; "Experimental Results"]
     = [Some H1; Some H2]
  /\ map (fun l => Views.detect_heading_level l cs sizes)
       ["Conclusion And Future Work"; "Experimental Results"]
     = [Some H2; Some H2].
Proof.
  repeat match goal with |- _ /\ _ => split end.
  - intros E1 E2 E3 Hc Hu Ht [Hlo Hhi].
    unfold ProcessPdfs.detect_heading_level.
    rewrite E1, E2, E3, Hc, Hu, Ht.
    apply Nat.leb_le in Hlo, Hhi. rewrite Hlo, Hhi. cbn [andb].
    now destruct (any_in ProcessPdfs.h1_words (lower line)),
      (any_in ProcessPdfs.h2_words (lower line)).
  - intros E1 E2 E3 Hu Ht.
    rewrite views_detect_no_sizes. unfold Views.detect_heading_level.
    rewrite E1, E2, E3, Hu, Ht. cbn [andb].
    destruct ((10 <=? len line)%nat && (len line <=? 100)%nat); [reflexivity|].
    now destruct (any_in Views.heading_keywords (lower line)).
  - reflexivity.
  - simpl map. now rewrite !(views_detect_no_sizes _ cs sizes).
Qed.

Lemma title_case_rule_witness :
  ProcessPdfs.detect_heading_level "Summary Of Findings" [] = Some H1
  /\ Views.detect_heading_level "Appendix" [] [] = None.
Proof.
  split.
  - destruct (title_case_rule "Summary Of Findings" [] []) as (H & _).
    apply H; try reflexivity. simpl. lia.
  - destruct (title_case_rule "Appendix" [] []) as (_ & H & _).
    apply H; reflexivity.
Defined.

(** C4, as stated, fails on views.py: a title-case line of 26 characters
    that no earlier rule matched and that contains "conclusion" is H2. *)
Lemma views_title_case_keyword_is_h2 :
  let line := "Conclusion And Future Work" in
  istitle line = true
  /\ len line = 26%nat
  /\ re_match Views.re_one_level line = false
  /\ re_match Views.re_two_level line = false
  /\ re_match Views.re_three_level line = false
  /\ isupper line = false
  /\ contains "conclusion" (lower line) = true
  /\ Views.detect_heading_level line [] [] = Some H2
  /\ Views.detect_heading_level line [] [] <> Some H1.
Proof. cbv zeta. repeat split; try reflexivity. discriminate. Qed.

Lemma leb_range_out (n lo hi : nat) :
  (lo <=? n)%nat && (n <=? hi)%nat = false ->
  forall lo', (lo <= lo')%nat -> (lo' <=? n)%nat && (n <=? hi)%nat = false.
Proof.
  intros H lo' Hl.
  apply andb_false_iff in H. apply andb_false_iff.
  destruct H as [H|H]; [left | now right].
  apply Nat.leb_gt in H. apply Nat.leb_gt. lia.
Qed.

(** C5 (amended).  In process_pdfs.py a line for which [str.isupper] holds
    and that no earlier rule matched is H1 by the all-caps rule exactly when
    it has 4 to 100 characters; outside that range the rule gives nothing and
    the line is left to the Roman-numeral and single-letter rules.  The
    reduced cascade of process_pdfs.py tests capitals with the pattern
    [^[A-Z][A-Z\s]+[A-Z]$] instead, and a line that matches it is H1 exactly
    when it has 4 to 100 characters, and no heading otherwise.  In views.py
    both rules ask only for more than 3 characters: there is no upper bound,
    and an all-caps line of more than 100 characters is H1. *)
Theorem all_caps_rule (line : string) (sizes : list Q) (cs : list Glyph) :
  (re_match ProcessPdfs.re_one_level line = false ->
   re_match ProcessPdfs.re_two_level line = false ->
   re_match ProcessPdfs.re_three_level line = false ->
   ProcessPdfs.re_chapter line = false ->
   isupper line = true ->
   ProcessPdfs.detect_heading_level line sizes
   = if (4 <=? len line)%nat && (len line <=? 100)%nat then Some H1
     else if re_match ProcessPdfs.re_roman line then Some H1
     else if re_match ProcessPdfs.re_alpha line then Some H2
     else None)
  /\ (re_match_end ProcessPdfs.re_all_caps line = true ->
      ProcessPdfs.simple_level line
      = if (4 <=? len line)%nat && (len line <=? 100)%nat then Some H1 else None)
  /\ (re_match Views.re_one_level line = false ->
      re_match Views.re_two_level line = false ->
      re_match Views.re_three_level line = false ->
      isupper line = true ->
      Views.detect_heading_level line cs sizes
      = if (3 <? len line)%nat then Some H1
        else if any_in Views.heading_keywords (lower line) then Some H2
        else None)
  /\ (re_match_end Views.re_all_caps line = true ->
      Views.simple_level line = if (3 <? len line)%nat then Some H1 else None)
  /\ (ProcessPdfs.detect_heading_level "INTRODUCTION" sizes = Some H1
      /\ ProcessPdfs.simple_level "INTRODUCTION" = Some H1
      /\ ProcessPdfs.detect_heading_level long_caps_line sizes = None
      /\ ProcessPdfs.simple_level long_caps_line = None).
Proof.
  repeat match goal with |- _ /\ _ => split end; try reflexivity.
  - intros E1 E2 E3 Hc Hu.
    unfold ProcessPdfs.detect_heading_level.
    rewrite E1, E2, E3, Hc, Hu. cbn [andb].
    destruct ((4 <=? len line)%nat && (len line <=? 100)%nat) eqn:E; [reflexivity|].
    rewrite <- andb_assoc, (leb_range_out _ _ _ E 5%nat) by lia.
    now rewrite andb_false_r.
  - intros H. unfold ProcessPdfs.simple_level. rewrite H. cbn [andb].
    destruct ((4 <=? len line)%nat && (len line <=? 100)%nat); [reflexivity|].
    unfold ProcessPdfs.re_one_level, ProcessPdfs.re_two_level,
      ProcessPdfs.re_three_level.
    now rewrite !(all_caps_not_numbered _ _ _ H).
  - intros E1 E2 E3 Hu.
    rewrite views_detect_no_sizes. unfold Views.detect_heading_level.
    rewrite E1, E2, E3, Hu. cbn [andb].
    destruct (Nat.ltb_spec 3 (len line)); [reflexivity|].
    assert (K : (10 <=? len line)%nat = false) by (apply Nat.leb_gt; lia).
    rewrite K, andb_false_r.
    now destruct (any_in Views.heading_keywords (lower line)).
  - intros H. unfold Views.simple_level. rewrite H. cbn [andb].
    destruct (3 <? len line)%nat; [reflexivity|].
    unfold Views.re_numbered, Views.re_subsection, Views.re_subsubsection.
    now rewrite !(all_caps_not_numbered _ _ _ H).
Qed.

Lemma all_caps_rule_witness :
  ProcessPdfs.detect_heading_level "KEY FINDINGS 2024" [] = Some H1
  /\ ProcessPdfs.simple_level "KEY FINDINGS" = Some H1
  /\ Views.detect_heading_level long_caps_line [] [] = Some H1
  /\ Views.simple_level "ABC" = None.
Proof.
  split; [|split; [|split]].
  - destruct (all_caps_rule "KEY FINDINGS 2024" [] []) as (H & _).
    apply H; reflexivity.
  - destruct (all_caps_rule "KEY FINDINGS" [] []) as (_ & H & _).
    apply H; reflexivity.
  - destruct (all_caps_rule long_caps_line [] []) as (_ & _ & H & _).
    apply H; reflexivity.
  - destruct (all_caps_rule "ABC" [] []) as (_ & _ & _ & H & _).
    apply H; reflexivity.
Defined.

(** C5, as stated, fails on views.py: an all-caps line of 107 characters
    that no earlier rule matched is H1 in its primary cascade and in its
    reduced cascade. *)
Lemma views_long_caps_line_is_h1 :
  isupper long_caps_line = true
  /\ len long_caps_line = 107%nat
  /\ re_match Views.re_one_level long_caps_line = false
  /\ re_match Views.re_two_level long_caps_line = false
  /\ re_match Views.re_three_level long_caps_line = false
  /\ Views.detect_heading_level long_caps_line [] [] = Some H1
  /\ Views.simple_level long_caps_line = Some H1.
Proof. repeat split; reflexivity. Qed.

(** The reduced cascade asks for capitals and white space only: a heading
    with a digit or a colon is upper case for [str.isupper] and still no
    heading there. *)
Lemma reduced_all_caps_is_a_pattern :
  isupper "SECTION 1: OVERVIEW" = true
  /\ ProcessPdfs.detect_heading_level "SECTION 1: OVERVIEW" [] = Some H1
  /\ ProcessPdfs.simple_level "SECTION 1: OVERVIEW" = None
  /\ Views.simple_level "SECTION 1: OVERVIEW" = None.
Proof. repeat split; reflexivity. Qed.

End CaseRules.

(** ** The loops over the pages *)

Lemma subseq_nil_l {A : Type} (l : list A) : subseq [] l.
Proof. induction l; now constructor. Qed.

Lemma page_chunk_nil n lines : page_chunk n lines [].
Proof. repeat split; try constructor. apply subseq_nil_l. Qed.

Lemma page_chunk_entries skip f n lines :
  (forall l, skip l = false -> l <> "") ->
  page_chunk n (map Py.strip lines) (entries_of skip f n lines).
Proof.
  intros Hs. split; [apply entries_of_page|].
  split; [apply entries_of_subseq | now apply entries_of_trimmed].
Qed.

Lemma pp_fallback_chunk p n :
  exists hs, ProcessPdfs.extract_headings_fallback p n = Ok hs
             /\ page_chunk n (stripped_lines (extract_text p)) hs.
Proof.
  unfold ProcessPdfs.extract_headings_fallback.
  destruct (extract_text p) as [t|e]; simpl.
  - destruct (negb (Py.truthy t)); simpl.
    + eexists; split; [reflexivity | apply page_chunk_nil].
    + eexists; split; [reflexivity|].
      rewrite pp_simple_loop_entries. simpl.
      apply page_chunk_entries, short_line_nonempty.
  - eexists; split; [reflexivity | apply page_chunk_nil].
Qed.

Lemma pp_page_chunk p n :
  exists hs, ProcessPdfs.extract_headings_from_page p n = Ok hs
             /\ page_chunk n (stripped_lines (extract_text p)) hs.
Proof.
  destruct (pp_fallback_chunk p n) as (fb & Efb & Hfb).
  unfold ProcessPdfs.extract_headings_from_page. rewrite Efb.
  destruct (extract_text p) as [t|e]; simpl.
  - destruct (negb (Py.truthy t)); simpl.
    + eexists; split; [reflexivity | apply page_chunk_nil].
    + destruct (chars p) as [cs|e]; simpl.
      * eexists; split; [reflexivity|].
        rewrite pp_headings_loop_entries. simpl.
        apply page_chunk_entries, short_line_nonempty.
      * eexists; split; [reflexivity | exact Hfb].
  - eexists; split; [reflexivity | exact Hfb].
Qed.

Lemma views_fallback_chunk p n hs :
  Views.extract_headings_fallback p n = Ok hs ->
  page_chunk n (stripped_lines (extract_text p)) hs.
Proof.
  unfold Views.extract_headings_fallback.
  destruct (extract_text p) as [t|e]; simpl; [|discriminate].
  destruct (negb (Py.truthy t)); simpl; intros [= <-].
  - apply page_chunk_nil.
  - rewrite views_simple_loop_entries. simpl.
    apply page_chunk_entries, empty_line_nonempty.
Qed.

Lemma views_page_chunk p n hs :
  Views.extract_headings_from_page p n = Ok hs ->
  page_chunk n (stripped_lines (extract_text p)) hs.
Proof.
  unfold Views.extract_headings_from_page.
  pose proof (views_fallback_chunk p n) as Hfb.
  destruct (Views.extract_headings_fallback p n) as [fb|e'];
    destruct (extract_text p) as [t|e]; simpl; try discriminate.
  - destruct (negb (Py.truthy t)); simpl.
    + intros [= <-]. apply page_chunk_nil.
    + destruct (chars p) as [cs|e]; simpl; intros [= <-].
      * rewrite views_headings_loop_entries. simpl.
        apply page_chunk_entries, empty_line_nonempty.
      * now apply Hfb.
  - intros [= <-]. now apply Hfb.
  - destruct (negb (Py.truthy t)); simpl.
    + intros [= <-]. apply page_chunk_nil.
    + destruct (chars p) as [cs|e]; simpl; [|discriminate]. intros [= <-].
      rewrite views_headings_loop_entries. simpl.
      apply page_chunk_entries, empty_line_nonempty.
Qed.

Lemma scan_from_cons n lines rest hs out :
  page_chunk n lines hs -> scan_from (n + 1) rest out ->
  scan_from n (lines :: rest) (hs ++ out)%list.
Proof. intros (Hp & Hs & _) H. now constructor. Qed.

Lemma pp_pages_loop_scan pages : forall n acc,
  exists out,
    ProcessPdfs.pages_loop n pages acc = Ok (acc ++ out)%list
    /\ scan_from n (map (fun p => stripped_lines (extract_text p)) pages) out
    /\ Forall trimmed_entry out.
Proof.
  induction pages as [|p rest IH]; intros n acc; simpl.
  - exists []. rewrite app_nil_r. repeat split; constructor.
  - destruct (pp_page_chunk p n) as (hs & E & Hc). rewrite E. simpl.
    destruct (IH (n + 1)%Z (acc ++ hs)%list) as (out & E' & Hs & Ht).
    exists (hs ++ out)%list. rewrite E', app_assoc.
    split; [reflexivity|]. split; [now apply scan_from_cons|].
    apply Forall_app. split; [apply Hc | exact Ht].
Qed.

Lemma views_pages_loop_scan pages : forall n acc res,
  Views.pages_loop n pages acc = Ok res ->
  exists out,
    res = (acc ++ out)%list
    /\ scan_from n (map (fun p => stripped_lines (extract_text p)) pages) out
    /\ Forall trimmed_entry out.
Proof.
  induction pages as [|p rest IH]; intros n acc res; simpl.
  - intros [= <-]. exists []. rewrite app_nil_r. repeat split; constructor.
  - pose proof (views_page_chunk p n) as Hc.
    destruct (Views.extract_headings_from_page p n) as [hs|e]; simpl; [|discriminate].
    intros E. destruct (IH _ _ _ E) as (out & -> & Hs & Ht).
    exists (hs ++ out)%list. rewrite app_assoc.
    split; [reflexivity|]. specialize (Hc hs eq_refl).
    split; [now apply scan_from_cons|].
    apply Forall_app. split; [apply Hc | exact Ht].
Qed.

Lemma pp_text_chunk t n :
  page_chunk n (stripped_lines (Ok t)) (ProcessPdfs.extract_headings_from_text t n).
Proof.
  unfold ProcessPdfs.extract_headings_from_text.
  rewrite pp_simple_loop_entries. simpl.
  apply page_chunk_entries, short_line_nonempty.
Qed.

Lemma views_text_chunk t n :
  page_chunk n (stripped_lines (Ok t)) (Views.extract_headings_from_text t n).
Proof.
  unfold Views.extract_headings_from_text.
  rewrite views_simple_loop_entries. simpl.
  apply page_chunk_entries, empty_line_nonempty.
Qed.

Lemma pp_plain_pages_loop_scan pages : forall n acc res,
  ProcessPdfs.plain_pages_loop n pages acc = Ok res ->
  exists out,
    res = (acc ++ out)%list
    /\ scan_from n (map (fun p => stripped_lines (plain_extract_text p)) pages) out
    /\ Forall trimmed_entry out.
Proof.
  induction pages as [|p rest IH]; intros n acc res; simpl.
  - intros [= <-]. exists []. rewrite app_nil_r. repeat split; constructor.
  - destruct (plain_extract_text p) as [t|e]; simpl; [|discriminate].
    destruct (Py.truthy t).
    + intros E. destruct (IH _ _ _ E) as (out & -> & Hs & Ht).
      pose proof (pp_text_chunk t n) as Hc.
      exists (ProcessPdfs.extract_headings_from_text t n ++ out)%list.
      rewrite app_assoc. split; [reflexivity|].
      split; [now apply scan_from_cons|].
      apply Forall_app. split; [apply Hc | exact Ht].
    + intros E. destruct (IH _ _ _ E) as (out & -> & Hs & Ht).
      exists ([] ++ out)%list. split; [reflexivity|].
      split; [|exact Ht].
      apply scan_from_cons; [apply page_chunk_nil | exact Hs].
Qed.

Lemma views_plain_pages_loop_scan pages : forall n acc res,
  Views.plain_pages_loop n pages acc = Ok res ->
  exists out,
    res = (acc ++ out)%list
    /\ scan_from n (map (fun p => stripped_lines (plain_extract_text p)) pages) out
    /\ Forall trimmed_entry out.
Proof.
  induction pages as [|p rest IH]; intros n acc res; simpl.
  - intros [= <-]. exists []. rewrite app_nil_r. repeat split; constructor.
  - destruct (plain_extract_text p) as [t|e]; simpl; [|discriminate].
    destruct (Py.truthy t).
    + intros E. destruct (IH _ _ _ E) as (out & -> & Hs & Ht).
      pose proof (views_text_chunk t n) as Hc.
      exists (Views.extract_headings_from_text t n ++ out)%list.
      rewrite app_assoc. split; [reflexivity|].
      split; [now apply scan_from_cons|].
      apply Forall_app. split; [apply Hc | exact Ht].
    + intros E. destruct (IH _ _ _ E) as (out & -> & Hs & Ht).
      exists ([] ++ out)%list. split; [reflexivity|].
      split; [|exact Ht].
      apply scan_from_cons; [apply page_chunk_nil | exact Hs].
Qed.

(** In scan order the page numbers start at the first page's and never
    decrease. *)
Lemma scan_from_sorted n ls out :
  scan_from n ls out ->
  Forall (fun h => (n <= page h)%Z) out
  /\ StronglySorted Z.le (map page out).
Proof.
  induction 1 as [n | n lines rest hs out Hp Hs Hrec [IHge IHsorted]].
  - split; constructor.
  - assert (Hge : Forall (fun h => (n <= page h)%Z) (hs ++ out)%list).
    { apply Forall_app. split.
      - eapply Forall_impl; [|exact Hp]. simpl. intros h ->. lia.
      - eapply Forall_impl; [|exact IHge]. simpl. intros h. lia. }
    split; [exact Hge|].
    clear Hs. induction hs as [|h hs IHhs]; simpl; [exact IHsorted|].
    inversion Hp as [|? ? Hh Hp']; subst.
    inversion Hge as [|? ? _ Hge']; subst.
    constructor; [now apply IHhs|].
    apply Forall_map. eapply Forall_impl; [|exact Hge']. simpl. intros a Ha. exact Ha.
Qed.

(** ** The whole extraction *)

Lemma pp_title_ok p : exists t, ProcessPdfs.extract_title_from_page p = Ok t.
Proof.
  unfold ProcessPdfs.extract_title_from_page.
  destruct (extract_text p) as [t|e]; simpl; [|now eexists].
  destruct (negb (Py.truthy t)); now eexists.
Qed.

Lemma pp_plain_outcome pdf :
  exists doc, ProcessPdfs.extract_with_pypdf2 pdf = Ok doc /\ outcome pdf doc.
Proof.
  unfold ProcessPdfs.extract_with_pypdf2.
  destruct (ProcessPdfs.pypdf2_body pdf) as [doc|e] eqn:E; simpl.
  - exists doc. split; [reflexivity|]. right. left.
    unfold ProcessPdfs.pypdf2_body in E.
    destruct (pypdf2_open pdf) as [reader|e]; simpl in E; [|discriminate].
    exists reader. split; [reflexivity|].
    match type of E with bind ?c _ = _ => destruct c as [t|e]; simpl in E end;
      [|discriminate].
    destruct (ProcessPdfs.plain_pages_loop 1 (reader_pages reader) []) as [hs|e] eqn:L;
      simpl in E; [|discriminate].
    injection E as <-. simpl.
    destruct (pp_plain_pages_loop_scan _ _ _ _ L) as (out & -> & Hs & Ht).
    now split.
  - exists failure_document. split; [reflexivity|]. right. now right.
Qed.

Lemma views_plain_outcome pdf :
  exists doc, Views.extract_with_pypdf2 pdf = Ok doc /\ outcome_views pdf doc.
Proof.
  unfold Views.extract_with_pypdf2.
  destruct (Views.pypdf2_body pdf) as [doc|e] eqn:E; simpl.
  - exists doc. split; [reflexivity|]. right. left.
    unfold Views.pypdf2_body in E.
    destruct (pypdf2_open pdf) as [reader|e]; simpl in E; [|discriminate].
    exists reader. split; [reflexivity|].
    match type of E with bind ?c _ = _ => destruct c as [t|e]; simpl in E end;
      [|discriminate].
    destruct (Views.plain_pages_loop 1 (reader_pages reader) []) as [hs|e] eqn:L;
      simpl in E; [|discriminate].
    injection E as <-. simpl.
    destruct (views_plain_pages_loop_scan _ _ _ _ L) as (out & -> & Hs & Ht).
    now split.
  - exists views_failure_document. split; [reflexivity|]. right. now right.
Qed.

Lemma pp_outcome pdf :
  exists doc, ProcessPdfs.extract_pdf_outline pdf = Ok doc /\ outcome pdf doc.
Proof.
  unfold ProcessPdfs.extract_pdf_outline, ProcessPdfs.pdfplumber_body.
  destruct (pdfplumber_open pdf) as [pages|e] eqn:O; simpl.
  - assert (T : exists t, match pages with
                          | [] => Ok ""
                          | first_page :: _ =>
                              ProcessPdfs.extract_title_from_page first_page
                          end = Ok t).
    { destruct pages as [|p ?]; [now eexists | apply pp_title_ok]. }
    destruct T as (t & ->). simpl.
    destruct (pp_pages_loop_scan pages 1 []) as (out & -> & Hs & Ht). simpl.
    eexists. split; [reflexivity|]. left. exists pages. now repeat split.
  - apply pp_plain_outcome.
Qed.

Lemma views_outcome pdf :
  exists doc, Views.extract_pdf_outline pdf = Ok doc /\ outcome_views pdf doc.
Proof.
  unfold Views.extract_pdf_outline.
  destruct (Views.pdfplumber_body pdf) as [doc|e] eqn:E; simpl.
  - exists doc. split; [reflexivity|]. left.
    unfold Views.pdfplumber_body in E.
    destruct (pdfplumber_open pdf) as [pages|e]; simpl in E; [|discriminate].
    exists pages. split; [reflexivity|].
    match type of E with bind ?c _ = _ => destruct c as [t|e]; simpl in E end;
      [|discriminate].
    destruct (Views.pages_loop 1 pages []) as [hs|e] eqn:L; simpl in E; [|discriminate].
    injection E as <-. simpl.
    destruct (views_pages_loop_scan _ _ _ _ L) as (out & -> & Hs & Ht).
    now split.
  - apply views_plain_outcome.
Qed.

Lemma outcome_pages pdf doc :
  outcome pdf doc ->
  Forall (fun h => (1 <= page h)%Z) (outline doc)
  /\ StronglySorted Z.le (map page (outline doc)).
Proof.
  intros [(pages & _ & Hs & _) | [(reader & _ & Hs & _) | ->]].
  - now apply scan_from_sorted in Hs.
  - now apply scan_from_sorted in Hs.
  - split; constructor.
Qed.

Lemma outcome_trimmed pdf doc : outcome pdf doc -> Forall trimmed_entry (outline doc).
Proof.
  intros [(pages & _ & _ & Ht) | [(reader & _ & _ & Ht) | ->]];
    try assumption. constructor.
Qed.

Lemma outcome_views_pages pdf doc :
  outcome_views pdf doc ->
  Forall (fun h => (1 <= page h)%Z) (outline doc)
  /\ StronglySorted Z.le (map page (outline doc)).
Proof.
  intros [(pages & _ & Hs & _) | [(reader & _ & Hs & _) | ->]].
  - now apply scan_from_sorted in Hs.
  - now apply scan_from_sorted in Hs.
  - split; constructor.
Qed.

Lemma outcome_views_trimmed pdf doc :
  outcome_views pdf doc -> Forall trimmed_entry (outline doc).
Proof.
  intros [(pages & _ & _ & Ht) | [(reader & _ & _ & Ht) | ->]];
    try assumption. constructor.
Qed.

(** Whatever the file, [extract_pdf_outline] returns a document and does not
    raise, in both copies: when the pdfplumber part raises, the result is that
    of [extract_with_pypdf2] on the whole file, which is the document built
    from the PyPDF2 reader when that part returns one, and the document with
    the title "Error extracting title" and an empty outline when it raises. *)
Lemma extraction_never_raises (pdf : PdfFile) :
  (exists doc, ProcessPdfs.extract_pdf_outline pdf = Ok doc)
  /\ (exists doc, Views.extract_pdf_outline pdf = Ok doc)
  /\ (forall e, ProcessPdfs.pdfplumber_body pdf = Raise e ->
                ProcessPdfs.extract_pdf_outline pdf = ProcessPdfs.extract_with_pypdf2 pdf)
  /\ (forall e, Views.pdfplumber_body pdf = Raise e ->
                Views.extract_pdf_outline pdf = Views.extract_with_pypdf2 pdf)
  /\ (forall doc, ProcessPdfs.pypdf2_body pdf = Ok doc ->
                  ProcessPdfs.extract_with_pypdf2 pdf = Ok doc)
  /\ (forall doc, Views.pypdf2_body pdf = Ok doc ->
                  Views.extract_with_pypdf2 pdf = Ok doc)
  /\ (forall e, ProcessPdfs.pypdf2_body pdf = Raise e ->
                ProcessPdfs.extract_with_pypdf2 pdf = Ok failure_document)
  /\ (forall e, Views.pypdf2_body pdf = Raise e ->
                Views.extract_with_pypdf2 pdf = Ok views_failure_document).
Proof.
  split; [destruct (pp_outcome pdf) as (doc & E & _); now exists doc|].
  split; [destruct (views_outcome pdf) as (doc & E & _); now exists doc|].
  split; [intros e E; unfold ProcessPdfs.extract_pdf_outline; now rewrite E|].
  split; [intros e E; unfold Views.extract_pdf_outline; now rewrite E|].
  split; [intros doc E; unfold ProcessPdfs.extract_with_pypdf2; now rewrite E|].
  split; [intros doc E; unfold Views.extract_with_pypdf2; now rewrite E|].
  split; intros e E.
  - unfold ProcessPdfs.extract_with_pypdf2. now rewrite E.
  - unfold Views.extract_with_pypdf2. now rewrite E.
Qed.

Lemma extraction_never_raises_witness :
  ProcessPdfs.extract_pdf_outline unreadable_pdf = Ok failure_document
  /\ Views.extract_pdf_outline unreadable_pdf = Ok views_failure_document.
Proof.
  destruct (extraction_never_raises unreadable_pdf)
    as (_ & _ & R & R' & _ & _ & F & F').
  split.
  - rewrite (R "No /Root object! - Is this really a PDF?" eq_refl).
    apply (F "EOF marker not found"). reflexivity.
  - rewrite (R' "No /Root object! - Is this really a PDF?" eq_refl).
    apply (F' "EOF marker not found"). reflexivity.
Defined.

(** C2 (amended).  When both backends fail, the document returned has the
    title "Error extracting title" and an empty outline, and it has no
    error field. *)
Theorem both_backends_fail (pdf : PdfFile) (e1 e2 : string) :
  (ProcessPdfs.pdfplumber_body pdf = Raise e1 ->
   ProcessPdfs.pypdf2_body pdf = Raise e2 ->
   ProcessPdfs.extract_pdf_outline pdf
   = Ok (mkDocument "Error extracting title" [] None))
  /\ (Views.pdfplumber_body pdf = Raise e1 ->
      Views.pypdf2_body pdf = Raise e2 ->
      Views.extract_pdf_outline pdf
      = Ok (mkDocument (JStr "Error extracting title") [] None)).
Proof.
  split; intros R F.
  - unfold ProcessPdfs.extract_pdf_outline, ProcessPdfs.extract_with_pypdf2.
    now rewrite R, F.
  - unfold Views.extract_pdf_outline, Views.extract_with_pypdf2.
    now rewrite R, F.
Qed.

Lemma both_backends_fail_witness :
  ProcessPdfs.extract_pdf_outline unreadable_pdf
  = Ok (mkDocument "Error extracting title" [] None)
  /\ Views.extract_pdf_outline unreadable_pdf
     = Ok (mkDocument (JStr "Error extracting title") [] None).
Proof.
  destruct (both_backends_fail unreadable_pdf
              "No /Root object! - Is this really a PDF?" "EOF marker not found")
    as (P & V).
  split.
  - apply P; reflexivity.
  - apply V; reflexivity.
Defined.

(** C2, as stated, fails: on a file that neither backend opens, the
    document returned is not one with an error message, in either copy. *)
Lemma failure_document_has_no_error :
  pdfplumber_open unreadable_pdf = Raise "No /Root object! - Is this really a PDF?"
  /\ pypdf2_open unreadable_pdf = Raise "EOF marker not found"
  /\ ~ (exists msg, msg <> ""
        /\ ProcessPdfs.extract_pdf_outline unreadable_pdf
           = Ok (mkDocument "Error extracting title" [] (Some msg)))
  /\ ~ (exists msg, msg <> ""
        /\ Views.extract_pdf_outline unreadable_pdf
           = Ok (mkDocument (JStr "Error extracting title") [] (Some msg))).
Proof.
  split; [reflexivity|]. split; [reflexivity|].
  split; intros (msg & _ & E); discriminate E.
Qed.

(** C8.  In both copies extraction returns a document whose page numbers
    are at least 1 and never decrease along the outline, and whose outline is
    in scan order: the entries of the first page scanned, in the order of its
    lines, then those of the second, and so on (or the outline is that of the
    failure document, which is empty). *)
Theorem outline_in_scan_order (pdf : PdfFile) :
  (exists doc,
     ProcessPdfs.extract_pdf_outline pdf = Ok doc
     /\ Forall (fun h => (1 <= page h)%Z) (outline doc)
     /\ StronglySorted Z.le (map page (outline doc))
     /\ outcome pdf doc)
  /\ (exists doc,
        Views.extract_pdf_outline pdf = Ok doc
        /\ Forall (fun h => (1 <= page h)%Z) (outline doc)
        /\ StronglySorted Z.le (map page (outline doc))
        /\ outcome_views pdf doc).
Proof.
  split.
  - destruct (pp_outcome pdf) as (doc & E & O).
    destruct (outcome_pages pdf doc O) as [Hge Hs]. now exists doc.
  - destruct (views_outcome pdf) as (doc & E & O).
    destruct (outcome_views_pages pdf doc O) as [Hge Hs]. now exists doc.
Qed.

(** C10.  In both copies every entry of the outline that extraction returns
    has a text that is not empty and that [strip] leaves unchanged. *)
Theorem heading_text_is_stripped (pdf : PdfFile) :
  (exists doc,
     ProcessPdfs.extract_pdf_outline pdf = Ok doc
     /\ Forall (fun h => text h <> "" /\ Py.strip (text h) = text h) (outline doc))
  /\ (exists doc,
        Views.extract_pdf_outline pdf = Ok doc
        /\ Forall (fun h => text h <> "" /\ Py.strip (text h) = text h) (outline doc)).
Proof.
  split.
  - destruct (pp_outcome pdf) as (doc & E & O).
    exists doc. split; [exact E | exact (outcome_trimmed pdf doc O)].
  - destruct (views_outcome pdf) as (doc & E & O).
    exists doc. split; [exact E | exact (outcome_views_trimmed pdf doc O)].
Qed.

(** ** Title detection *)

Lemma bind_ok {A B : Type} (c : result A) (k : A -> result B) (b : B) :
  bind c k = Ok b -> exists a, c = Ok a /\ k a = Ok b.
Proof. destruct c as [a|e]; simpl; [now exists a | discriminate]. Qed.

Lemma first_line_cons q l rest :
  first_line q (l :: rest) = if q (Py.strip l) then Py.strip l else first_line q rest.
Proof. unfold first_line. simpl. now destruct (q (Py.strip l)). Qed.

Lemma first_line_none q lines :
  (forall l, In l lines -> q (Py.strip l) = false) -> first_line q lines = "".
Proof.
  induction lines as [|l rest IH]; intros H; [reflexivity|].
  rewrite first_line_cons, (H l (or_introl eq_refl)).
  apply IH. intros l' Hl'. apply H. now right.
Qed.

Lemma pp_title_loop_first lines :
  ProcessPdfs.title_loop lines = first_line qualifies_rich lines.
Proof.
  induction lines as [|l rest IH]; [reflexivity|].
  rewrite first_line_cons. simpl. rewrite IH.
  unfold qualifies_rich, purely_numeric.
  destruct (Py.truthy (Py.strip l)); simpl; [|reflexivity].
  destruct (3 <? Py.len (Py.strip l))%nat; simpl; [|reflexivity].
  destruct (Py.isdigit (Py.strip l)); simpl; [reflexivity|].
  now destruct (Re.re_match_end ProcessPdfs.re_number (Py.strip l)).
Qed.

Lemma pp_plain_title_loop_first lines :
  ProcessPdfs.plain_title_loop lines = first_line qualifies_plain lines.
Proof.
  induction lines as [|l rest IH]; [reflexivity|].
  rewrite first_line_cons. simpl. rewrite IH. reflexivity.
Qed.

Lemma views_title_loop_first lines :
  Views.title_loop lines = first_line qualifies_views lines.
Proof.
  induction lines as [|l rest IH]; [reflexivity|].
  rewrite first_line_cons. simpl. rewrite IH. reflexivity.
Qed.

Lemma views_plain_title_loop_first lines :
  Views.plain_title_loop lines = first_line qualifies_views lines.
Proof.
  induction lines as [|l rest IH]; [reflexivity|].
  rewrite first_line_cons. simpl. rewrite IH. reflexivity.
Qed.

Lemma pp_title_of_page p :
  ProcessPdfs.extract_title_from_page p
  = Ok (first_line qualifies_rich (text_lines (extract_text p))).
Proof.
  unfold ProcessPdfs.extract_title_from_page.
  destruct (extract_text p) as [t|e]; simpl; [|reflexivity].
  destruct t as [|c r]; [reflexivity|].
  cbn [Py.truthy negb]. now rewrite pp_title_loop_first.
Qed.

Lemma views_title_of_page p t :
  Views.extract_title_from_page p = Ok t ->
  t = first_line qualifies_views (text_lines (extract_text p)).
Proof.
  unfold Views.extract_title_from_page.
  destruct (extract_text p) as [txt|e]; simpl; [|discriminate].
  destruct txt as [|c r]; [now intros [= <-]|].
  cbn [Py.truthy negb]. rewrite views_title_loop_first. now intros [= <-].
Qed.

(** C6 (amended).  In process_pdfs.py the title is the first stripped line
    of the first page that is not empty, has more than 3 characters and is
    not purely numeric, on the rich path and, when the metadata has no Title
    key, on the plain path.  In views.py it is the first stripped line of
    more than 3 characters, purely numeric or not.  On the plain path of both
    copies the value of the metadata key Title, when the key is there, is the
    title ([str()] of it in process_pdfs.py, the value as PyPDF2 gives it in
    views.py) and no line is scanned.  When no line qualifies and no metadata
    title is used, the title is the empty string. *)
Theorem title_detection (pdf : PdfFile) (doc : Document) (vdoc : Document_of json) :
  (forall pages,
     pdfplumber_open pdf = Ok pages ->
     ProcessPdfs.pdfplumber_body pdf = Ok doc ->
     title doc = rich_title qualifies_rich pages)
  /\ (forall reader,
        pypdf2_open pdf = Ok reader ->
        ProcessPdfs.pypdf2_body pdf = Ok doc ->
        title doc = plain_title qualifies_plain reader)
  /\ (forall pages,
        pdfplumber_open pdf = Ok pages ->
        Views.pdfplumber_body pdf = Ok vdoc ->
        title vdoc = JStr (rich_title qualifies_views pages))
  /\ (forall reader,
        pypdf2_open pdf = Ok reader ->
        Views.pypdf2_body pdf = Ok vdoc ->
        title vdoc = views_plain_title qualifies_views reader)
  /\ (forall qualifies lines,
        (forall l, In l lines -> qualifies (Py.strip l) = false) ->
        first_line qualifies lines = "").
Proof.
  repeat match goal with |- _ /\ _ => split end.
  - intros pages O E. unfold ProcessPdfs.pdfplumber_body in E.
    apply bind_ok in E as (pages' & O' & E).
    rewrite O in O'. injection O' as <-.
    apply bind_ok in E as (t & T & E).
    apply bind_ok in E as (hs & _ & E).
    injection E as <-. simpl.
    destruct pages as [|p rest]; [now injection T as <-|].
    rewrite pp_title_of_page in T. now injection T as <-.
  - intros reader O E. unfold ProcessPdfs.pypdf2_body in E.
    apply bind_ok in E as (reader' & O' & E).
    rewrite O in O'. injection O' as <-.
    apply bind_ok in E as (t & T & E).
    apply bind_ok in E as (hs & _ & E).
    injection E as <-. simpl. unfold plain_title.
    destruct (metadata_title reader); [now injection T as <-|].
    destruct (reader_pages reader) as [|p rest]; [now injection T as <-|].
    apply bind_ok in T as (txt & Et & T). rewrite Et. simpl text_lines.
    destruct txt as [|c r]; simpl in T; injection T as <-; [reflexivity|].
    apply pp_plain_title_loop_first.
  - intros pages O E. unfold Views.pdfplumber_body in E.
    apply bind_ok in E as (pages' & O' & E).
    rewrite O in O'. injection O' as <-.
    apply bind_ok in E as (t & T & E).
    apply bind_ok in E as (hs & _ & E).
    injection E as <-. simpl.
    destruct pages as [|p rest]; [now injection T as <-|].
    f_equal. now apply views_title_of_page.
  - intros reader O E. unfold Views.pypdf2_body in E.
    apply bind_ok in E as (reader' & O' & E).
    rewrite O in O'. injection O' as <-.
    apply bind_ok in E as (t & T & E).
    apply bind_ok in E as (hs & _ & E).
    injection E as <-. simpl. unfold views_plain_title.
    destruct (metadata_title reader); [now injection T as <-|].
    destruct (reader_pages reader) as [|p rest]; [now injection T as <-|].
    apply bind_ok in T as (txt & Et & T). rewrite Et. simpl text_lines.
    destruct txt as [|c r]; simpl in T; injection T as <-; [reflexivity|].
    f_equal. apply views_plain_title_loop_first.
  - intros q lines. apply first_line_none.
Qed.

Lemma title_detection_witness :
  title (mkDocument "Annual Report" [mkHeading H2 "Annual Report" 1] None)
  = rich_title qualifies_rich [year_page]
  /\ title (mkDocument (JStr "Report X") [] None)
     = views_plain_title qualifies_views
         (mkPdfReader (Some [("/Title", TextString "Report X")])
            [mkPlainPage (Ok "Annual Report")]).
Proof.
  split.
  - destruct (title_detection year_report_pdf
                (mkDocument "Annual Report" [mkHeading H2 "Annual Report" 1] None)
                (mkDocument (JStr "Report X") [] None))
      as (H & _).
    apply H; reflexivity.
  - destruct (title_detection year_report_pdf
                (mkDocument "Annual Report" [mkHeading H2 "Annual Report" 1] None)
                (mkDocument (JStr "Report X") [] None))
      as (_ & _ & _ & H & _).
    apply H; reflexivity.
Defined.

(** C6, as stated, fails on views.py: the title of a first page that
    starts with the line "2024" is that purely numeric line. *)
Lemma views_title_may_be_numeric :
  Views.extract_title_from_page year_page = Ok "2024"
  /\ Py.isdigit "2024" = true
  /\ ProcessPdfs.extract_title_from_page year_page = Ok "Annual Report".
Proof. repeat split; reflexivity. Qed.

(** ** A page that cannot be read *)

Lemma pp_failed_page_falls_back p n e :
  extract_text p = Raise e \/ chars p = Raise e ->
  ProcessPdfs.extract_headings_from_page p n
  = ProcessPdfs.extract_headings_fallback p n.
Proof.
  unfold ProcessPdfs.extract_headings_from_page, ProcessPdfs.extract_headings_fallback.
  intros [E|E]; rewrite E; simpl; [reflexivity|].
  destruct (extract_text p) as [t|e']; simpl; [|reflexivity].
  now destruct (negb (Py.truthy t)).
Qed.

Lemma pp_pages_loop_acc pages : forall n,
  exists out, forall acc, ProcessPdfs.pages_loop n pages acc = Ok (acc ++ out)%list.
Proof.
  induction pages as [|p rest IH]; intros n; simpl.
  - exists []. intros acc. now rewrite app_nil_r.
  - destruct (pp_page_chunk p n) as (hs & E & _). rewrite E. simpl.
    destruct (IH (n + 1)%Z) as (out & Hout).
    exists (hs ++ out)%list. intros acc. now rewrite Hout, app_assoc.
Qed.

Lemma pp_pages_loop_app before : forall after n acc,
  ProcessPdfs.pages_loop n (before ++ after) acc
  = (done <- ProcessPdfs.pages_loop n before acc ;;
     ProcessPdfs.pages_loop (n + Z.of_nat (List.length before)) after done).
Proof.
  induction before as [|p rest IH]; intros after n acc.
  - simpl. now rewrite Z.add_0_r.
  - cbn [app ProcessPdfs.pages_loop List.length].
    replace (n + Z.of_nat (S (List.length rest)))%Z
      with (n + 1 + Z.of_nat (List.length rest))%Z by lia.
    destruct (ProcessPdfs.extract_headings_from_page p n) as [hs|e];
      cbn [bind]; [apply IH | reflexivity].
Qed.

(** In process_pdfs.py a page whose text or glyphs cannot be read gives what
    the reduced cascade gives, the entries of the earlier pages stay as they
    were, and the later pages are scanned as before. *)
Lemma pp_page_failure_is_local pdf before p after e :
  pdfplumber_open pdf = Ok (before ++ p :: after)%list ->
  extract_text p = Raise e \/ chars p = Raise e ->
  exists t hs_before hs_p hs_after,
    ProcessPdfs.pages_loop 1 before [] = Ok hs_before
    /\ ProcessPdfs.extract_headings_fallback p (1 + Z.of_nat (List.length before))
       = Ok hs_p
    /\ ProcessPdfs.pages_loop (1 + Z.of_nat (List.length before) + 1) after []
       = Ok hs_after
    /\ ProcessPdfs.extract_pdf_outline pdf
       = Ok (mkDocument t (hs_before ++ hs_p ++ hs_after)%list None).
Proof.
  intros O F.
  destruct (pp_pages_loop_acc before 1) as (hb & Hb).
  destruct (pp_fallback_chunk p (1 + Z.of_nat (List.length before))) as (hp & Hp & _).
  destruct (pp_pages_loop_acc after (1 + Z.of_nat (List.length before) + 1))
    as (ha & Ha).
  assert (T : exists t, match (before ++ p :: after)%list with
                        | [] => Ok ""
                        | first_page :: _ =>
                            ProcessPdfs.extract_title_from_page first_page
                        end = Ok t).
  { destruct (before ++ p :: after)%list; [now eexists | apply pp_title_ok]. }
  destruct T as (t & T).
  exists t, hb, hp, ha.
  split; [apply (Hb [])|]. split; [exact Hp|]. split; [apply (Ha [])|].
  unfold ProcessPdfs.extract_pdf_outline, ProcessPdfs.pdfplumber_body.
  rewrite O. cbn [bind]. rewrite T. cbn [bind].
  rewrite pp_pages_loop_app, Hb. cbn [bind ProcessPdfs.pages_loop].
  rewrite (pp_failed_page_falls_back _ _ _ F), Hp. cbn [bind].
  rewrite Ha. cbn [bind try_except app]. now rewrite <- app_assoc.
Qed.

(** In views.py the same holds when only the glyphs cannot be read; a page
    whose text cannot be read makes [extract_headings_from_page] raise. *)
Lemma views_failed_page p n :
  (forall e t, chars p = Raise e -> extract_text p = Ok t ->
               Views.extract_headings_from_page p n
               = Views.extract_headings_fallback p n)
  /\ (forall e, extract_text p = Raise e ->
                Views.extract_headings_from_page p n = Raise e).
Proof.
  unfold Views.extract_headings_from_page, Views.extract_headings_fallback.
  split.
  - intros e t Ec Et. rewrite Ec, Et. simpl. now destruct (negb (Py.truthy t)).
  - intros e Et. now rewrite Et.
Qed.

(** C9 fails on views.py.  The file has two pages; pdfplumber reads the
    first, which gives one heading, and raises on the text of the second.
    The outline returned is empty: the heading of the first page is lost,
    because the reduced cascade reads the text again, raises, and the whole
    file goes to PyPDF2.  process_pdfs.py keeps the heading. *)
Theorem views_page_failure_discards_outline :
  Views.extract_headings_from_page chapter_page 1
  = Ok [mkHeading H2 "Chapter 1 Basics" 1]
  /\ Views.extract_headings_from_page damaged_page 2
     = Raise "unpack requires a buffer of 4 bytes"
  /\ Views.extract_pdf_outline damaged_second_page_pdf
     = Ok (mkDocument (JStr "Chapter 1 Basics") [] None)
  /\ ProcessPdfs.extract_pdf_outline damaged_second_page_pdf
     = Ok (mkDocument "Chapter 1 Basics" [mkHeading H1 "Chapter 1 Basics" 1] None).
Proof. repeat split; reflexivity. Qed.

(** ** The reduced cascade inside the primary one *)

Section Cascades.

Import Py Re.

Lemma re_match_prefix (line : string) : forall p q : pattern,
  re_match (p ++ q)%list line = true -> re_match p line = true.
Proof.
  induction line as [|x r IH]; intros p q H.
  - destruct p as [|[k|k] p']; [reflexivity | discriminate H | discriminate H].
  - destruct p as [|[k|k] p']; [reflexivity | |]; simpl in H |- *.
    + apply andb_prop in H as [Hx H]. rewrite Hx. exact (IH _ _ H).
    + apply andb_prop in H as [Hx H]. rewrite Hx. simpl.
      apply orb_prop in H as [H|H].
      * rewrite (IH (Many1 k :: p') q H). reflexivity.
      * rewrite (IH p' q H). apply orb_true_r.
Qed.

(** A pattern with a [cls+] in it matches no line without a [cls] character. *)
Lemma re_match_needs (cls : ascii -> bool) (q : pattern) (line : string) :
  forallb_chars (fun c => negb (cls c)) line = true ->
  forall p : pattern, re_match (p ++ Many1 cls :: q)%list line = false.
Proof.
  induction line as [|x r IH]; intros Hn p.
  - destruct p as [|[k|k] p']; reflexivity.
  - simpl in Hn. apply andb_prop in Hn as [Hx Hr].
    destruct p as [|[k|k] p']; simpl.
    + apply negb_true_iff in Hx. now rewrite Hx.
    + rewrite (IH Hr p'). apply andb_false_r.
    + pose proof (IH Hr (Many1 k :: p')) as E. simpl in E.
      rewrite (IH Hr p'), E. apply andb_false_r.
Qed.

(** Every item of a pattern takes at least one character. *)
Lemma re_match_len (line : string) : forall p : pattern,
  re_match p line = true -> (List.length p <= len line)%nat.
Proof.
  unfold len.
  induction line as [|x r IH]; intros p H.
  - destruct p as [|[k|k] p']; [simpl; lia | discriminate H | discriminate H].
  - destruct p as [|[k|k] p']; simpl in H |- *; [lia | |].
    + apply andb_prop in H as [_ H]. apply IH in H. lia.
    + apply andb_prop in H as [_ H]. apply orb_prop in H as [H|H];
        apply IH in H; simpl in H; lia.
Qed.

(** What [$] lets through is white space. *)
Lemma at_end_chars (cls : ascii -> bool) (line : string) :
  cls newline = true -> at_end line = true -> forallb_chars cls line = true.
Proof.
  intros Hn. destruct line as [|c [|c' r]]; simpl; try discriminate; [reflexivity|].
  intros H. apply Ascii.eqb_eq in H. subst c. now rewrite Hn.
Qed.

Lemma all_caps_chars (line : string) : forall p : pattern,
  Forall (fun i => i = One AZ \/ i = Many1 AZ_or_s) p ->
  re_match_end p line = true -> forallb_chars AZ_or_s line = true.
Proof.
  assert (Haz : forall c, AZ c = true -> AZ_or_s c = true).
  { intros c Hc. unfold AZ_or_s. fold (AZ c). now rewrite Hc. }
  induction line as [|x r IH]; intros p Hp H; [reflexivity|].
  destruct p as [|i p'].
  - apply (at_end_chars AZ_or_s); [reflexivity | exact H].
  - inversion Hp as [|? ? Hi Hp']; subst.
    destruct Hi as [-> | ->]; simpl in H |- *;
      apply andb_prop in H as [Hx H].
    + rewrite (Haz _ Hx). exact (IH _ Hp' H).
    + rewrite Hx. simpl. apply orb_prop in H as [H|H].
      * exact (IH _ Hp H).
      * exact (IH _ Hp' H).
Qed.

Lemma AZ_or_s_not_lower c : AZ_or_s c = true -> islower_char c = false.
Proof. all_chars c. Qed.

Lemma AZ_or_s_not_digit c : AZ_or_s c = true -> negb (d c) = true.
Proof. all_chars c. Qed.

Lemma AZ_is_upper c : AZ c = true -> isupper_char c = true.
Proof. all_chars c. Qed.

Lemma forallb_chars_impl (f g : ascii -> bool) (w : string) :
  (forall c, f c = true -> g c = true) ->
  forallb_chars f w = true -> forallb_chars g w = true.
Proof.
  intros Hfg. induction w as [|c r IH]; simpl; [reflexivity|].
  intros H. apply andb_prop in H as [Hc Hr]. now rewrite (Hfg _ Hc), IH.
Qed.

Lemma isupper_from_cased (w : string) :
  forallb_chars AZ_or_s w = true -> isupper_from true w = true.
Proof.
  induction w as [|c r IH]; simpl; [reflexivity|].
  intros H. apply andb_prop in H as [Hc Hr].
  rewrite (AZ_or_s_not_lower _ Hc). exact (IH Hr).
Qed.

(** A line that the capitals pattern matches is upper case for
    [str.isupper], has no digit, and starts with a capital. *)
Lemma all_caps_line (line : string) :
  re_match_end [One AZ; Many1 AZ_or_s; One AZ] line = true ->
  isupper line = true
  /\ forallb_chars (fun c => negb (d c)) line = true
  /\ re_match [Many1 d] line = false.
Proof.
  intros H.
  assert (Hall : forallb_chars AZ_or_s line = true).
  { apply (all_caps_chars line [One AZ; Many1 AZ_or_s; One AZ]); [|exact H].
    constructor; [now left|]. constructor; [now right|].
    constructor; [now left|]. constructor. }
  split; [|split].
  - destruct line as [|c r]; [discriminate H|].
    simpl in H. apply andb_prop in H as [Hc _].
    simpl in Hall. apply andb_prop in Hall as [Hc' Hr].
    unfold isupper. simpl.
    rewrite (AZ_or_s_not_lower _ Hc'), (AZ_is_upper _ Hc).
    exact (isupper_from_cased r Hr).
  - exact (forallb_chars_impl _ _ _ AZ_or_s_not_digit Hall).
  - destruct line as [|c r]; [reflexivity|].
    simpl in H |- *. apply andb_prop in H as [Hc _].
    now rewrite (AZ_not_digit _ Hc).
Qed.

Lemma all_caps_no_chapter (line : string) :
  re_match_end [One AZ; Many1 AZ_or_s; One AZ] line = true ->
  ProcessPdfs.re_chapter line = false.
Proof.
  intros H. destruct (all_caps_line line H) as (_ & Hn & _).
  unfold ProcessPdfs.re_chapter.
  assert (E1 := re_match_needs d [] line Hn (lit_i "Chapter" ++ [Many1 s])%list).
  assert (E2 := re_match_needs d [] line Hn (lit_i "Section" ++ [Many1 s])%list).
  assert (E3 := re_match_needs d [] line Hn (lit_i "Part" ++ [Many1 s])%list).
  change (re_match (lit_i "Chapter" ++ [Many1 s; Many1 d])%list line = false) in E1.
  change (re_match (lit_i "Section" ++ [Many1 s; Many1 d])%list line = false) in E2.
  change (re_match (lit_i "Part" ++ [Many1 s; Many1 d])%list line = false) in E3.
  now rewrite E1, E2, E3.
Qed.

Lemma pp_simple_level_in_primary (line : string) (sizes : list Q) (lvl : Level) :
  ProcessPdfs.simple_level line = Some lvl ->
  ProcessPdfs.detect_heading_level line sizes = Some lvl.
Proof.
  unfold ProcessPdfs.simple_level, ProcessPdfs.detect_heading_level.
  destruct (re_match_end ProcessPdfs.re_all_caps line) eqn:Hc; cbn [andb].
  - destruct (all_caps_line line Hc) as (Hu & _ & _).
    unfold ProcessPdfs.re_one_level, ProcessPdfs.re_two_level,
      ProcessPdfs.re_three_level.
    rewrite !(all_caps_not_numbered _ _ _ Hc).
    rewrite (all_caps_no_chapter line Hc), Hu. cbn [andb].
    destruct ((4 <=? len line)%nat && (len line <=? 100)%nat); [trivial|].
    discriminate.
  - destruct (re_match ProcessPdfs.re_one_level line); [trivial|].
    destruct (re_match ProcessPdfs.re_two_level line); [trivial|].
    destruct (re_match ProcessPdfs.re_three_level line); [trivial|].
    discriminate.
Qed.

Lemma views_simple_level_in_primary (line : string) (cs : list Glyph)
    (sizes : list Q) (lvl : Level) :
  Views.simple_level line = Some lvl ->
  Views.detect_heading_level line cs sizes = Some lvl.
Proof.
  rewrite views_detect_no_sizes.
  unfold Views.simple_level, Views.detect_heading_level.
  destruct (re_match_end Views.re_all_caps line) eqn:Hc; cbn [andb].
  - destruct (all_caps_line line Hc) as (Hu & _ & _).
    unfold Views.re_one_level, Views.re_two_level, Views.re_three_level,
      Views.re_numbered, Views.re_subsection, Views.re_subsubsection.
    rewrite !(all_caps_not_numbered _ _ _ Hc).
    rewrite Hu. cbn [andb].
    destruct (3 <? len line)%nat; [trivial|]. discriminate.
  - destruct (re_match Views.re_numbered line) eqn:N1.
    { rewrite (re_match_prefix line Views.re_one_level [One AZ] N1). trivial. }
    destruct (re_match Views.re_subsection line) eqn:N2.
    { rewrite (re_match_prefix line Views.re_two_level [One AZ] N2).
      destruct (re_match Views.re_one_level line) eqn:V1; [|trivial].
      destruct (dot_then_digit_or_space _ _ _ N2 V1). }
    destruct (re_match Views.re_subsubsection line) eqn:N3; [|discriminate].
    pose proof (re_match_prefix line Views.re_three_level [One AZ] N3) as V3.
    destruct (views_three_level_exclusive line V3) as [V1 V2].
    now rewrite V1, V2, V3.
Qed.

End Cascades.

(** X3.  Whatever level the reduced cascade gives a line, the primary
    cascade of the same copy gives that line the same level: the fallback
    never classifies a line differently, it only recognises fewer lines. *)
Theorem reduced_cascade_agrees_with_primary (line : string) (lvl : Level)
    (sizes : list Q) (cs : list Glyph) :
  (ProcessPdfs.simple_level line = Some lvl ->
   ProcessPdfs.detect_heading_level line sizes = Some lvl)
  /\ (Views.simple_level line = Some lvl ->
      Views.detect_heading_level line cs sizes = Some lvl).
Proof.
  split.
  - apply pp_simple_level_in_primary.
  - apply views_simple_level_in_primary.
Qed.

Lemma reduced_cascade_agrees_with_primary_witness :
  ProcessPdfs.detect_heading_level "2.1 Scope" [] = Some H2
  /\ Views.detect_heading_level "RELATED WORK" [] [] = Some H1.
Proof.
  split.
  - destruct (reduced_cascade_agrees_with_primary "2.1 Scope" H2 [] []) as (H & _).
    apply H. reflexivity.
  - destruct (reduced_cascade_agrees_with_primary "RELATED WORK" H1 [] [])
      as (_ & H).
    apply H. reflexivity.
Defined.

(** ** What every entry of an outline satisfies *)

Lemma entries_of_Forall (P : HeadingEntry -> Prop) skip f n lines :
  (forall l lvl, skip l = false -> f l = Some lvl -> P (mkHeading lvl l n)) ->
  Forall P (entries_of skip f n lines).
Proof.
  intros HP. induction lines as [|l rest IH]; simpl; [constructor|].
  destruct (skip (Py.strip l)) eqn:E; [exact IH|].
  destruct (f (Py.strip l)) eqn:F; [|exact IH].
  constructor; [now apply HP | exact IH].
Qed.

Lemma entries_of_refine skip f g n lines :
  (forall l lvl, f l = Some lvl -> g l = Some lvl) ->
  subseq (entries_of skip f n lines) (entries_of skip g n lines).
Proof.
  intros Hfg. induction lines as [|l rest IH]; simpl; [constructor|].
  destruct (skip (Py.strip l)); [exact IH|].
  destruct (f (Py.strip l)) as [lvl|] eqn:F.
  - rewrite (Hfg _ _ F). simpl. now constructor.
  - destruct (g (Py.strip l)); simpl; [now constructor | exact IH].
Qed.

Section PpEntries.

Variable P : HeadingEntry -> Prop.
Hypothesis HP : forall line lvl n,
  short_line line = false ->
  ProcessPdfs.detect_heading_level line [] = Some lvl ->
  P (mkHeading lvl line n).

Lemma pp_text_Forall t n : Forall P (ProcessPdfs.extract_headings_from_text t n).
Proof.
  unfold ProcessPdfs.extract_headings_from_text.
  rewrite pp_simple_loop_entries. simpl.
  apply entries_of_Forall. intros l lvl Hs Hl.
  apply HP; [exact Hs | now apply pp_simple_level_in_primary].
Qed.

Lemma pp_fallback_Forall p n hs :
  ProcessPdfs.extract_headings_fallback p n = Ok hs -> Forall P hs.
Proof.
  unfold ProcessPdfs.extract_headings_fallback.
  destruct (extract_text p) as [t|e]; simpl.
  - destruct (negb (Py.truthy t)); simpl; intros [= <-]; [constructor|].
    apply (pp_text_Forall t n).
  - intros [= <-]. constructor.
Qed.

Lemma pp_page_Forall p n hs :
  ProcessPdfs.extract_headings_from_page p n = Ok hs -> Forall P hs.
Proof.
  unfold ProcessPdfs.extract_headings_from_page.
  pose proof (pp_fallback_Forall p n) as Hfb.
  destruct (ProcessPdfs.extract_headings_fallback p n) as [fb|e'];
    destruct (extract_text p) as [t|e]; simpl; try discriminate.
  - destruct (negb (Py.truthy t)); simpl; [intros [= <-]; constructor|].
    destruct (chars p) as [cs|e]; simpl; intros [= <-].
    + rewrite pp_headings_loop_entries. simpl.
      apply entries_of_Forall. intros l lvl Hs Hl. now apply HP.
    + now apply Hfb.
  - intros [= <-]. now apply Hfb.
  - destruct (negb (Py.truthy t)); simpl; [intros [= <-]; constructor|].
    destruct (chars p) as [cs|e]; simpl; [|discriminate]. intros [= <-].
    rewrite pp_headings_loop_entries. simpl.
    apply entries_of_Forall. intros l lvl Hs Hl. now apply HP.
Qed.

Lemma pp_pages_loop_Forall pages : forall n acc res,
  ProcessPdfs.pages_loop n pages acc = Ok res -> Forall P acc -> Forall P res.
Proof.
  induction pages as [|p rest IH]; intros n acc res; simpl.
  - now intros [= <-].
  - pose proof (pp_page_Forall p n) as Hp.
    destruct (ProcessPdfs.extract_headings_from_page p n) as [hs|e]; simpl;
      [|discriminate].
    intros E Hacc. apply (IH _ _ _ E), Forall_app. split; [exact Hacc | now apply Hp].
Qed.

Lemma pp_plain_pages_loop_Forall pages : forall n acc res,
  ProcessPdfs.plain_pages_loop n pages acc = Ok res -> Forall P acc -> Forall P res.
Proof.
  induction pages as [|p rest IH]; intros n acc res; simpl.
  - now intros [= <-].
  - destruct (plain_extract_text p) as [t|e]; simpl; [|discriminate].
    destruct (Py.truthy t); intros E Hacc; apply (IH _ _ _ E); [|exact Hacc].
    apply Forall_app. split; [exact Hacc | apply pp_text_Forall].
Qed.

Lemma pp_outline_Forall pdf doc :
  ProcessPdfs.extract_pdf_outline pdf = Ok doc -> Forall P (outline doc).
Proof.
  unfold ProcessPdfs.extract_pdf_outline, ProcessPdfs.extract_with_pypdf2.
  destruct (ProcessPdfs.pdfplumber_body pdf) as [d1|e1] eqn:B1; simpl.
  - intros [= <-]. unfold ProcessPdfs.pdfplumber_body in B1.
    apply bind_ok in B1 as (pages & _ & B1).
    apply bind_ok in B1 as (t & _ & B1).
    apply bind_ok in B1 as (hs & L & B1).
    injection B1 as <-. simpl. apply (pp_pages_loop_Forall _ _ _ _ L). constructor.
  - destruct (ProcessPdfs.pypdf2_body pdf) as [d2|e2] eqn:B2; simpl;
      intros [= <-]; [|constructor].
    unfold ProcessPdfs.pypdf2_body in B2.
    apply bind_ok in B2 as (reader & _ & B2).
    apply bind_ok in B2 as (t & _ & B2).
    apply bind_ok in B2 as (hs & L & B2).
    injection B2 as <-. simpl. apply (pp_plain_pages_loop_Forall _ _ _ _ L). constructor.
Qed.

End PpEntries.

Section ViewsEntries.

Variable P : HeadingEntry -> Prop.
Hypothesis HP : forall line lvl n,
  empty_line line = false ->
  Views.detect_heading_level line [] [] = Some lvl ->
  P (mkHeading lvl line n).

Lemma views_text_Forall t n : Forall P (Views.extract_headings_from_text t n).
Proof.
  unfold Views.extract_headings_from_text.
  rewrite views_simple_loop_entries. simpl.
  apply entries_of_Forall. intros l lvl Hs Hl.
  apply HP; [exact Hs | now apply views_simple_level_in_primary].
Qed.

Lemma views_fallback_Forall p n hs :
  Views.extract_headings_fallback p n = Ok hs -> Forall P hs.
Proof.
  unfold Views.extract_headings_fallback.
  destruct (extract_text p) as [t|e]; simpl; [|discriminate].
  destruct (negb (Py.truthy t)); simpl; intros [= <-]; [constructor|].
  apply (views_text_Forall t n).
Qed.

Lemma views_page_Forall p n hs :
  Views.extract_headings_from_page p n = Ok hs -> Forall P hs.
Proof.
  unfold Views.extract_headings_from_page.
  pose proof (views_fallback_Forall p n) as Hfb.
  destruct (Views.extract_headings_fallback p n) as [fb|e'];
    destruct (extract_text p) as [t|e]; simpl; try discriminate.
  - destruct (negb (Py.truthy t)); simpl; [intros [= <-]; constructor|].
    destruct (chars p) as [cs|e]; simpl; intros [= <-].
    + rewrite views_headings_loop_entries. simpl.
      apply entries_of_Forall. intros l lvl Hs Hl.
      apply HP; [exact Hs|]. now rewrite <- (views_detect_no_sizes l cs
        (sorted_sizes_of (font_sizes_of cs))).
    + now apply Hfb.
  - intros [= <-]. now apply Hfb.
  - destruct (negb (Py.truthy t)); simpl; [intros [= <-]; constructor|].
    destruct (chars p) as [cs|e]; simpl; [|discriminate]. intros [= <-].
    rewrite views_headings_loop_entries. simpl.
    apply entries_of_Forall. intros l lvl Hs Hl.
    apply HP; [exact Hs|]. now rewrite <- (views_detect_no_sizes l cs
      (sorted_sizes_of (font_sizes_of cs))).
Qed.

Lemma views_pages_loop_Forall pages : forall n acc res,
  Views.pages_loop n pages acc = Ok res -> Forall P acc -> Forall P res.
Proof.
  induction pages as [|p rest IH]; intros n acc res; simpl.
  - now intros [= <-].
  - pose proof (views_page_Forall p n) as Hp.
    destruct (Views.extract_headings_from_page p n) as [hs|e]; simpl; [|discriminate].
    intros E Hacc. apply (IH _ _ _ E), Forall_app. split; [exact Hacc | now apply Hp].
Qed.

Lemma views_plain_pages_loop_Forall pages : forall n acc res,
  Views.plain_pages_loop n pages acc = Ok res -> Forall P acc -> Forall P res.
Proof.
  induction pages as [|p rest IH]; intros n acc res; simpl.
  - now intros [= <-].
  - destruct (plain_extract_text p) as [t|e]; simpl; [|discriminate].
    destruct (Py.truthy t); intros E Hacc; apply (IH _ _ _ E); [|exact Hacc].
    apply Forall_app. split; [exact Hacc | apply views_text_Forall].
Qed.

Lemma views_outline_Forall pdf doc :
  Views.extract_pdf_outline pdf = Ok doc -> Forall P (outline doc).
Proof.
  unfold Views.extract_pdf_outline, Views.extract_with_pypdf2.
  destruct (Views.pdfplumber_body pdf) as [d1|e1] eqn:B1; simpl.
  - intros [= <-]. unfold Views.pdfplumber_body in B1.
    apply bind_ok in B1 as (pages & _ & B1).
    apply bind_ok in B1 as (t & _ & B1).
    apply bind_ok in B1 as (hs & L & B1).
    injection B1 as <-. simpl. apply (views_pages_loop_Forall _ _ _ _ L). constructor.
  - destruct (Views.pypdf2_body pdf) as [d2|e2] eqn:B2; simpl;
      intros [= <-]; [|constructor].
    unfold Views.pypdf2_body in B2.
    apply bind_ok in B2 as (reader & _ & B2).
    apply bind_ok in B2 as (t & _ & B2).
    apply bind_ok in B2 as (hs & L & B2).
    injection B2 as <-. simpl.
    apply (views_plain_pages_loop_Forall _ _ _ _ L). constructor.
Qed.

End ViewsEntries.

(** ** Levels and lengths of the entries *)

Lemma pp_detect_min_len (line : string) (sizes : list Q) (lvl : Level) :
  ProcessPdfs.detect_heading_level line sizes = Some lvl -> (4 <= Py.len line)%nat.
Proof.
  unfold ProcessPdfs.detect_heading_level, ProcessPdfs.re_chapter.
  destruct (Re.re_match ProcessPdfs.re_one_level line) eqn:E1.
  { intros _. apply re_match_len in E1. exact E1. }
  destruct (Re.re_match ProcessPdfs.re_two_level line) eqn:E2.
  { intros _. apply re_match_len in E2. simpl in E2. lia. }
  destruct (Re.re_match ProcessPdfs.re_three_level line) eqn:E3.
  { intros _. apply re_match_len in E3. simpl in E3. lia. }
  destruct (Re.re_match (Re.lit_i "Chapter" ++ [Re.Many1 Re.s; Re.Many1 Re.d])%list line)
    eqn:C1.
  { intros _. apply re_match_len in C1. simpl in C1. lia. }
  destruct (Re.re_match (Re.lit_i "Section" ++ [Re.Many1 Re.s; Re.Many1 Re.d])%list line)
    eqn:C2.
  { intros _. apply re_match_len in C2. simpl in C2. lia. }
  destruct (Re.re_match (Re.lit_i "Part" ++ [Re.Many1 Re.s; Re.Many1 Re.d])%list line)
    eqn:C3.
  { intros _. apply re_match_len in C3. simpl in C3. lia. }
  cbn [orb].
  destruct (Nat.leb_spec 4 (Py.len line)) as [Hge|Hlt]; [intros _; exact Hge|].
  rewrite andb_false_r. cbn [andb].
  assert (K : (5 <=? Py.len line)%nat = false) by (apply Nat.leb_gt; lia).
  rewrite K, andb_false_r. cbn [andb].
  destruct (Re.re_match ProcessPdfs.re_roman line) eqn:R.
  { apply re_match_len in R. simpl in R. lia. }
  destruct (Re.re_match ProcessPdfs.re_alpha line) eqn:A; [|discriminate].
  apply re_match_len in A. simpl in A. lia.
Qed.

(** X5.  In process_pdfs.py a line of fewer than 4 characters is never a
    heading, in the primary cascade or in the reduced one, so every entry of
    an outline it returns has a text of at least 4 characters. *)
Theorem no_heading_under_four_characters (pdf : PdfFile) :
  (forall line sizes,
     (Py.len line < 4)%nat ->
     ProcessPdfs.detect_heading_level line sizes = None
     /\ ProcessPdfs.simple_level line = None)
  /\ (exists doc,
        ProcessPdfs.extract_pdf_outline pdf = Ok doc
        /\ Forall (fun h => (4 <= Py.len (text h))%nat) (outline doc)).
Proof.
  split.
  - intros line sizes Hlt.
    assert (D : ProcessPdfs.detect_heading_level line sizes = None).
    { destruct (ProcessPdfs.detect_heading_level line sizes) as [lvl|] eqn:E;
        [|reflexivity].
      apply pp_detect_min_len in E. lia. }
    split; [exact D|].
    destruct (ProcessPdfs.simple_level line) as [lvl|] eqn:E; [|reflexivity].
    rewrite (pp_simple_level_in_primary line sizes lvl E) in D. discriminate D.
  - destruct (pp_outcome pdf) as (doc & E & _).
    exists doc. split; [exact E|].
    apply (pp_outline_Forall (fun h => (4 <= Py.len (text h))%nat)) with (pdf := pdf);
      [|exact E].
    intros line lvl n _ D. simpl. exact (pp_detect_min_len _ _ _ D).
Qed.

Lemma no_heading_under_four_characters_witness :
  ProcessPdfs.detect_heading_level "A.B" [] = None
  /\ ProcessPdfs.simple_level "A.B" = None.
Proof.
  destruct (no_heading_under_four_characters unreadable_pdf) as (H & _).
  apply H. simpl. lia.
Defined.

(** X6.  In both copies every entry of a returned outline, whether it came
    from the primary cascade, from the fallback of a page or from the PyPDF2
    path, has the level that the primary cascade of that copy gives its
    text. *)
Theorem levels_follow_primary_cascade (pdf : PdfFile) :
  (exists doc,
     ProcessPdfs.extract_pdf_outline pdf = Ok doc
     /\ Forall (fun h => ProcessPdfs.detect_heading_level (text h) [] = Some (level h))
          (outline doc))
  /\ (exists doc,
        Views.extract_pdf_outline pdf = Ok doc
        /\ Forall (fun h => Views.detect_heading_level (text h) [] [] = Some (level h))
             (outline doc)).
Proof.
  split.
  - destruct (pp_outcome pdf) as (doc & E & _).
    exists doc. split; [exact E|].
    apply (pp_outline_Forall
             (fun h => ProcessPdfs.detect_heading_level (text h) [] = Some (level h)))
      with (pdf := pdf); [|exact E].
    intros line lvl n _ D. exact D.
  - destruct (views_outcome pdf) as (doc & E & _).
    exists doc. split; [exact E|].
    apply (views_outline_Forall
             (fun h => Views.detect_heading_level (text h) [] [] = Some (level h)))
      with (pdf := pdf); [|exact E].
    intros line lvl n _ D. exact D.
Qed.

(** X4.  When the glyphs of a page cannot be read but its text can, the
    page's entries are those the reduced cascade finds, and they are among
    the entries the page gives when its glyphs can be read, in the same
    order and with the same levels: the fallback drops headings, it adds and
    changes none. *)
Theorem glyph_failure_only_drops_headings (p p' : RichPage) (n : Z)
    (t e : string) (cs : list Glyph) :
  extract_text p = Ok t -> chars p = Raise e ->
  extract_text p' = Ok t -> chars p' = Ok cs ->
  (exists hs hs',
     ProcessPdfs.extract_headings_from_page p n = Ok hs
     /\ ProcessPdfs.extract_headings_from_page p' n = Ok hs'
     /\ subseq hs hs')
  /\ (exists hs hs',
        Views.extract_headings_from_page p n = Ok hs
        /\ Views.extract_headings_from_page p' n = Ok hs'
        /\ subseq hs hs').
Proof.
  intros Et Ec Et' Ec'.
  unfold ProcessPdfs.extract_headings_from_page, Views.extract_headings_from_page,
    ProcessPdfs.extract_headings_fallback, Views.extract_headings_fallback.
  rewrite Et, Ec, Et', Ec'. simpl.
  destruct (negb (Py.truthy t)); simpl.
  - split; exists [], []; repeat split; constructor.
  - rewrite pp_simple_loop_entries, pp_headings_loop_entries,
      views_simple_loop_entries, views_headings_loop_entries. simpl.
    split; eexists; eexists; (split; [reflexivity|]); (split; [reflexivity|]);
      apply entries_of_refine; intros l lvl H.
    + now apply pp_simple_level_in_primary.
    + now apply views_simple_level_in_primary.
Qed.

Lemma glyph_failure_only_drops_headings_witness :
  let t := String "1" (String "." (String " " (String "A"
             (String Py.newline "Chapter 2 Next")))) in
  let p := mkRichPage (Ok t) (Raise "no glyphs") in
  let p' := mkRichPage (Ok t) (Ok []) in
  (exists hs hs',
     ProcessPdfs.extract_headings_from_page p 1 = Ok hs
     /\ ProcessPdfs.extract_headings_from_page p' 1 = Ok hs'
     /\ subseq hs hs')
  /\ (exists hs hs',
        Views.extract_headings_from_page p 1 = Ok hs
        /\ Views.extract_headings_from_page p' 1 = Ok hs'
        /\ subseq hs hs').
Proof.
  cbv zeta.
  eapply (glyph_failure_only_drops_headings _ _ 1 _ "no glyphs" []); reflexivity.
Defined.

(** ** Which backend answers *)

Lemma pp_body_ok pdf pages :
  pdfplumber_open pdf = Ok pages ->
  exists doc, ProcessPdfs.pdfplumber_body pdf = Ok doc
              /\ title doc = rich_title qualifies_rich pages
              /\ scanned (map rich_lines pages) (outline doc).
Proof.
  intros O. unfold ProcessPdfs.pdfplumber_body. rewrite O. cbn [bind].
  assert (T : match pages with
              | [] => Ok ""
              | first_page :: _ => ProcessPdfs.extract_title_from_page first_page
              end = Ok (rich_title qualifies_rich pages)).
  { destruct pages as [|p ?]; [reflexivity | apply pp_title_of_page]. }
  rewrite T. cbn [bind].
  destruct (pp_pages_loop_scan pages 1 []) as (out & -> & Hs & Ht). cbn [bind app].
  eexists. split; [reflexivity|]. repeat split; assumption.
Qed.

(** X7.  In process_pdfs.py, once pdfplumber opens the file the document
    comes from pdfplumber alone: the pdfplumber part cannot raise, whatever
    the pages do, and the result is the same whatever PyPDF2 would give for
    the file. *)
Theorem pdfplumber_success_excludes_pypdf2 (pdf : PdfFile) (pages : list RichPage) :
  pdfplumber_open pdf = Ok pages ->
  (exists doc, ProcessPdfs.pdfplumber_body pdf = Ok doc
               /\ ProcessPdfs.extract_pdf_outline pdf = Ok doc)
  /\ (forall plain,
        ProcessPdfs.extract_pdf_outline (mkPdfFile (Ok pages) plain)
        = ProcessPdfs.extract_pdf_outline pdf).
Proof.
  intros O. destruct (pp_body_ok pdf pages O) as (doc & B & _).
  assert (E : ProcessPdfs.extract_pdf_outline pdf = Ok doc).
  { unfold ProcessPdfs.extract_pdf_outline. now rewrite B. }
  split; [now exists doc|].
  intros plain. rewrite E.
  destruct (pp_body_ok (mkPdfFile (Ok pages) plain) pages eq_refl) as (doc' & B' & _).
  unfold ProcessPdfs.extract_pdf_outline. rewrite B'. cbn [try_except].
  unfold ProcessPdfs.pdfplumber_body in B, B'. rewrite O in B. cbn [pdfplumber_open] in B'.
  rewrite B in B'. now injection B' as <-.
Qed.

Lemma pdfplumber_success_excludes_pypdf2_witness :
  ProcessPdfs.extract_pdf_outline
    (mkPdfFile (Ok [chapter_page; damaged_page]) (Raise "EOF marker not found"))
  = ProcessPdfs.extract_pdf_outline damaged_second_page_pdf.
Proof.
  destruct (pdfplumber_success_excludes_pypdf2 damaged_second_page_pdf
              [chapter_page; damaged_page] eq_refl) as (_ & H).
  apply H.
Defined.

Lemma views_pages_loop_raises pages p e :
  In p pages -> extract_text p = Raise e ->
  forall n acc, exists e', Views.pages_loop n pages acc = Raise e'.
Proof.
  induction pages as [|q rest IH]; intros Hin Et n acc; [destruct Hin|].
  simpl. destruct Hin as [-> | Hin].
  - destruct (views_failed_page p n) as (_ & F). rewrite (F e Et). now exists e.
  - destruct (Views.extract_headings_from_page q n) as [hs|e']; simpl.
    + apply IH; assumption.
    + now exists e'.
Qed.

(** X8.  In views.py, when pdfplumber opens the file and the text of any
    one page cannot be read, the pdfplumber part raises and the document
    returned is the one PyPDF2 gives for the whole file. *)
Theorem views_unreadable_text_goes_to_pypdf2 (pdf : PdfFile)
    (pages : list RichPage) (p : RichPage) (e : string) :
  pdfplumber_open pdf = Ok pages ->
  In p pages -> extract_text p = Raise e ->
  (exists e', Views.pdfplumber_body pdf = Raise e')
  /\ Views.extract_pdf_outline pdf = Views.extract_with_pypdf2 pdf.
Proof.
  intros O Hin Et.
  assert (B : exists e', Views.pdfplumber_body pdf = Raise e').
  { unfold Views.pdfplumber_body. rewrite O. cbn [bind].
    destruct (match pages with
              | [] => Ok ""
              | first_page :: _ => Views.extract_title_from_page first_page
              end) as [t|e']; cbn [bind]; [|now exists e'].
    destruct (views_pages_loop_raises pages p e Hin Et 1%Z []) as (e' & ->).
    now exists e'. }
  split; [exact B|].
  destruct B as (e' & B). unfold Views.extract_pdf_outline. now rewrite B.
Qed.

Lemma views_unreadable_text_goes_to_pypdf2_witness :
  Views.extract_pdf_outline damaged_second_page_pdf
  = Views.extract_with_pypdf2 damaged_second_page_pdf.
Proof.
  apply (views_unreadable_text_goes_to_pypdf2 damaged_second_page_pdf
           [chapter_page; damaged_page] damaged_page
           "unpack requires a buffer of 4 bytes" eq_refl).
  - right. left. reflexivity.
  - reflexivity.
Defined.

Lemma pp_plain_pages_loop_raises pages p e :
  In p pages -> plain_extract_text p = Raise e ->
  forall n acc, exists e', ProcessPdfs.plain_pages_loop n pages acc = Raise e'.
Proof.
  induction pages as [|q rest IH]; intros Hin Et n acc; [destruct Hin|].
  simpl. destruct Hin as [-> | Hin].
  - rewrite Et. now exists e.
  - destruct (plain_extract_text q) as [t|e']; simpl; [|now exists e'].
    destruct (Py.truthy t); apply IH; assumption.
Qed.

Lemma views_plain_pages_loop_raises pages p e :
  In p pages -> plain_extract_text p = Raise e ->
  forall n acc, exists e', Views.plain_pages_loop n pages acc = Raise e'.
Proof.
  induction pages as [|q rest IH]; intros Hin Et n acc; [destruct Hin|].
  simpl. destruct Hin as [-> | Hin].
  - rewrite Et. now exists e.
  - destruct (plain_extract_text q) as [t|e']; simpl; [|now exists e'].
    destruct (Py.truthy t); apply IH; assumption.
Qed.

(** X9.  On the PyPDF2 path of both copies one page whose text cannot be
    read is enough for the failure document: the title and the headings of
    the other pages are not returned. *)
Theorem plain_unreadable_page_is_total_failure (pdf : PdfFile)
    (reader : PdfReader) (p : PlainPage) (e : string) :
  pypdf2_open pdf = Ok reader ->
  In p (reader_pages reader) -> plain_extract_text p = Raise e ->
  ProcessPdfs.extract_with_pypdf2 pdf = Ok failure_document
  /\ Views.extract_with_pypdf2 pdf = Ok views_failure_document.
Proof.
  intros O Hin Et.
  unfold ProcessPdfs.extract_with_pypdf2, Views.extract_with_pypdf2,
    ProcessPdfs.pypdf2_body, Views.pypdf2_body.
  rewrite O. cbn [bind]. split.
  - match goal with |- try_except (bind ?c _) _ = _ => destruct c as [t|e'] end;
      cbn [bind try_except]; [|reflexivity].
    destruct (pp_plain_pages_loop_raises _ p e Hin Et 1%Z []) as (e' & ->).
    reflexivity.
  - match goal with |- try_except (bind ?c _) _ = _ => destruct c as [t|e'] end;
      cbn [bind try_except]; [|reflexivity].
    destruct (views_plain_pages_loop_raises _ p e Hin Et 1%Z []) as (e' & ->).
    reflexivity.
Qed.

Lemma plain_unreadable_page_is_total_failure_witness :
  let pdf := mkPdfFile (Raise "No /Root object! - Is this really a PDF?")
               (Ok (mkPdfReader (Some [("/Title", TextString "Report X")])
                      [mkPlainPage (Ok "1. Scope");
                       mkPlainPage (Raise "Stream has ended unexpectedly")])) in
  ProcessPdfs.extract_pdf_outline pdf = Ok failure_document
  /\ Views.extract_pdf_outline pdf = Ok views_failure_document.
Proof.
  cbv zeta.
  eapply (plain_unreadable_page_is_total_failure _ _
            (mkPlainPage (Raise "Stream has ended unexpectedly"))
            "Stream has ended unexpectedly").
  - reflexivity.
  - right. left. reflexivity.
  - reflexivity.
Defined.

(** ** What a scanned title looks like *)

Lemma first_line_spec q lines :
  first_line q lines = ""
  \/ (q (first_line q lines) = true /\ In (first_line q lines) (map Py.strip lines)).
Proof.
  unfold first_line.
  destruct (find q (map Py.strip lines)) as [line|] eqn:F; [|now left].
  right. apply find_some in F. destruct F as [Hin Hq]. now split.
Qed.

Lemma stripped_line_fixed l lines : In l (map Py.strip lines) -> Py.strip l = l.
Proof.
  intros H. apply in_map_iff in H. destruct H as (x & <- & _). apply strip_idem.
Qed.

Lemma views_rich_title_eq pdf pages doc :
  pdfplumber_open pdf = Ok pages ->
  Views.pdfplumber_body pdf = Ok doc ->
  title doc = JStr (rich_title qualifies_views pages).
Proof.
  intros O E. unfold Views.pdfplumber_body in E.
  apply bind_ok in E as (pages' & O' & E).
  rewrite O in O'. injection O' as <-.
  apply bind_ok in E as (t & T & E).
  apply bind_ok in E as (hs & _ & E).
  injection E as <-. simpl.
  destruct pages as [|p rest]; [now injection T as <-|].
  f_equal. now apply views_title_of_page.
Qed.

Lemma pp_plain_title pdf reader doc :
  pypdf2_open pdf = Ok reader ->
  ProcessPdfs.pypdf2_body pdf = Ok doc ->
  title doc = plain_title qualifies_plain reader.
Proof.
  intros O E. unfold ProcessPdfs.pypdf2_body in E.
  apply bind_ok in E as (reader' & O' & E).
  rewrite O in O'. injection O' as <-.
  apply bind_ok in E as (t & T & E).
  apply bind_ok in E as (hs & _ & E).
  injection E as <-. simpl. unfold plain_title.
  destruct (metadata_title reader); [now injection T as <-|].
  destruct (reader_pages reader) as [|p rest]; [now injection T as <-|].
  apply bind_ok in T as (txt & Et & T). rewrite Et. simpl text_lines.
  destruct txt as [|c r]; simpl in T; injection T as <-; [reflexivity|].
  apply pp_plain_title_loop_first.
Qed.

Lemma views_plain_title_eq pdf reader doc :
  pypdf2_open pdf = Ok reader ->
  Views.pypdf2_body pdf = Ok doc ->
  title doc = views_plain_title qualifies_views reader.
Proof.
  intros O E. unfold Views.pypdf2_body in E.
  apply bind_ok in E as (reader' & O' & E).
  rewrite O in O'. injection O' as <-.
  apply bind_ok in E as (t & T & E).
  apply bind_ok in E as (hs & _ & E).
  injection E as <-. simpl. unfold views_plain_title.
  destruct (metadata_title reader); [now injection T as <-|].
  destruct (reader_pages reader) as [|p rest]; [now injection T as <-|].
  apply bind_ok in T as (txt & Et & T). rewrite Et. simpl text_lines.
  destruct txt as [|c r]; simpl in T; injection T as <-; [reflexivity|].
  f_equal. apply views_plain_title_loop_first.
Qed.

Lemma qualifies_rich_facts t :
  qualifies_rich t = true -> (3 < Py.len t)%nat /\ Py.isdigit t = false.
Proof.
  unfold qualifies_rich, purely_numeric. intros H.
  apply andb_prop in H as [H Hn]. apply andb_prop in H as [_ Hl].
  apply Nat.ltb_lt in Hl. apply negb_true_iff, orb_false_iff in Hn. now split.
Qed.

Lemma qualifies_plain_facts t :
  qualifies_plain t = true -> (3 < Py.len t)%nat /\ Py.isdigit t = false.
Proof.
  unfold qualifies_plain. intros H.
  apply andb_prop in H as [H Hn]. apply andb_prop in H as [_ Hl].
  apply Nat.ltb_lt in Hl. apply negb_true_iff in Hn. now split.
Qed.

Lemma qualifies_views_facts t : qualifies_views t = true -> (3 < Py.len t)%nat.
Proof.
  unfold qualifies_views. intros H.
  apply andb_prop in H as [_ Hl]. now apply Nat.ltb_lt in Hl.
Qed.

(** X10.  A title that was scanned from the first page is either empty or
    one of the stripped lines of that page, so it has no white space around
    it, and it has more than 3 characters; in process_pdfs.py it is moreover
    not a string of digits.  This holds on the pdfplumber path, and on the
    PyPDF2 path when the metadata gives no title; in views.py the title is
    then a [str]. *)
Theorem scanned_title_is_a_line (pdf : PdfFile) (doc : Document)
    (vdoc : Document_of json) :
  (forall pages,
     pdfplumber_open pdf = Ok pages ->
     ProcessPdfs.extract_pdf_outline pdf = Ok doc ->
     title doc = ""
     \/ ((3 < Py.len (title doc))%nat
         /\ Py.strip (title doc) = title doc
         /\ Py.isdigit (title doc) = false
         /\ exists p rest, pages = p :: rest /\ In (title doc) (rich_lines p)))
  /\ (forall pages,
        pdfplumber_open pdf = Ok pages ->
        Views.pdfplumber_body pdf = Ok vdoc ->
        exists t,
          title vdoc = JStr t
          /\ (t = ""
              \/ ((3 < Py.len t)%nat
                  /\ Py.strip t = t
                  /\ exists p rest, pages = p :: rest /\ In t (rich_lines p))))
  /\ (forall reader,
        pypdf2_open pdf = Ok reader -> metadata_title reader = None ->
        ProcessPdfs.pypdf2_body pdf = Ok doc ->
        title doc = ""
        \/ ((3 < Py.len (title doc))%nat
            /\ Py.strip (title doc) = title doc
            /\ Py.isdigit (title doc) = false
            /\ exists p rest,
                 reader_pages reader = p :: rest /\ In (title doc) (plain_lines p)))
  /\ (forall reader,
        pypdf2_open pdf = Ok reader -> metadata_title reader = None ->
        Views.pypdf2_body pdf = Ok vdoc ->
        exists t,
          title vdoc = JStr t
          /\ (t = ""
              \/ ((3 < Py.len t)%nat
                  /\ Py.strip t = t
                  /\ exists p rest,
                       reader_pages reader = p :: rest /\ In t (plain_lines p)))).
Proof.
  repeat match goal with |- _ /\ _ => split end.
  - intros pages O E.
    destruct (pp_body_ok pdf pages O) as (doc' & B & T & _).
    unfold ProcessPdfs.extract_pdf_outline in E. rewrite B in E.
    injection E as ->. rewrite T.
    destruct pages as [|p rest]; [now left|]. simpl.
    destruct (first_line_spec qualifies_rich (text_lines (extract_text p)))
      as [-> | [Hq Hin]]; [now left|].
    right. destruct (qualifies_rich_facts _ Hq) as [Hl Hd].
    assert (Hin' : In (first_line qualifies_rich (text_lines (extract_text p)))
                     (rich_lines p)).
    { unfold rich_lines, stripped_lines, text_lines in *.
      destruct (extract_text p); [exact Hin | destruct Hin]. }
    repeat split; try assumption.
    + exact (stripped_line_fixed _ _ Hin).
    + now exists p, rest.
  - intros pages O E. rewrite (views_rich_title_eq pdf pages vdoc O E).
    eexists. split; [reflexivity|].
    destruct pages as [|p rest]; [now left|]. simpl.
    destruct (first_line_spec qualifies_views (text_lines (extract_text p)))
      as [-> | [Hq Hin]]; [now left|].
    right. pose proof (qualifies_views_facts _ Hq) as Hl.
    assert (Hin' : In (first_line qualifies_views (text_lines (extract_text p)))
                     (rich_lines p)).
    { unfold rich_lines, stripped_lines, text_lines in *.
      destruct (extract_text p); [exact Hin | destruct Hin]. }
    repeat split; try assumption.
    + exact (stripped_line_fixed _ _ Hin).
    + now exists p, rest.
  - intros reader O M E. rewrite (pp_plain_title pdf reader doc O E).
    unfold plain_title. rewrite M.
    destruct (reader_pages reader) as [|p rest]; [now left|].
    destruct (first_line_spec qualifies_plain (text_lines (plain_extract_text p)))
      as [-> | [Hq Hin]]; [now left|].
    right. destruct (qualifies_plain_facts _ Hq) as [Hl Hd].
    assert (Hin' : In (first_line qualifies_plain (text_lines (plain_extract_text p)))
                     (plain_lines p)).
    { unfold plain_lines, stripped_lines, text_lines in *.
      destruct (plain_extract_text p); [exact Hin | destruct Hin]. }
    repeat split; try assumption.
    + exact (stripped_line_fixed _ _ Hin).
    + now exists p, rest.
  - intros reader O M E. rewrite (views_plain_title_eq pdf reader vdoc O E).
    unfold views_plain_title. rewrite M.
    destruct (reader_pages reader) as [|p rest];
      [exists ""; split; [reflexivity | now left]|].
    eexists. split; [reflexivity|].
    destruct (first_line_spec qualifies_views (text_lines (plain_extract_text p)))
      as [-> | [Hq Hin]]; [now left|].
    right. pose proof (qualifies_views_facts _ Hq) as Hl.
    assert (Hin' : In (first_line qualifies_views (text_lines (plain_extract_text p)))
                     (plain_lines p)).
    { unfold plain_lines, stripped_lines, text_lines in *.
      destruct (plain_extract_text p); [exact Hin | destruct Hin]. }
    repeat split; try assumption.
    + exact (stripped_line_fixed _ _ Hin).
    + now exists p, rest.
Qed.

Lemma scanned_title_is_a_line_witness :
  let doc := mkDocument "Annual Report" [mkHeading H2 "Annual Report" 1] None in
  title doc = ""
  \/ ((3 < Py.len (title doc))%nat
      /\ Py.strip (title doc) = title doc
      /\ Py.isdigit (title doc) = false
      /\ exists p rest, [year_page] = p :: rest /\ In (title doc) (rich_lines p)).
Proof.
  cbv zeta.
  destruct (scanned_title_is_a_line year_report_pdf
              (mkDocument "Annual Report" [mkHeading H2 "Annual Report" 1] None)
              (mkDocument (JStr "2024") [mkHeading H2 "Annual Report" 1] None))
    as (H & _).
  apply (H [year_page]); reflexivity.
Defined.

(** ** The format check of test_extractor.py *)

Section Validation.

Import TestExtractor.

Lemma check_item_ok (item : json) : check_item item = None <-> item_ok item.
Proof.
  unfold check_item, item_ok. split.
  - destruct item as [| | | | |l|d|c]; try discriminate.
    unfold first_missing, item_at.
    destruct (dict_get "level" d) as [vl|] eqn:El; [|discriminate].
    destruct (dict_get "text" d) as [vt|] eqn:Et; [|discriminate].
    destruct (dict_get "page" d) as [vp|] eqn:Ep; [|discriminate].
    destruct (is_level vl) eqn:L; [|discriminate].
    destruct (isinstance_str vt) eqn:T; [|discriminate].
    destruct (is_positive_int vp) eqn:Pg; [|discriminate].
    intros _.
    destruct vl as [| | | |lvl| | |]; try discriminate L.
    destruct vt as [| | | |txt| | |]; try discriminate T.
    exists d, lvl, txt. split; [reflexivity|]. split; [exact El|].
    split.
    { simpl in L. rewrite !orb_true_iff in L. simpl.
      destruct L as [L|[L|[L|L]]]; try discriminate L;
        apply String.eqb_eq in L; subst; auto. }
    split; [exact Et|].
    destruct vp as [|[]|n| | | | |]; try discriminate Pg.
    + now right.
    + left. exists n. split; [exact Ep|].
      simpl in Pg. apply negb_true_iff, Z.ltb_ge in Pg. exact Pg.
  - intros (d & lvl & txt & -> & El & Hl & Et & Hp).
    unfold first_missing, item_at. rewrite El, Et.
    assert (L : is_level (JStr lvl) = true).
    { simpl in Hl. destruct Hl as [<-|[<-|[<-|[]]]]; reflexivity. }
    destruct Hp as [(n & Ep & Hn) | Ep]; rewrite Ep, L; simpl; [|reflexivity].
    assert (K : (n <? 1)%Z = false) by (apply Z.ltb_ge; exact Hn).
    now rewrite K.
Qed.

Lemma check_items_ok (items : list json) :
  fst (check_items items) = true <-> Forall item_ok items.
Proof.
  induction items as [|item rest IH]; simpl.
  - split; [constructor | reflexivity].
  - destruct (check_item item) as [m|] eqn:E; simpl.
    + split; [discriminate|]. intros H. inversion H as [|? ? Hi _]; subst.
      apply check_item_ok in Hi. rewrite Hi in E. discriminate E.
    + rewrite IH. split.
      * intros H. constructor; [now apply check_item_ok | exact H].
      * intros H. now inversion H.
Qed.

Lemma check_items_message (items : list json) :
  fst (check_items items) = true <-> snd (check_items items) = JSON_format_is_valid.
Proof.
  induction items as [|item rest IH]; simpl; [tauto|].
  destruct (check_item item) as [m|] eqn:E; simpl; [|exact IH].
  split; [discriminate|]. intros ->.
  unfold check_item in E.
  destruct item as [| | | | |l|d|c]; try discriminate E.
  destruct (first_missing ["level"; "text"; "page"] d); [discriminate E|].
  destruct (negb (is_level (item_at "level" d))); [discriminate E|].
  destruct (negb (isinstance_str (item_at "text" d))); [discriminate E|].
  destruct (negb (is_positive_int (item_at "page" d))); discriminate E.
Qed.

Lemma validate_json_format_parts (json_data : list (string * json)) :
  (fst (validate_json_format json_data) = true <-> well_formed json_data)
  /\ (fst (validate_json_format json_data) = true
      <-> snd (validate_json_format json_data) = JSON_format_is_valid).
Proof.
  unfold validate_json_format, well_formed, first_missing, item_at.
  destruct (dict_get "title" json_data) as [vt|] eqn:Et.
  2:{ simpl. split; split; try discriminate. intros (t & items & H & _). discriminate H. }
  destruct (dict_get "outline" json_data) as [vo|] eqn:Eo.
  2:{ simpl. split; split; try discriminate.
      intros (t & items & _ & H & _). discriminate H. }
  destruct vt as [| | | |t| | |]; simpl;
    try (split; split; try discriminate; intros (t' & items & H & _); discriminate H).
  destruct vo as [| | | | |items| |]; simpl;
    try (split; split; try discriminate; intros (t' & items' & _ & H & _);
         discriminate H).
  split; [|apply check_items_message].
  rewrite check_items_ok. split.
  - intros H. now exists t, items.
  - intros (t' & items' & _ & [= <-] & H). exact H.
Qed.

(** X12.  [validate_json_format] accepts a dict exactly when its title is a
    string and its outline is a list of dicts, each with a level among "H1",
    "H2", "H3", a string text and a page that is an integer of at least 1
    (or [True], which is an [int] for Python); other keys are ignored.  It
    returns the message "JSON format is valid" exactly when it accepts. *)
Theorem validate_json_format_accepts (json_data : list (string * json)) :
  (fst (validate_json_format json_data) = true <-> well_formed json_data)
  /\ (fst (validate_json_format json_data) = true
      <-> snd (validate_json_format json_data) = JSON_format_is_valid).
Proof. exact (validate_json_format_parts json_data). Qed.

Lemma entries_validate (hs : list HeadingEntry) :
  Forall (fun h => (1 <= page h)%Z) hs ->
  Forall item_ok (map entry_json hs).
Proof.
  intros H. apply Forall_map. eapply Forall_impl; [|exact H].
  intros h Hp. exists [("level", JStr (level_name (level h)));
                       ("text", JStr (text h)); ("page", JInt (page h))],
    (level_name (level h)), (text h).
  split; [reflexivity|]. split; [reflexivity|].
  split; [destruct (level h); simpl; auto|].
  split; [reflexivity|]. left. now exists (page h).
Qed.

Lemma document_validates (doc : Document) :
  Forall (fun h => (1 <= page h)%Z) (outline doc) ->
  validate_json_format (document_json doc) = (true, JSON_format_is_valid).
Proof.
  intros H.
  destruct (validate_json_format_parts (document_json doc)) as [Hw Hm].
  assert (W : well_formed (document_json doc)).
  { exists (title doc), (map entry_json (outline doc)).
    split; [reflexivity|]. split; [reflexivity|]. now apply entries_validate. }
  apply Hw in W. pose proof W as M. apply Hm in M.
  destruct (validate_json_format (document_json doc)) as [b m].
  simpl in W, M. now subst.
Qed.

Lemma views_document_validates (doc : Document_of json) :
  Forall (fun h => (1 <= page h)%Z) (outline doc) ->
  validate_json_format (views_document_json doc)
  = if isinstance_str (title doc)
    then (true, JSON_format_is_valid)
    else (false, Title_must_be_a_string).
Proof.
  intros H. destruct doc as [t hs err]. cbn [title outline] in *.
  destruct (isinstance_str t) eqn:T.
  - destruct t as [| | | |s| | |]; try discriminate T.
    exact (document_validates (mkDocument s hs err) H).
  - unfold validate_json_format, views_document_json, first_missing, item_at.
    cbn [title outline error app dict_get String.eqb Ascii.eqb Bool.eqb].
    now rewrite T.
Qed.

(** Where the title of the document of views.py comes from: it is a [str]
    on every path but one, the [/Title] of the metadata that PyPDF2 read
    after the pdfplumber part raised. *)
Lemma views_title_origin (pdf : PdfFile) (doc : Document_of json) :
  Views.extract_pdf_outline pdf = Ok doc ->
  isinstance_str (title doc) = true
  \/ exists e reader v,
       Views.pdfplumber_body pdf = Raise e
       /\ pypdf2_open pdf = Ok reader
       /\ metadata_title reader = Some v
       /\ title doc = metadata_object v.
Proof.
  unfold Views.extract_pdf_outline.
  destruct (Views.pdfplumber_body pdf) as [d|e] eqn:B; cbn [try_except].
  - intros [= ->]. left.
    pose proof B as B'. unfold Views.pdfplumber_body in B'.
    apply bind_ok in B' as (pages & O & _).
    now rewrite (views_rich_title_eq pdf pages doc O B).
  - unfold Views.extract_with_pypdf2.
    destruct (Views.pypdf2_body pdf) as [d|e'] eqn:P; cbn [try_except].
    + intros [= ->].
      pose proof P as P'. unfold Views.pypdf2_body in P'.
      apply bind_ok in P' as (reader & O & _).
      rewrite (views_plain_title_eq pdf reader doc O P).
      unfold views_plain_title.
      destruct (metadata_title reader) as [v|] eqn:M.
      * right. now exists e, reader, v.
      * left. now destruct (reader_pages reader).
    + intros [= <-]. now left.
Qed.

(** X11.  The dict that [extract_pdf_outline] of process_pdfs.py returns
    passes [validate_json_format] with the message "JSON format is valid",
    whatever the file, the failure document included.  The dict of views.py
    passes exactly when its title is a [str], and is refused with "Title must
    be a string" otherwise; its title is a [str] unless pdfplumber failed and
    it is the [/Title] object of the metadata that PyPDF2 read. *)
Theorem extracted_document_validates (pdf : PdfFile) :
  (exists doc,
     ProcessPdfs.extract_pdf_outline pdf = Ok doc
     /\ validate_json_format (document_json doc) = (true, JSON_format_is_valid))
  /\ (exists doc,
        Views.extract_pdf_outline pdf = Ok doc
        /\ validate_json_format (views_document_json doc)
           = (if isinstance_str (title doc)
              then (true, JSON_format_is_valid)
              else (false, Title_must_be_a_string))
        /\ (isinstance_str (title doc) = true
            \/ exists e reader v,
                 Views.pdfplumber_body pdf = Raise e
                 /\ pypdf2_open pdf = Ok reader
                 /\ metadata_title reader = Some v
                 /\ title doc = metadata_object v)).
Proof.
  split.
  - destruct (pp_outcome pdf) as (doc & E & O).
    exists doc. split; [exact E|].
    apply document_validates. now apply (outcome_pages pdf doc O).
  - destruct (views_outcome pdf) as (doc & E & O).
    exists doc. split; [exact E|]. split.
    + apply views_document_validates. now apply (outcome_views_pages pdf doc O).
    + exact (views_title_origin pdf doc E).
Qed.

(** C1 fails on views.py: the document is returned without an exception,
    but its title need not be a string.  For a file that only PyPDF2 opens
    and whose metadata has the number 42 under [/Title], the title of the
    document is that number, and [validate_json_format] refuses the document
    with "Title must be a string".  process_pdfs.py passes the value through
    [str()] and returns the title "42" for the same file. *)
Theorem views_title_is_not_always_a_string :
  Views.pdfplumber_body number_title_pdf
  = Raise "No /Root object! - Is this really a PDF?"
  /\ Views.extract_pdf_outline number_title_pdf
     = Ok (mkDocument (JInt 42) [mkHeading H1 "1. Scope" 1] None)
  /\ isinstance_str (JInt 42) = false
  /\ validate_json_format
       (views_document_json (mkDocument (JInt 42) [mkHeading H1 "1. Scope" 1] None))
     = (false, Title_must_be_a_string)
  /\ ProcessPdfs.extract_pdf_outline number_title_pdf
     = Ok (mkDocument "42" [mkHeading H1 "1. Scope" 1] None)
  /\ validate_json_format
       (document_json (mkDocument "42" [mkHeading H1 "1. Scope" 1] None))
     = (true, JSON_format_is_valid).
Proof. repeat split; reflexivity. Qed.

End Validation.

(** ** The font-size histogram *)

Lemma font_sizes_of_fold (cs : list Glyph) : forall acc,
  fold_left (fun fs g => match size g with
                         | Some q => count_size q fs
                         | None => fs
                         end) cs acc
  = fold_left (fun fs q => count_size q fs) (glyph_sizes cs) acc.
Proof.
  induction cs as [|g r IH]; intros acc; [reflexivity|].
  unfold glyph_sizes. simpl. fold (glyph_sizes r).
  destruct (size g) as [q|]; simpl; apply IH.
Qed.

Lemma count_size_split (q : Q) (fs : list (Q * nat)) :
  (exists l1 k n l2,
     fs = (l1 ++ (k, n) :: l2)%list
     /\ k == q
     /\ Forall (fun kn => ~ fst kn == q) l1
     /\ count_size q fs = (l1 ++ (k, S n) :: l2)%list)
  \/ (Forall (fun kn => ~ fst kn == q) fs
      /\ count_size q fs = (fs ++ [(q, 1%nat)])%list).
Proof.
  induction fs as [|[k n] r IH]; simpl.
  - right. split; [constructor | reflexivity].
  - destruct (Qeq_bool k q) eqn:E.
    + left. exists [], k, n, r. apply Qeq_bool_iff in E.
      repeat split; [exact E | constructor].
    + assert (Hk : ~ k == q).
      { intros H. apply Qeq_bool_iff in H. rewrite H in E. discriminate E. }
      destruct IH as [(l1 & k' & n' & l2 & -> & Hq & Hl1 & ->) | (Hall & ->)].
      * left. exists ((k, n) :: l1), k', n', l2.
        repeat split; [exact Hq | now constructor].
      * right. split; [now constructor | reflexivity].
Qed.

Lemma count_in_snoc (k q : Q) (seen : list Q) :
  count_in k (seen ++ [q])
  = (count_in k seen + (if Qeq_bool q k then 1 else 0))%nat.
Proof.
  unfold count_in. rewrite filter_app, length_app. simpl.
  now destruct (Qeq_bool q k).
Qed.

Lemma count_in_none (q : Q) (seen : list Q) :
  (forall x, In x seen -> ~ x == q) -> count_in q seen = 0%nat.
Proof.
  unfold count_in. induction seen as [|x r IH]; intros H; [reflexivity|].
  simpl. destruct (Qeq_bool x q) eqn:E.
  - apply Qeq_bool_iff in E. destruct (H x (or_introl eq_refl) E).
  - apply IH. intros y Hy. apply H. now right.
Qed.

Lemma Qeq_bool_false (a b : Q) : ~ a == b -> Qeq_bool a b = false.
Proof.
  intros H. destruct (Qeq_bool a b) eqn:E; [|reflexivity].
  apply Qeq_bool_iff in E. destruct (H E).
Qed.

Lemma distinct_snoc (keys : list Q) (q : Q) :
  ForallOrdPairs (fun a b => ~ a == b) keys ->
  Forall (fun k => ~ k == q) keys ->
  ForallOrdPairs (fun a b => ~ a == b) (keys ++ [q]).
Proof.
  induction 1 as [|a l Ha Hl IH]; intros Hq; simpl.
  - constructor; constructor.
  - inversion Hq as [|? ? Haq Hlq]; subst.
    constructor; [|now apply IH].
    apply Forall_app. split; [exact Ha | now constructor].
Qed.

Lemma distinct_middle (l1 l2 : list Q) (k : Q) :
  ForallOrdPairs (fun a b => ~ a == b) (l1 ++ k :: l2) ->
  Forall (fun x => ~ x == k) l1 /\ Forall (fun x => ~ x == k) l2.
Proof.
  induction l1 as [|a l IH]; simpl; intros H; inversion H as [|? ? Ha Hl]; subst.
  - split; [constructor|].
    eapply Forall_impl; [|exact Ha]. intros x Hx Hxk. apply Hx. now symmetry.
  - destruct (IH Hl) as [H1 H2]. split; [|exact H2].
    constructor; [|exact H1].
    apply Forall_app in Ha as [_ Ha]. now inversion Ha.
Qed.

Lemma histogram_step (seen : list Q) (fs : list (Q * nat)) (q : Q) :
  histogram_of seen fs -> histogram_of (seen ++ [q]) (count_size q fs).
Proof.
  intros (Hd & Hc & Hs).
  destruct (count_size_split q fs)
    as [(l1 & k & n & l2 & -> & Hkq & Hl1 & ->) | (Hall & ->)].
  - (* the size has its key already *)
    assert (Hkeys : map fst (l1 ++ (k, S n) :: l2)%list
                    = map fst (l1 ++ (k, n) :: l2)%list).
    { now rewrite !map_app. }
    rewrite map_app in Hd. simpl in Hd.
    destruct (distinct_middle _ _ _ Hd) as [D1 D2].
    split; [|split].
    + rewrite Hkeys, map_app. exact Hd.
    + intros k' n' Hin. rewrite count_in_snoc.
      apply in_app_or in Hin. destruct Hin as [Hin | [[= <- <-] | Hin]].
      * assert (Hin0 : In (k', n') (l1 ++ (k, n) :: l2)%list)
          by (apply in_or_app; now left).
        destruct (Hc k' n' Hin0) as [-> Hseen].
        rewrite Forall_forall in Hl1. specialize (Hl1 _ Hin). simpl in Hl1.
        rewrite (Qeq_bool_false q k') by (intros H; apply Hl1; now symmetry).
        split; [lia | apply in_or_app; now left].
      * assert (Hin0 : In (k, n) (l1 ++ (k, n) :: l2)%list)
          by (apply in_or_app; right; now left).
        destruct (Hc k n Hin0) as [-> Hseen].
        assert (E : Qeq_bool q k = true) by (apply Qeq_bool_iff; now symmetry).
        rewrite E. split; [lia | apply in_or_app; now left].
      * assert (Hin0 : In (k', n') (l1 ++ (k, n) :: l2)%list)
          by (apply in_or_app; right; now right).
        rewrite Forall_forall in D2.
        assert (Hk' : ~ k' == k) by (apply D2, in_map_iff; now exists (k', n')).
        destruct (Hc k' n' Hin0) as [-> Hseen].
        rewrite (Qeq_bool_false q k')
          by (intros H; apply Hk'; rewrite <- H; now symmetry).
        split; [lia | apply in_or_app; now left].
    + intros x Hx. rewrite Hkeys. apply in_app_or in Hx.
      destruct Hx as [Hx | [<- | []]]; [now apply Hs|].
      exists k. split; [|exact Hkq].
      rewrite map_app. apply in_or_app. right. now left.
  - (* a new size *)
    assert (Hnew : forall x, In x seen -> ~ x == q).
    { intros x Hx Hxq. destruct (Hs x Hx) as (k & Hk & Hkx).
      apply in_map_iff in Hk. destruct Hk as ([k' n'] & <- & Hin).
      rewrite Forall_forall in Hall. apply (Hall _ Hin). simpl.
      now rewrite Hkx. }
    split; [|split].
    + rewrite map_app. simpl. apply distinct_snoc; [exact Hd|].
      apply Forall_map. exact Hall.
    + intros k n Hin. rewrite count_in_snoc.
      apply in_app_or in Hin. destruct Hin as [Hin | [[= <- <-] | []]].
      * destruct (Hc k n Hin) as [-> Hseen].
        rewrite Forall_forall in Hall. specialize (Hall _ Hin). simpl in Hall.
        rewrite (Qeq_bool_false q k) by (intros H; apply Hall; now symmetry).
        split; [lia | apply in_or_app; now left].
      * rewrite (count_in_none q seen Hnew).
        assert (E : Qeq_bool q q = true) by (apply Qeq_bool_iff; reflexivity).
        rewrite E. split; [reflexivity | apply in_or_app; right; now left].
    + intros x Hx. rewrite map_app. apply in_app_or in Hx.
      destruct Hx as [Hx | [<- | []]].
      * destruct (Hs x Hx) as (k & Hk & Hkx).
        exists k. split; [apply in_or_app; now left | exact Hkx].
      * exists q. split; [apply in_or_app; right; now left | reflexivity].
Qed.

Lemma histogram_fold (qs : list Q) : forall seen fs,
  histogram_of seen fs ->
  histogram_of (seen ++ qs) (fold_left (fun fs q => count_size q fs) qs fs).
Proof.
  induction qs as [|q r IH]; intros seen fs H; simpl.
  - now rewrite app_nil_r.
  - replace (seen ++ q :: r)%list with ((seen ++ [q]) ++ r)%list
      by (now rewrite <- app_assoc).
    apply IH, histogram_step, H.
Qed.

Lemma font_sizes_histogram (cs : list Glyph) :
  histogram_of (glyph_sizes cs) (font_sizes_of cs).
Proof.
  unfold font_sizes_of. rewrite font_sizes_of_fold.
  apply (histogram_fold (glyph_sizes cs) [] []).
  split; [constructor|]. split; [intros k n []|intros x []].
Qed.

Lemma count_size_total (q : Q) (fs : list (Q * nat)) :
  list_sum (map snd (count_size q fs)) = S (list_sum (map snd fs)).
Proof.
  induction fs as [|[k n] r IH]; simpl; [reflexivity|].
  destruct (Qeq_bool k q); simpl; [reflexivity|]. rewrite IH. lia.
Qed.

Lemma font_sizes_total (qs : list Q) : forall fs,
  list_sum (map snd (fold_left (fun fs q => count_size q fs) qs fs))
  = (list_sum (map snd fs) + List.length qs)%nat.
Proof.
  induction qs as [|q r IH]; intros fs; simpl; [lia|].
  rewrite IH, count_size_total. lia.
Qed.

(** X2.  The font-size dict of a page has one key for each different size
    among its glyphs, the value of a key is the number of glyphs of that
    size, which is at least 1, and the values add up to the number of glyphs
    that have a size. *)
Theorem font_sizes_count_glyphs (cs : list Glyph) :
  ForallOrdPairs (fun a b => ~ a == b) (map fst (font_sizes_of cs))
  /\ (forall k n, In (k, n) (font_sizes_of cs) ->
                  n = count_in k (glyph_sizes cs) /\ (1 <= n)%nat)
  /\ (forall g q, In g cs -> size g = Some q ->
                  exists k n, In (k, n) (font_sizes_of cs) /\ k == q)
  /\ list_sum (map snd (font_sizes_of cs)) = List.length (glyph_sizes cs).
Proof.
  destruct (font_sizes_histogram cs) as (Hd & Hc & Hs).
  split; [exact Hd|]. split; [|split].
  - intros k n Hin. destruct (Hc k n Hin) as [-> Hseen]. split; [reflexivity|].
    unfold count_in.
    assert (Hf : In k (filter (fun x => Qeq_bool x k) (glyph_sizes cs))).
    { apply filter_In. split; [exact Hseen|]. apply Qeq_bool_iff. reflexivity. }
    destruct (filter (fun x => Qeq_bool x k) (glyph_sizes cs)); [destruct Hf|].
    simpl. lia.
  - intros g q Hg Hq.
    assert (Hin : In q (glyph_sizes cs)).
    { unfold glyph_sizes. apply in_flat_map. exists g. split; [exact Hg|].
      rewrite Hq. now left. }
    destruct (Hs q Hin) as (k & Hk & Hkq).
    apply in_map_iff in Hk. destruct Hk as ([k' n] & <- & Hk).
    now exists k', n.
  - unfold font_sizes_of. rewrite font_sizes_of_fold, font_sizes_total. reflexivity.
Qed.

Lemma font_sizes_count_glyphs_witness :
  let cs := [mkGlyph (Some (12 # 1)); mkGlyph None; mkGlyph (Some (24 # 2));
             mkGlyph (Some (9 # 1))] in
  exists k n, In (k, n) (font_sizes_of cs) /\ k == 24 # 2.
Proof.
  cbv zeta.
  destruct (font_sizes_count_glyphs
              [mkGlyph (Some (12 # 1)); mkGlyph None; mkGlyph (Some (24 # 2));
               mkGlyph (Some (9 # 1))]) as (_ & _ & H & _).
  apply (H (mkGlyph (Some (24 # 2)))); [|reflexivity].
  right. right. left. reflexivity.
Defined.

Lemma insert_desc_in (q x : Q) (l : list Q) :
  In x (insert_desc q l) <-> x = q \/ In x l.
Proof.
  induction l as [|y r IH]; simpl.
  - split; [intros [<-|[]]; now left | intros [->|[]]; now left].
  - destruct (Qle_bool q y); simpl; [rewrite IH; tauto|].
    split; [intros [<-|H]; auto | intros [->|H]; auto].
Qed.

Lemma insert_desc_sorted (q : Q) (l : list Q) :
  StronglySorted (fun a b => b < a) l ->
  Forall (fun x => ~ x == q) l ->
  StronglySorted (fun a b => b < a) (insert_desc q l).
Proof.
  induction 1 as [|y r Hr IH Hy]; intros Hq; simpl.
  - constructor; constructor.
  - inversion Hq as [|? ? Hyq Hrq]; subst.
    destruct (Qle_bool q y) eqn:E.
    + apply Qle_bool_iff in E.
      assert (Hlt : q < y).
      { apply Qle_lteq in E. destruct E as [E|E]; [exact E|].
        destruct Hyq. now symmetry. }
      constructor; [now apply IH|].
      apply Forall_forall. intros x Hx. apply insert_desc_in in Hx.
      destruct Hx as [-> | Hx]; [exact Hlt|].
      rewrite Forall_forall in Hy. now apply Hy.
    + assert (Hlt : y < q).
      { apply Qnot_le_lt. intros H. apply Qle_bool_iff in H. rewrite H in E.
        discriminate E. }
      constructor; [now constructor|].
      constructor; [exact Hlt|].
      eapply Forall_impl; [|exact Hy]. intros x Hx. simpl in Hx.
      now apply Qlt_trans with y.
Qed.

Lemma sorted_keys (keys : list Q) :
  ForallOrdPairs (fun a b => ~ a == b) keys ->
  StronglySorted (fun a b => b < a) (fold_right insert_desc [] keys)
  /\ (forall x, In x (fold_right insert_desc [] keys) <-> In x keys).
Proof.
  induction 1 as [|k l Hk Hl [IHs IHin]]; simpl.
  - split; [constructor | tauto].
  - split.
    + apply insert_desc_sorted; [exact IHs|].
      apply Forall_forall. intros x Hx. apply IHin in Hx.
      rewrite Forall_forall in Hk. intros H. apply (Hk x Hx). now symmetry.
    + intros x. rewrite insert_desc_in, IHin. split; intros [H|H]; auto.
Qed.

(** X1.  The list of sizes computed for a page is strictly decreasing, so
    it holds no size twice; each of its members is the size of a glyph of the
    page, and the size of every glyph is in it. *)
Theorem sorted_sizes_strictly_decreasing (cs : list Glyph) :
  let sorted_sizes := sorted_sizes_of (font_sizes_of cs) in
  StronglySorted (fun a b => b < a) sorted_sizes
  /\ (forall q, In q sorted_sizes -> exists g, In g cs /\ size g = Some q)
  /\ (forall g q, In g cs -> size g = Some q ->
                  exists k, In k sorted_sizes /\ k == q).
Proof.
  cbv zeta. unfold sorted_sizes_of.
  destruct (font_sizes_histogram cs) as (Hd & Hc & Hs).
  destruct (sorted_keys _ Hd) as [Hsorted Hin].
  split; [exact Hsorted|]. split.
  - intros q Hq. apply Hin, in_map_iff in Hq. destruct Hq as ([k n] & <- & Hk).
    destruct (Hc k n Hk) as [_ Hseen].
    unfold glyph_sizes in Hseen. apply in_flat_map in Hseen.
    destruct Hseen as (g & Hg & Hgk). exists g. split; [exact Hg|].
    simpl. destruct (size g) as [x|]; [|destruct Hgk].
    destruct Hgk as [-> | []]. reflexivity.
  - intros g q Hg Hq.
    assert (Hq' : In q (glyph_sizes cs)).
    { unfold glyph_sizes. apply in_flat_map. exists g. split; [exact Hg|].
      rewrite Hq. now left. }
    destruct (Hs q Hq') as (k & Hk & Hkq).
    exists k. split; [now apply Hin | exact Hkq].
Qed.

Lemma sorted_sizes_strictly_decreasing_witness :
  let cs := [mkGlyph (Some (12 # 1)); mkGlyph None; mkGlyph (Some (24 # 2));
             mkGlyph (Some (9 # 1)); mkGlyph (Some (18 # 1))] in
  exists g, In g cs /\ size g = Some (18 # 1).
Proof.
  cbv zeta.
  destruct (sorted_sizes_strictly_decreasing
              [mkGlyph (Some (12 # 1)); mkGlyph None; mkGlyph (Some (24 # 2));
               mkGlyph (Some (9 # 1)); mkGlyph (Some (18 # 1))]) as (_ & H & _).
  apply H. vm_compute. left. reflexivity.
Defined.

(** ** Saving, downloading and the upload view *)

Section Http.

Import ViewsHttp.

Example splitext_ex :
  map OsPath.splitext ["report.pdf"; "a/b.c/d"; ".bashrc"; "..pdf"; "a.b.c"; "x."; ""]
  = [("report", ".pdf"); ("a/b.c/d", ""); (".bashrc", ""); ("..pdf", "");
     ("a.b", ".c"); ("x", "."); ("", "")].
Proof. reflexivity. Qed.

Lemma endswith_refl (w : string) : endswith w w = true.
Proof. destruct w; simpl; [reflexivity|]. now rewrite Ascii.eqb_refl, String.eqb_refl. Qed.

Lemma endswith_append (a b : string) : endswith (a ++ b) b = true.
Proof.
  induction a as [|c r IH]; simpl; [apply endswith_refl|].
  rewrite IH. apply orb_true_r.
Qed.

Lemma endswith_append_r (a b suffix : string) :
  endswith b suffix = true -> endswith (a ++ b) suffix = true.
Proof.
  intros H. induction a as [|c r IH]; simpl; [exact H|].
  rewrite IH. apply orb_true_r.
Qed.

Lemma json_filename_is_json (env : Env) (pdf_filename : string) :
  endswith (json_filename_of env pdf_filename) ".json" = true.
Proof.
  unfold json_filename_of.
  apply endswith_append_r. apply (endswith_append_r "_"). apply endswith_append.
Qed.

(** X13.  A result that [save_outline_to_json] has saved can be downloaded:
    the path returned is "output/" followed by the name of the file, and
    [download_result] on that name answers 200 with the record written, which
    holds the name of the PDF, the time, and the title and the outline of the
    dict that was passed (an empty title and an empty outline when the dict
    lacks them). *)
Theorem saved_result_can_be_downloaded (env : Env) (dir dir' : Dir)
    (pdf_filename path : string) (outline : list (string * json)) :
  save_outline_to_json env dir pdf_filename outline = (dir', Ok path) ->
  path = "output/" ++ json_filename_of env pdf_filename
  /\ download_result dir' (json_filename_of env pdf_filename)
     = mkResponse 200
         (JDict [("source_pdf", JStr pdf_filename);
                 ("processed_at", JStr (now_isoformat env));
                 ("title", dict_get_default "title" (JStr "") outline);
                 ("outline", dict_get_default "outline" (JList []) outline)]).
Proof.
  unfold save_outline_to_json.
  destruct (makedirs env); [|discriminate].
  destruct (open_for_writing env); [|discriminate].
  destruct (first_unserializable _); [discriminate|].
  intros [= <- <-]. split; [reflexivity|].
  unfold download_result. cbn [dir_get].
  rewrite String.eqb_refl, json_filename_is_json. reflexivity.
Qed.

Lemma saved_result_can_be_downloaded_witness :
  let env := mkEnv (Ok tt) "20240131_093000" "2024-01-31T09:30:00.000123"
               (Ok tt) (Ok "temp_report.pdf") (Ok tt)
               "Expecting value: line 4 column 12 (char 82)" in
  let record := outline_with_metadata env "report.pdf" [("title", JStr "Report")] in
  "output/report_20240131_093000.json" = "output/" ++ json_filename_of env "report.pdf"
  /\ download_result [("report_20240131_093000.json", Ok (JDict record))]
       (json_filename_of env "report.pdf")
     = mkResponse 200
         (JDict [("source_pdf", JStr "report.pdf");
                 ("processed_at", JStr (now_isoformat env));
                 ("title", dict_get_default "title" (JStr "") [("title", JStr "Report")]);
                 ("outline",
                  dict_get_default "outline" (JList []) [("title", JStr "Report")])]).
Proof.
  cbv zeta.
  apply (saved_result_can_be_downloaded
           (mkEnv (Ok tt) "20240131_093000" "2024-01-31T09:30:00.000123"
              (Ok tt) (Ok "temp_report.pdf") (Ok tt)
              "Expecting value: line 4 column 12 (char 82)")
           [] _ "report.pdf" _ [("title", JStr "Report")]).
  reflexivity.
Defined.

(** X14.  The record that [save_outline_to_json] writes has the four keys
    source_pdf, processed_at, title and outline and no other: an error key,
    or any other key of the dict passed, is not written.  When the dict
    passed is accepted by [validate_json_format], so is the record. *)
Theorem saved_record_keeps_title_and_outline (env : Env) (pdf_filename : string)
    (outline : list (string * json)) :
  map fst (outline_with_metadata env pdf_filename outline)
  = ["source_pdf"; "processed_at"; "title"; "outline"]
  /\ (fst (TestExtractor.validate_json_format outline) = true ->
      TestExtractor.validate_json_format (outline_with_metadata env pdf_filename outline)
      = (true, TestExtractor.JSON_format_is_valid)).
Proof.
  split; [reflexivity|].
  intros H.
  destruct (validate_json_format_parts outline) as [Hw _].
  apply Hw in H. destruct H as (t & items & Ht & Ho & Hitems).
  destruct (validate_json_format_parts (outline_with_metadata env pdf_filename outline))
    as [Hw' Hm'].
  assert (W : well_formed (outline_with_metadata env pdf_filename outline)).
  { exists t, items. unfold outline_with_metadata, dict_get_default.
    rewrite Ht, Ho. repeat split; try reflexivity. exact Hitems. }
  apply Hw' in W. pose proof W as M. apply Hm' in M.
  destruct (TestExtractor.validate_json_format
              (outline_with_metadata env pdf_filename outline)) as [b m].
  simpl in W, M. now subst.
Qed.

Lemma saved_record_keeps_title_and_outline_witness :
  let env := mkEnv (Ok tt) "20240131_093000" "2024-01-31T09:30:00" (Ok tt)
               (Ok "temp_report.pdf") (Ok tt)
               "Expecting value: line 4 column 12 (char 82)" in
  TestExtractor.validate_json_format
    (outline_with_metadata env "report.pdf" (document_json failure_document))
  = (true, TestExtractor.JSON_format_is_valid).
Proof.
  cbv zeta.
  eapply (saved_record_keeps_title_and_outline _ "report.pdf"
            (document_json failure_document)).
  reflexivity.
Defined.

Lemma extract_outline_accepted env st request upload :
  accepted request upload ->
  extract_outline env st request
  = match extract_outline_body env st upload with
    | (st', Ok response) => (st', response)
    | (st', Raise e) => (st', error_response 500 ("Error processing PDF: " ++ e))
    end.
Proof.
  intros (Hm & Hf & Hn & Hs). unfold extract_outline.
  rewrite Hm, Hf, Hn. simpl negb.
  assert (K : (50 * 1024 * 1024 <? upload_size upload)%Z = false)
    by (apply Z.ltb_ge; exact Hs).
  now rewrite K.
Qed.






(** X16.  A request that fails a check of [extract_outline] is answered 405
    (not a POST) or 400 (no file, a name that does not end in ".pdf", in this
    very case, or more than 50 * 1024 * 1024 bytes), and nothing is stored or
    written for it. *)
Theorem rejected_request_changes_nothing (env : Env) (st : State) (request : Request) :
  (forall upload, ~ accepted request upload) ->
  fst (extract_outline env st request) = st
  /\ (status (snd (extract_outline env st request)) = 405
      \/ status (snd (extract_outline env st request)) = 400)%Z.
Proof.
  intros H. unfold extract_outline.
  destruct (String.eqb (method request) "POST") eqn:Em; cbn [negb];
    [|split; [reflexivity | now left]].
  destruct (pdf_file request) as [upload|] eqn:Ef; [|split; [reflexivity | now right]].
  destruct (endswith (upload_name upload) ".pdf") eqn:En; cbn [negb];
    [|split; [reflexivity | now right]].
  destruct (50 * 1024 * 1024 <? upload_size upload)%Z eqn:Es;
    [split; [reflexivity | now right]|].
  destruct (H upload). apply String.eqb_eq in Em. apply Z.ltb_ge in Es.
  repeat split; assumption.
Qed.

Lemma rejected_request_changes_nothing_witness :
  let env := mkEnv (Ok tt) "20240131_093000" "2024-01-31T09:30:00" (Ok tt)
               (Ok "temp_SCAN.PDF") (Ok tt)
               "Expecting value: line 4 column 12 (char 82)" in
  let request := mkRequest "POST" (Some (mkUpload "SCAN.PDF" 2048 unreadable_pdf)) in
  fst (extract_outline env (mkState [] []) request) = mkState [] []
  /\ (status (snd (extract_outline env (mkState [] []) request)) = 405
      \/ status (snd (extract_outline env (mkState [] []) request)) = 400)%Z.
Proof.
  cbv zeta.
  apply rejected_request_changes_nothing.
  intros upload (_ & Hf & Hn & _). simpl in Hf. injection Hf as <-.
  simpl in Hn. discriminate Hn.
Defined.

(** X17.  When the upload has been stored and the result cannot be saved
    ([os.makedirs] or [open] raises), the answer is 500 with the message of
    the exception, the output directory is as before, and the temporary file
    stays in the media storage: it is deleted only after a successful
    save. *)
Theorem failed_save_leaves_temporary_file (env : Env) (st : State)
    (request : Request) (upload : Upload) (file_path e : string) :
  accepted request upload ->
  storage_save env = Ok file_path ->
  makedirs env = Raise e \/ (makedirs env = Ok tt /\ open_for_writing env = Raise e) ->
  snd (extract_outline env st request)
  = error_response 500 ("Error processing PDF: " ++ e)
  /\ output_dir (fst (extract_outline env st request)) = output_dir st
  /\ media (fst (extract_outline env st request)) = file_path :: media st.
Proof.
  intros A Es Ef.
  destruct (views_outcome (upload_pdf upload)) as (doc & E & _).
  rewrite (extract_outline_accepted env st request upload A).
  unfold extract_outline_body, save_outline_to_json.
  rewrite Es, E.
  destruct Ef as [Em | [Em Eo]]; rewrite Em; [|rewrite Eo]; simpl; now repeat split.
Qed.

Lemma failed_save_leaves_temporary_file_witness :
  let env := mkEnv (Raise "[Errno 28] No space left on device")
               "20240131_093000" "2024-01-31T09:30:00" (Ok tt)
               (Ok "temp_scan.pdf") (Ok tt)
               "Expecting value: line 4 column 12 (char 82)" in
  let request := mkRequest "POST" (Some (mkUpload "scan.pdf" 2048 unreadable_pdf)) in
  snd (extract_outline env (mkState [] []) request)
  = error_response 500 "Error processing PDF: [Errno 28] No space left on device"
  /\ output_dir (fst (extract_outline env (mkState [] []) request)) = []
  /\ media (fst (extract_outline env (mkState [] []) request)) = ["temp_scan.pdf"].
Proof.
  cbv zeta.
  apply (failed_save_leaves_temporary_file
           (mkEnv (Raise "[Errno 28] No space left on device")
              "20240131_093000" "2024-01-31T09:30:00" (Ok tt)
              (Ok "temp_scan.pdf") (Ok tt)
              "Expecting value: line 4 column 12 (char 82)")
           (mkState [] [])
           (mkRequest "POST" (Some (mkUpload "scan.pdf" 2048 unreadable_pdf)))
           (mkUpload "scan.pdf" 2048 unreadable_pdf) "temp_scan.pdf").
  - repeat split; try reflexivity. simpl. lia.
  - reflexivity.
  - left. reflexivity.
Defined.

(** X18.  [download_result] answers 200 exactly for a file of the output
    directory whose name ends in ".json" and that holds a JSON object, and the
    body is that object; it answers 404 exactly when there is no such file or
    the name does not end in ".json", and 500 otherwise. *)
Theorem download_result_statuses (dir : Dir) (filename : string) :
  (forall data,
     download_result dir filename = mkResponse 200 data
     <-> (exists d, data = JDict d
                    /\ dir_get filename dir = Some (Ok (JDict d))
                    /\ endswith filename ".json" = true))
  /\ (status (download_result dir filename) = 404%Z
      <-> dir_get filename dir = None \/ endswith filename ".json" = false)
  /\ (status (download_result dir filename) = 200
      \/ status (download_result dir filename) = 404
      \/ status (download_result dir filename) = 500)%Z.
Proof.
  unfold download_result.
  destruct (dir_get filename dir) as [[v|e]|] eqn:G;
    destruct (endswith filename ".json") eqn:E; simpl.
  all: try (destruct v as [| | | | | |d|c]); simpl.
  all: repeat split;
    try (intros H; discriminate H);
    try (intros [H|H]; discriminate H);
    try (intros (d' & _ & H & _); discriminate H);
    try (intros (d' & _ & _ & H); discriminate H);
    try (now left); try (now right; left); try (now right; right);
    try (now intros _; right); try (now intros _; left).
  - intros [= <-]. now exists d.
  - intros (d' & -> & [= <-] & _). reflexivity.
Qed.

End Http.

(** ** The clean-up command *)

Section Cleanup.

Import CleanupResults.

Lemma visit_dry_run (cutoff : Z) (f : StoredFile) (count : nat) :
  exists out,
    visit cutoff true f count
    = (true, if expired cutoff f then S count else count, out)
    /\ forallb (fun l => negb (is_deleted_line l)) out = true.
Proof.
  unfold visit, expired.
  destruct (endswith (stored_name f) ".json"); simpl; [|now eexists].
  destruct (getmtime f) as [m|e]; simpl; [|now eexists].
  destruct (m <? cutoff)%Z; now eexists.
Qed.

Lemma visit_real_run (cutoff : Z) (f : StoredFile) (count : nat) :
  exists out,
    visit cutoff false f count
    = (negb (swept cutoff f), if swept cutoff f then S count else count, out).
Proof.
  unfold visit, swept.
  destruct (endswith (stored_name f) ".json"); simpl; [|now eexists].
  destruct (getmtime f) as [m|e]; simpl; [|now eexists].
  destruct (m <? cutoff)%Z; [|destruct (remove f); now eexists].
  destruct (remove f) as [[]|e]; now eexists.
Qed.

Lemma sweep_dry_run (cutoff : Z) (files : list StoredFile) : forall count,
  exists written,
    sweep cutoff true files count
    = (files, (count + List.length (filter (expired cutoff) files))%nat, written)
    /\ forallb (fun l => negb (is_deleted_line l)) written = true.
Proof.
  induction files as [|f rest IH]; intros count.
  - exists []. simpl. rewrite Nat.add_0_r. now split.
  - cbn [sweep filter].
    destruct (visit_dry_run cutoff f count) as (out & -> & Hout).
    destruct (expired cutoff f).
    + destruct (IH (S count)) as (w & -> & Hw).
      exists (out ++ w)%list. cbn [List.length].
      rewrite Nat.add_succ_r, forallb_app, Hout, Hw. now split.
    + destruct (IH count) as (w & -> & Hw).
      exists (out ++ w)%list. rewrite forallb_app, Hout, Hw. now split.
Qed.

Lemma sweep_real_run (cutoff : Z) (files : list StoredFile) : forall count,
  exists written,
    sweep cutoff false files count
    = (filter (fun f => negb (swept cutoff f)) files,
       (count + List.length (filter (swept cutoff) files))%nat, written).
Proof.
  induction files as [|f rest IH]; intros count.
  - exists []. simpl. now rewrite Nat.add_0_r.
  - cbn [sweep filter].
    destruct (visit_real_run cutoff f count) as (out & ->).
    destruct (swept cutoff f); cbn [negb].
    + destruct (IH (S count)) as (w & ->).
      exists (out ++ w)%list. cbn [List.length]. now rewrite Nat.add_succ_r.
    + destruct (IH count) as (w & ->). now exists (out ++ w)%list.
Qed.

Lemma cutoff_date_of_ok (now days : Z) :
  (Z.abs days <= 999999999)%Z ->
  (0 <= now - days * microseconds_per_day <= max_datetime)%Z ->
  cutoff_date_of now days = Ok (now - days * microseconds_per_day)%Z.
Proof.
  intros Hd [Hlo Hhi]. unfold cutoff_date_of.
  assert (K1 : (days <? - 2 ^ 31)%Z = false) by (apply Z.ltb_ge; lia).
  assert (K2 : (2 ^ 31 - 1 <? days)%Z = false) by (apply Z.ltb_ge; lia).
  assert (K3 : (999999999 <? Z.abs days)%Z = false) by (apply Z.ltb_ge; lia).
  assert (K4 : (now - days * microseconds_per_day <? 0)%Z = false)
    by (apply Z.ltb_ge; lia).
  assert (K5 : (max_datetime <? now - days * microseconds_per_day)%Z = false)
    by (apply Z.ltb_ge; lia).
  rewrite K1, K2. cbn [orb]. rewrite K3. cbv zeta. now rewrite K4, K5.
Qed.

Lemma cutoff_date_of_raises (now days : Z) :
  (999999999 < Z.abs days)%Z
  \/ (now - days * microseconds_per_day < 0)%Z
  \/ (max_datetime < now - days * microseconds_per_day)%Z ->
  exists e, cutoff_date_of now days = Raise e.
Proof.
  intros H. unfold cutoff_date_of.
  destruct ((days <? - 2 ^ 31)%Z || (2 ^ 31 - 1 <? days)%Z); [now eexists|].
  destruct (999999999 <? Z.abs days)%Z eqn:K3; [now eexists|].
  apply Z.ltb_ge in K3. cbv zeta.
  destruct (now - days * microseconds_per_day <? 0)%Z eqn:K4; [now eexists|].
  destruct (max_datetime <? now - days * microseconds_per_day)%Z eqn:K5;
    [now eexists|].
  apply Z.ltb_ge in K4, K5. lia.
Qed.

Example cutoff_date_of_ex :
  let now := (739923 * microseconds_per_day)%Z in
  map (cutoff_date_of now)
    [30; 800000; -4000000; 1000000000; - 2 ^ 31; 2 ^ 31; - 2 ^ 31 - 1]%Z
  = [Ok (739893 * microseconds_per_day)%Z;
     Raise "date value out of range";
     Raise "date value out of range";
     Raise "days=1000000000; must have magnitude <= 999999999";
     Raise "days=-2147483648; must have magnitude <= 999999999";
     Raise "Python int too large to convert to C int";
     Raise "Python int too large to convert to C int"].
Proof. reflexivity. Qed.

(** X19.  A dry run of the clean-up removes nothing.  When the number of
    days is one that [timedelta] takes and the cutoff ([now] minus [days]
    days) is a date, the directory is left as it was, no line says that a
    file was deleted, and the last line gives the number of result files
    older than the cutoff.  Otherwise computing the cutoff raises, in either
    mode, before any file is looked at.  Without an output directory the
    command only says so, in either mode and whatever the number of days. *)
Theorem dry_run_removes_nothing (files : list StoredFile) (now days : Z) :
  let cutoff := (now - days * microseconds_per_day)%Z in
  ((Z.abs days <= 999999999)%Z -> (0 <= cutoff <= max_datetime)%Z ->
   exists written,
     handle (Some files) now days true
     = Ok (Some files,
           (written ++ [Would_delete_files
                          (List.length (filter (expired cutoff) files))])%list)
     /\ forallb (fun l => negb (is_deleted_line l)) written = true)
  /\ ((999999999 < Z.abs days)%Z \/ (cutoff < 0)%Z \/ (max_datetime < cutoff)%Z ->
      exists e, forall dry_run, handle (Some files) now days dry_run = Raise e)
  /\ (forall dry_run,
        handle None now days dry_run = Ok (None, [Output_directory_does_not_exist])).
Proof.
  cbv zeta. split; [|split; [|reflexivity]].
  - intros Hd Hc. unfold handle.
    rewrite (cutoff_date_of_ok now days Hd Hc). cbn [bind].
    destruct (sweep_dry_run (now - days * microseconds_per_day) files 0)
      as (w & -> & Hw).
    now exists w.
  - intros H. destruct (cutoff_date_of_raises now days H) as (e & E).
    exists e. intros dry_run. unfold handle. now rewrite E.
Qed.

Lemma dry_run_removes_nothing_witness :
  let old := mkStoredFile "report_20230101_000000.json" (Ok 0%Z) (Ok tt) in
  let now := (739923 * microseconds_per_day)%Z in
  (exists written,
     handle (Some [old]) now 30%Z true
     = Ok (Some [old], (written ++ [Would_delete_files 1])%list)
     /\ forallb (fun l => negb (is_deleted_line l)) written = true)
  /\ (exists e, forall dry_run, handle (Some [old]) now 800000%Z dry_run = Raise e).
Proof.
  cbv zeta. split.
  - destruct (dry_run_removes_nothing
                [mkStoredFile "report_20230101_000000.json" (Ok 0%Z) (Ok tt)]
                (739923 * microseconds_per_day)%Z 30%Z) as (H & _).
    apply H; [vm_compute; discriminate | vm_compute; split; discriminate].
  - destruct (dry_run_removes_nothing
                [mkStoredFile "report_20230101_000000.json" (Ok 0%Z) (Ok tt)]
                (739923 * microseconds_per_day)%Z 800000%Z) as (_ & H & _).
    apply H. right. left. reflexivity.
Defined.

Lemma filter_complement {A : Type} (f : A -> bool) (l : list A) :
  (List.length (filter f l) + List.length (filter (fun x => negb (f x)) l))%nat
  = List.length l.
Proof.
  induction l as [|x r IH]; simpl; [reflexivity|].
  destruct (f x); simpl; lia.
Qed.

(** X20.  When the number of days is one that [timedelta] takes and the
    cutoff ([now] minus [days] days) is a date, a real run of the clean-up
    removes exactly the files whose name ends in ".json", whose modification
    date is before the cutoff and whose removal succeeds, and leaves the
    others in their order; the count in the last line is the number of files
    removed.  So a file that is not a result file, a file modified at the
    cutoff or later, and a file whose date cannot be read all stay.
    Otherwise the run raises before any file is looked at. *)
Theorem cleanup_removes_expired_results (files : list StoredFile) (now days : Z) :
  let cutoff := (now - days * microseconds_per_day)%Z in
  ((Z.abs days <= 999999999)%Z -> (0 <= cutoff <= max_datetime)%Z ->
   exists remaining written count,
     handle (Some files) now days false
     = Ok (Some remaining, (written ++ [Deleted_files_older_than count days])%list)
     /\ remaining = filter (fun f => negb (swept cutoff f)) files
     /\ (count + List.length remaining)%nat = List.length files
     /\ (forall f, In f files -> endswith (stored_name f) ".json" = false ->
                   In f remaining)
     /\ (forall f m, In f files -> getmtime f = Ok m -> (cutoff <= m)%Z ->
                     In f remaining)
     /\ (forall f e, In f files -> getmtime f = Raise e -> In f remaining))
  /\ ((999999999 < Z.abs days)%Z \/ (cutoff < 0)%Z \/ (max_datetime < cutoff)%Z ->
      exists e, handle (Some files) now days false = Raise e).
Proof.
  cbv zeta. split.
  - intros Hd Hc. unfold handle.
    rewrite (cutoff_date_of_ok now days Hd Hc). cbn [bind].
    destruct (sweep_real_run (now - days * microseconds_per_day) files 0) as (w & ->).
    eexists. exists w. eexists. split; [reflexivity|]. split; [reflexivity|].
    split; [apply filter_complement|].
    split; [|split].
    + intros f Hin Hn. apply filter_In. split; [exact Hin|].
      unfold swept. now rewrite Hn.
    + intros f m Hin Hm Hcm. apply filter_In. split; [exact Hin|].
      unfold swept. rewrite Hm.
      assert (K : (m <? now - days * microseconds_per_day)%Z = false)
        by (apply Z.ltb_ge; exact Hcm).
      rewrite K. destruct (remove f); now rewrite andb_false_r.
    + intros f e Hin He. apply filter_In. split; [exact Hin|].
      unfold swept. rewrite He. now rewrite andb_false_r.
  - intros H. destruct (cutoff_date_of_raises now days H) as (e & E).
    exists e. unfold handle. now rewrite E.
Qed.

Lemma cleanup_removes_expired_results_witness :
  let old := mkStoredFile "report_20230101_000000.json" (Ok 0%Z) (Ok tt) in
  let fresh := mkStoredFile "report_20240101_000000.json"
                 (Ok (30 * microseconds_per_day)%Z) (Ok tt) in
  let other := mkStoredFile "notes.txt" (Ok 0%Z) (Ok tt) in
  (exists remaining written count,
     handle (Some [old; fresh; other]) (60 * microseconds_per_day)%Z 30%Z false
     = Ok (Some remaining, (written ++ [Deleted_files_older_than count 30%Z])%list)
     /\ In fresh remaining /\ In other remaining /\ count = 1%nat)
  /\ (exists e,
        handle (Some [old; fresh; other]) (60 * microseconds_per_day)%Z
          (-4000000)%Z false
        = Raise e).
Proof.
  cbv zeta. split.
  - destruct (cleanup_removes_expired_results
                [mkStoredFile "report_20230101_000000.json" (Ok 0%Z) (Ok tt);
                 mkStoredFile "report_20240101_000000.json"
                   (Ok (30 * microseconds_per_day)%Z) (Ok tt);
                 mkStoredFile "notes.txt" (Ok 0%Z) (Ok tt)]
                (60 * microseconds_per_day)%Z 30%Z) as (H & _).
    destruct H as (remaining & written & count & E & Hr & Hc & Hn & Hm & _);
      [vm_compute; discriminate | vm_compute; split; discriminate |].
    exists remaining, written, count. split; [exact E|].
    split; [|split].
    + apply (Hm _ (30 * microseconds_per_day)%Z).
      * right. left. reflexivity.
      * reflexivity.
      * vm_compute. discriminate.
    + apply Hn; [right; right; left; reflexivity | reflexivity].
    + rewrite Hr in Hc. change (count + 2 = 3)%nat in Hc. lia.
  - destruct (cleanup_removes_expired_results
                [mkStoredFile "report_20230101_000000.json" (Ok 0%Z) (Ok tt);
                 mkStoredFile "report_20240101_000000.json"
                   (Ok (30 * microseconds_per_day)%Z) (Ok tt);
                 mkStoredFile "notes.txt" (Ok 0%Z) (Ok tt)]
                (60 * microseconds_per_day)%Z (-4000000)%Z) as (_ & H).
    apply H. right. right. reflexivity.
Defined.

End Cleanup.

(** ** The batch driver *)

Section Batch.

Import ProcessPdfsBatch.

Lemma pp_no_error_key (pdf : PdfFile) (doc : Document) :
  ProcessPdfs.extract_pdf_outline pdf = Ok doc -> error doc = None.
Proof.
  unfold ProcessPdfs.extract_pdf_outline, ProcessPdfs.extract_with_pypdf2.
  destruct (ProcessPdfs.pdfplumber_body pdf) as [d1|e1] eqn:B1; simpl.
  - intros [= <-]. unfold ProcessPdfs.pdfplumber_body in B1.
    apply bind_ok in B1 as (? & _ & B1). apply bind_ok in B1 as (? & _ & B1).
    apply bind_ok in B1 as (? & _ & B1). now injection B1 as <-.
  - destruct (ProcessPdfs.pypdf2_body pdf) as [d2|e2] eqn:B2; simpl;
      intros [= <-]; [|reflexivity].
    unfold ProcessPdfs.pypdf2_body in B2.
    apply bind_ok in B2 as (? & _ & B2). apply bind_ok in B2 as (? & _ & B2).
    apply bind_ok in B2 as (? & _ & B2). now injection B2 as <-.
Qed.

Lemma process_one_written (f : InputPdf) (output : Dir) :
  write_outline f = Ok tt ->
  process_one f output = Ok (outline_file f :: output)
  /\ exists doc,
       ProcessPdfs.extract_pdf_outline (input_pdf f) = Ok doc
       /\ outline_file f = (stem f ++ ".json", Ok (JDict (document_json doc)))
       /\ TestExtractor.validate_json_format (document_json doc)
          = (true, TestExtractor.JSON_format_is_valid)
       /\ dict_get "error" (document_json doc) = None.
Proof.
  intros W. unfold process_one, outline_file.
  destruct (pp_outcome (input_pdf f)) as (doc & E & O).
  rewrite E, W. simpl. split; [reflexivity|].
  exists doc. split; [reflexivity|]. split; [reflexivity|].
  split; [apply document_validates; now apply (outcome_pages _ _ O)|].
  unfold document_json. now rewrite (pp_no_error_key _ _ E).
Qed.

Lemma process_all_written (pdf_files : list InputPdf) : forall output,
  Forall (fun f => write_outline f = Ok tt) pdf_files ->
  process_all pdf_files output = Ok (rev (map outline_file pdf_files) ++ output)%list.
Proof.
  induction pdf_files as [|f rest IH]; intros output H; [reflexivity|].
  inversion H as [|? ? Hf Hrest]; subst. simpl.
  destruct (process_one_written f output Hf) as [-> _]. simpl.
  rewrite (IH _ Hrest), <- app_assoc. reflexivity.
Qed.

(** X21.  When the output directory can be created and every outline can be
    written, [process_pdf_files] writes one file per PDF, named after its stem
    with ".json", the file of a later PDF in front of those of earlier ones;
    each file holds the document that [extract_pdf_outline] gives for the
    PDF, passes [validate_json_format] and has no error key: a PDF that
    cannot be read gets the failure document, not the error output. *)
Theorem batch_writes_one_outline_per_pdf (pdf_files : list InputPdf) (output : Dir) :
  Forall (fun f => write_outline f = Ok tt) pdf_files ->
  process_pdf_files (Ok tt) (Some pdf_files) output
  = Ok (rev (map outline_file pdf_files) ++ output)%list
  /\ Forall (fun f =>
               exists doc,
                 ProcessPdfs.extract_pdf_outline (input_pdf f) = Ok doc
                 /\ outline_file f = (stem f ++ ".json", Ok (JDict (document_json doc)))
                 /\ TestExtractor.validate_json_format (document_json doc)
                    = (true, TestExtractor.JSON_format_is_valid)
                 /\ dict_get "error" (document_json doc) = None)
       pdf_files.
Proof.
  intros H. split.
  - unfold process_pdf_files. simpl.
    destruct pdf_files as [|f rest]; [reflexivity|].
    now apply process_all_written.
  - eapply Forall_impl; [|exact H]. intros f Hf.
    exact (proj2 (process_one_written f [] Hf)).
Qed.

Lemma batch_writes_one_outline_per_pdf_witness :
  process_pdf_files (Ok tt)
    (Some [mkInputPdf "scan" unreadable_pdf (Ok tt) (Ok tt)]) []
  = Ok [("scan.json", Ok (JDict (document_json failure_document)))].
Proof.
  destruct (batch_writes_one_outline_per_pdf
              [mkInputPdf "scan" unreadable_pdf (Ok tt) (Ok tt)] []) as (H & _).
  - constructor; [reflexivity | constructor].
  - exact H.
Defined.

(** X22.  The error output of the batch driver is written only when the
    outline of that PDF could not be written, and its error is the message of
    that failed write, never one of the extraction; when the error output
    cannot be written either, [process_pdf_files] raises and the PDFs after
    it are not processed. *)
Theorem error_output_comes_from_a_failed_write (f : InputPdf)
    (rest : list InputPdf) (output : Dir) :
  (forall e, write_outline f = Raise e -> write_error_output f = Ok tt ->
             process_one f output
             = Ok ((stem f ++ ".json", Ok (JDict (error_output e))) :: output))
  /\ (forall e e', write_outline f = Raise e -> write_error_output f = Raise e' ->
                   process_pdf_files (Ok tt) (Some (f :: rest)) output = Raise e')
  /\ (forall name d output' v,
        process_one f output = Ok ((name, Ok (JDict d)) :: output') ->
        dict_get "error" d = Some v ->
        exists e, write_outline f = Raise e /\ v = JStr e).
Proof.
  destruct (pp_outcome (input_pdf f)) as (doc & E & _).
  split; [|split].
  - intros e W W'. unfold process_one. now rewrite E, W, W'.
  - intros e e' W W'.
    assert (P : process_one f output = Raise e').
    { unfold process_one. now rewrite E, W, W'. }
    unfold process_pdf_files. cbn [bind process_all]. now rewrite P.
  - intros name d output' v P G.
    destruct (write_outline f) as [[]|e] eqn:W.
    + destruct (process_one_written f output W) as (P' & doc' & _ & F & _ & N).
      rewrite P', F in P. injection P as _ <- _. rewrite N in G. discriminate G.
    + exists e. split; [reflexivity|].
      unfold process_one in P. rewrite E, W in P. simpl in P.
      destruct (write_error_output f); simpl in P; [|discriminate P].
      injection P as _ <- _. simpl in G. now injection G as <-.
Qed.

Lemma error_output_comes_from_a_failed_write_witness :
  process_one (mkInputPdf "scan" unreadable_pdf
                 (Raise "[Errno 13] Permission denied") (Ok tt)) []
  = Ok [("scan.json",
         Ok (JDict (error_output "[Errno 13] Permission denied")))].
Proof.
  destruct (error_output_comes_from_a_failed_write
              (mkInputPdf "scan" unreadable_pdf
                 (Raise "[Errno 13] Permission denied") (Ok tt)) [] [])
    as (H & _).
  apply H; reflexivity.
Defined.

End Batch.
